(** * TLS plaintext probes of the insights agent: a shallow embedding

    Two eBPF programs hook the TLS library of a monitored process:

    - [ebpf/openssl/openssl_tls.bpf.c] (module [Tls]): entry and exit probes
      on SSL_write and SSL_read, a handle registry fed by SSL_set_fd and
      SSL_free, records of at most 512 payload bytes pushed to a ring buffer;
    - [ebpf/bpf/openssl_hook.c] (module [Hook]): an entry probe on SSL_write,
      entry and exit probes on SSL_read, records of at most 65536 payload
      bytes pushed to a perf event array.

    Machine integers are [Z] with the wrap-around of every C conversion
    written out.  Kernel hash maps are [gmap Z _] together with the
    [max_entries] bound of their declaration.  A probe is a function from the
    helper environment, the probed registers and the maps to a return value,
    the maps afterwards and the records handed to the output channel. *)

From Stdlib Require Import ZArith Lia.
From stdpp Require Import base option list gmap.

Local Open Scope Z_scope.

(** ** C integer conversions *)

Module CInt.

Definition u32 (z : Z) : Z := z mod 2 ^ 32.

Definition u64 (z : Z) : Z := z mod 2 ^ 64.

Definition s32 (z : Z) : Z :=
  let r := z mod 2 ^ 32 in if r <? 2 ^ 31 then r else r - 2 ^ 32.

Definition s64 (z : Z) : Z :=
  let r := z mod 2 ^ 64 in if r <? 2 ^ 63 then r else r - 2 ^ 64.

End CInt.

(** ** Kernel side: helpers, hash maps, probed registers *)

Module Bpf.

Definition E2BIG : Z := 7.
Definition ENOENT : Z := 2.

(** What the helpers answer during one probe invocation.  The monitored
    process's memory, the clock, the identity of the running thread and the
    free space of the output channel are outside the programs. *)
Record env : Type := {
  (** bpf_get_current_pid_tgid(): tgid in the high, tid in the low 32 bits *)
  current_pid_tgid : Z;
  (** bpf_ktime_get_ns() *)
  ktime_ns : Z;
  (** bpf_probe_read_user(dst, size, src): [probe_read_user src size] is the
      [size] bytes copied, or [None] when the copy faults (negative return) *)
  probe_read_user : Z -> Z -> option (list Byte.byte);
  (** does bpf_ringbuf_reserve find room for one record *)
  ringbuf_has_room : bool;
  (** does bpf_perf_event_output find room for one record *)
  perf_has_room : bool
}.

(** The registers a probe reads through PT_REGS_PARM1..3 and PT_REGS_RC, as
    raw 64-bit values. *)
Record pt_regs : Type := {
  PT_REGS_PARM1 : Z;
  PT_REGS_PARM2 : Z;
  PT_REGS_PARM3 : Z;
  PT_REGS_RC : Z
}.

(** What a probe does: its return value, the maps it leaves and the records
    it handed to the output channel, oldest first. *)
Record outcome (S E : Type) : Type := {
  ret : Z;
  st : S;
  out : list E
}.
Arguments ret {S E} _.
Arguments st {S E} _.
Arguments out {S E} _.

Section hash.
Context {V : Type}.

(** BPF_MAP_TYPE_HASH with a fixed [max_entries]. *)
Definition bpf_map_lookup_elem (m : gmap Z V) (k : Z) : option V := m !! k.

(** Flag BPF_ANY: an existing key is overwritten; a new key is inserted
    while the map holds fewer than [max_entries] elements and refused with
    -E2BIG once it is full. *)
Definition bpf_map_update_elem (max_entries : Z) (m : gmap Z V) (k : Z) (v : V)
  : Z * gmap Z V :=
  match m !! k with
  | Some _ => (0, <[k := v]> m)
  | None =>
      if Z.of_nat (size m) <? max_entries then (0, <[k := v]> m)
      else (- E2BIG, m)
  end.

Definition bpf_map_delete_elem (m : gmap Z V) (k : Z) : Z * gmap Z V :=
  match m !! k with
  | Some _ => (0, delete k m)
  | None => (- ENOENT, m)
  end.
End hash.

End Bpf.

Import CInt Bpf.

(** ** ebpf/openssl/openssl_tls.bpf.c *)

Module Tls.

Definition MAX_TLS_DATA : Z := 512.
Definition DIR_WRITE : Z := 1.
Definition DIR_READ : Z := 2.
Definition FLAG_TRUNCATED : Z := 1.
Definition max_entries : Z := 32768.

Record ssl_io_args : Type := {
  args_ssl_ptr : Z;
  args_buf_ptr : Z
}.

(** [data] holds the first [data_len] bytes of the record's 512-byte array,
    the part the probe writes. *)
Record tls_event : Type := {
  timestamp_ns : Z;
  ssl_ptr : Z;
  pid : Z;
  tid : Z;
  fd : Z;
  total_len : Z;
  data_len : Z;
  direction : Z;
  flags : Z;
  data : list Byte.byte
}.

Record maps : Type := {
  ssl_fd_map : gmap Z Z;
  pending_write : gmap Z ssl_io_args;
  pending_read : gmap Z ssl_io_args
}.

Definition init : maps :=
  {| ssl_fd_map := ∅; pending_write := ∅; pending_read := ∅ |}.

Definition get_tid (pid_tgid : Z) : Z := u32 pid_tgid.

Definition get_pid (pid_tgid : Z) : Z := u32 (Z.shiftr pid_tgid 32).

(** Lines 92-97 of emit_event: the descriptor recorded for a handle. *)
Definition lookup_fd (m : gmap Z Z) (ssl : Z) : Z :=
  match bpf_map_lookup_elem m ssl with
  | Some fd => s32 fd
  | None => -1
  end.

(** Lines 99-101 of emit_event.  The helper zeroes the destination when the
    copy faults; the probe does not look at its return value. *)
Definition read_payload (e : env) (buf copy_len : Z) : list Byte.byte :=
  if 0 <? copy_len then
    match probe_read_user e buf copy_len with
    | Some bytes => bytes
    | None => replicate (Z.to_nat copy_len) Byte.x00
    end
  else [].

Definition emit_event (e : env) (fds : gmap Z Z) (args : option ssl_io_args)
    (captured_len : Z) (dir : Z) : Z * list tls_event :=
  match args with
  | None => (0, [])
  | Some a =>
      if captured_len <=? 0 then (0, [])
      else
        let '(copy_len, fl) :=
          if MAX_TLS_DATA <? u32 captured_len
          then (MAX_TLS_DATA, Z.lor 0 FLAG_TRUNCATED)
          else (u32 captured_len, 0) in
        if negb (ringbuf_has_room e) then (0, [])
        else
          let pid_tgid := current_pid_tgid e in
          (0, [ {| timestamp_ns := ktime_ns e;
                   ssl_ptr := args_ssl_ptr a;
                   pid := get_pid pid_tgid;
                   tid := get_tid pid_tgid;
                   fd := lookup_fd fds (args_ssl_ptr a);
                   total_len := u32 captured_len;
                   data_len := copy_len;
                   direction := dir;
                   flags := fl;
                   data := read_payload e (args_buf_ptr a) copy_len |} ])
  end.

Definition tid_key (e : env) : Z := current_pid_tgid e.

Definition handle_ssl_set_fd (e : env) (ctx : pt_regs) (s : maps)
    : outcome maps tls_event :=
  let ssl := u64 (PT_REGS_PARM1 ctx) in
  let fd := u32 (PT_REGS_PARM2 ctx) in
  let '(_, m) := bpf_map_update_elem max_entries (ssl_fd_map s) ssl fd in
  {| ret := 0;
     st := {| ssl_fd_map := m;
              pending_write := pending_write s;
              pending_read := pending_read s |};
     out := [] |}.

Definition handle_ssl_free (e : env) (ctx : pt_regs) (s : maps)
    : outcome maps tls_event :=
  let ssl := u64 (PT_REGS_PARM1 ctx) in
  let '(_, m) := bpf_map_delete_elem (ssl_fd_map s) ssl in
  {| ret := 0;
     st := {| ssl_fd_map := m;
              pending_write := pending_write s;
              pending_read := pending_read s |};
     out := [] |}.

Definition entry_args (ctx : pt_regs) : ssl_io_args :=
  {| args_ssl_ptr := u64 (PT_REGS_PARM1 ctx);
     args_buf_ptr := u64 (PT_REGS_PARM2 ctx) |}.

Definition handle_ssl_write_entry (e : env) (ctx : pt_regs) (s : maps)
    : outcome maps tls_event :=
  let args := entry_args ctx in
  let key := tid_key e in
  let '(_, m) := bpf_map_update_elem max_entries (pending_write s) key args in
  {| ret := 0;
     st := {| ssl_fd_map := ssl_fd_map s;
              pending_write := m;
              pending_read := pending_read s |};
     out := [] |}.

Definition handle_ssl_write_exit (e : env) (ctx : pt_regs) (s : maps)
    : outcome maps tls_event :=
  let key := tid_key e in
  match bpf_map_lookup_elem (pending_write s) key with
  | None => {| ret := 0; st := s; out := [] |}
  | Some args =>
      let r := s64 (PT_REGS_RC ctx) in
      let '(_, evs) := emit_event e (ssl_fd_map s) (Some args) r DIR_WRITE in
      let '(_, m) := bpf_map_delete_elem (pending_write s) key in
      {| ret := 0;
         st := {| ssl_fd_map := ssl_fd_map s;
                  pending_write := m;
                  pending_read := pending_read s |};
         out := evs |}
  end.

Definition handle_ssl_read_entry (e : env) (ctx : pt_regs) (s : maps)
    : outcome maps tls_event :=
  let args := entry_args ctx in
  let key := tid_key e in
  let '(_, m) := bpf_map_update_elem max_entries (pending_read s) key args in
  {| ret := 0;
     st := {| ssl_fd_map := ssl_fd_map s;
              pending_write := pending_write s;
              pending_read := m |};
     out := [] |}.

Definition handle_ssl_read_exit (e : env) (ctx : pt_regs) (s : maps)
    : outcome maps tls_event :=
  let key := tid_key e in
  match bpf_map_lookup_elem (pending_read s) key with
  | None => {| ret := 0; st := s; out := [] |}
  | Some args =>
      let r := s64 (PT_REGS_RC ctx) in
      let '(_, evs) := emit_event e (ssl_fd_map s) (Some args) r DIR_READ in
      let '(_, m) := bpf_map_delete_elem (pending_read s) key in
      {| ret := 0;
         st := {| ssl_fd_map := ssl_fd_map s;
                  pending_write := pending_write s;
                  pending_read := m |};
         out := evs |}
  end.

(** The truncation bit of a record. *)
Definition truncated (ev : tls_event) : bool :=
  negb (Z.land (flags ev) FLAG_TRUNCATED =? 0).

End Tls.

(** ** ebpf/bpf/openssl_hook.c *)

Module Hook.

Definition MAX_CAPTURE_SIZE : Z := 65536.
Definition max_entries : Z := 10240.

(** [data] holds the first [data_len] bytes of the record's array; the record
    starts zeroed, so the rest of the array is zero. *)
Record ssl_event : Type := {
  timestamp_ns : Z;
  pid : Z;
  tid : Z;
  fd : Z;
  is_write : Z;
  data_len : Z;
  data : list Byte.byte
}.

Record ssl_read_ctx : Type := {
  buf : Z;
  num : Z
}.

Definition init : gmap Z ssl_read_ctx := ∅.

Definition perf_event_output (e : env) (ev : ssl_event) : list ssl_event :=
  if perf_has_room e then [ev] else [].

Definition uprobe_ssl_write (e : env) (ctx : pt_regs) (m : gmap Z ssl_read_ctx)
    : outcome (gmap Z ssl_read_ctx) ssl_event :=
  let pid_ := u32 (Z.shiftr (current_pid_tgid e) 32) in
  let tid_ := u32 (current_pid_tgid e) in
  let buf_ := u64 (PT_REGS_PARM2 ctx) in
  let num_ := s32 (PT_REGS_PARM3 ctx) in
  if (num_ <=? 0) || (MAX_CAPTURE_SIZE <? num_) then
    {| ret := 0; st := m; out := [] |}
  else
    match probe_read_user e buf_ (u32 num_) with
    | None => {| ret := 0; st := m; out := [] |}
    | Some bytes =>
        {| ret := 0; st := m;
           out := perf_event_output e
                    {| timestamp_ns := ktime_ns e;
                       pid := pid_;
                       tid := tid_;
                       fd := 0;
                       is_write := 1;
                       data_len := u32 num_;
                       data := bytes |} |}
    end.

Definition uprobe_ssl_read (e : env) (ctx : pt_regs) (m : gmap Z ssl_read_ctx)
    : outcome (gmap Z ssl_read_ctx) ssl_event :=
  let buf_ := u64 (PT_REGS_PARM2 ctx) in
  let num_ := s32 (PT_REGS_PARM3 ctx) in
  if (num_ <=? 0) || (MAX_CAPTURE_SIZE <? num_) then
    {| ret := 0; st := m; out := [] |}
  else
    let pid_tid := current_pid_tgid e in
    let ctx_data := {| buf := buf_; num := num_ |} in
    let '(_, m') := bpf_map_update_elem max_entries m pid_tid ctx_data in
    {| ret := 0; st := m'; out := [] |}.

Definition uretprobe_ssl_read (e : env) (ctx : pt_regs) (m : gmap Z ssl_read_ctx)
    : outcome (gmap Z ssl_read_ctx) ssl_event :=
  let pid_tid := current_pid_tgid e in
  let ret_val := s64 (PT_REGS_RC ctx) in
  if (ret_val <=? 0) || (MAX_CAPTURE_SIZE <? ret_val) then
    let '(_, m') := bpf_map_delete_elem m pid_tid in
    {| ret := 0; st := m'; out := [] |}
  else
    match bpf_map_lookup_elem m pid_tid with
    | None => {| ret := 0; st := m; out := [] |}
    | Some ctx_data =>
        let data_len_ :=
          s32 (if ret_val <? num ctx_data then ret_val else num ctx_data) in
        match probe_read_user e (buf ctx_data) (u32 data_len_) with
        | None =>
            let '(_, m') := bpf_map_delete_elem m pid_tid in
            {| ret := 0; st := m'; out := [] |}
        | Some bytes =>
            let '(_, m') := bpf_map_delete_elem m pid_tid in
            {| ret := 0; st := m';
               out := perf_event_output e
                        {| timestamp_ns := ktime_ns e;
                           pid := u32 (Z.shiftr pid_tid 32);
                           tid := u32 pid_tid;
                           fd := 0;
                           is_write := 0;
                           data_len := u32 data_len_;
                           data := bytes |} |}
        end
    end.

Definition uprobe_ssl_write_ex := uprobe_ssl_write.

Definition uretprobe_ssl_read_ex := uretprobe_ssl_read.

End Hook.

(** ** Notions used by the statements *)

(** A key has room when it is already present or the map is not full. *)
Definition has_room {V : Type} (max_entries : Z) (m : gmap Z V) (k : Z) : Prop :=
  is_Some (m !! k) \/ Z.of_nat (size m) < max_entries.

(** Requested lengths in the table are those the entry probe lets through. *)
Definition stored_lengths_ok (m : gmap Z Hook.ssl_read_ctx) : Prop :=
  forall k c, m !! k = Some c -> 0 < Hook.num c <= Hook.MAX_CAPTURE_SIZE.

(** The length the exit probe copies: line 141. *)
Definition read_len (ret_val : Z) (c : Hook.ssl_read_ctx) : Z :=
  s32 (if ret_val <? Hook.num c then ret_val else Hook.num c).

(** ** Sequences of registry operations *)

Inductive registry_op : Type :=
  | Bind (handle descriptor : Z)
  | Unbind (handle : Z).

(** The registers SSL_set_fd(ssl, fd) and SSL_free(ssl) are probed with. *)
Definition registry_regs (handle descriptor : Z) : pt_regs :=
  {| PT_REGS_PARM1 := handle; PT_REGS_PARM2 := descriptor;
     PT_REGS_PARM3 := 0; PT_REGS_RC := 0 |}.

Definition run_op (e : env) (s : Tls.maps) (op : registry_op) : Tls.maps :=
  match op with
  | Bind h d => st (Tls.handle_ssl_set_fd e (registry_regs h d) s)
  | Unbind h => st (Tls.handle_ssl_free e (registry_regs h 0) s)
  end.

Definition run_ops (e : env) (ops : list registry_op) (s : Tls.maps) : Tls.maps :=
  fold_left (run_op e) ops s.

(** What the specification expects a lookup of [h] to answer after [ops],
    when it answered [before] beforehand: the descriptor of the latest Bind
    of [h], -1 once [h] is unbound. *)
Definition expected_fd (ops : list registry_op) (h : Z) (before : Z) : Z :=
  fold_left
    (fun acc op =>
       match op with
       | Bind h' d => if decide (u64 h' = h) then s32 d else acc
       | Unbind h' => if decide (u64 h' = h) then -1 else acc
       end)
    ops before.

(** [binds n] binds the handles 0 .. n-1 to descriptor 3, in this order, and
    [filled n] is the registry they leave. *)
Fixpoint binds (n : nat) : list registry_op :=
  match n with
  | O => []
  | S n' => binds n' ++ [Bind (Z.of_nat n') 3]
  end.

Fixpoint filled (n : nat) : gmap Z Z :=
  match n with
  | O => ∅
  | S n' => <[Z.of_nat n' := 3]> (filled n')
  end.

(** The declared size of the registry, as a number of entries. *)
Definition capacity : nat := Z.to_nat Tls.max_entries.

Definition full_registry : Tls.maps :=
  {| Tls.ssl_fd_map := filled capacity;
     Tls.pending_write := ∅;
     Tls.pending_read := ∅ |}.

(** Every Bind of the handle [h] in [ops] finds room in the registry when it
    runs: [h] is bound at that time, or the registry is not full. *)
Fixpoint binds_fit (e : env) (h : Z) (ops : list registry_op) (s : Tls.maps)
    : Prop :=
  match ops with
  | [] => True
  | op :: rest =>
      match op with
      | Bind h' _ =>
          u64 h' = h -> has_room Tls.max_entries (Tls.ssl_fd_map s) h
      | Unbind _ => True
      end
      /\ binds_fit e h rest (run_op e s op)
  end.

(** ** Runs of the perf-event program *)

Inductive hook_probe : Type :=
  | SslWriteEntry (e : env) (ctx : pt_regs)
  | SslReadEntry (e : env) (ctx : pt_regs)
  | SslReadExit (e : env) (ctx : pt_regs).

Definition hook_step (m : gmap Z Hook.ssl_read_ctx) (p : hook_probe)
    : gmap Z Hook.ssl_read_ctx :=
  match p with
  | SslWriteEntry e ctx => st (Hook.uprobe_ssl_write e ctx m)
  | SslReadEntry e ctx => st (Hook.uprobe_ssl_read e ctx m)
  | SslReadExit e ctx => st (Hook.uretprobe_ssl_read e ctx m)
  end.

(** ** Variations of an input *)

(** The same invocation with another third argument register. *)
Definition set_parm3 (ctx : pt_regs) (n : Z) : pt_regs :=
  {| PT_REGS_PARM1 := PT_REGS_PARM1 ctx;
     PT_REGS_PARM2 := PT_REGS_PARM2 ctx;
     PT_REGS_PARM3 := n;
     PT_REGS_RC := PT_REGS_RC ctx |}.

(** The same invocation with another return value register. *)
Definition set_rc (ctx : pt_regs) (rc : Z) : pt_regs :=
  {| PT_REGS_PARM1 := PT_REGS_PARM1 ctx;
     PT_REGS_PARM2 := PT_REGS_PARM2 ctx;
     PT_REGS_PARM3 := PT_REGS_PARM3 ctx;
     PT_REGS_RC := rc |}.

(** The same invocation with the output channel full or not. *)
Definition set_room (room : bool) (e : env) : env :=
  {| current_pid_tgid := current_pid_tgid e;
     ktime_ns := ktime_ns e;
     probe_read_user := probe_read_user e;
     ringbuf_has_room := room;
     perf_has_room := room |}.

(** ** Sample inputs *)

Module Sample.

Definition hello : list Byte.byte :=
  [Byte.x68; Byte.x65; Byte.x6c; Byte.x6c; Byte.x6f].

Definition buf_addr : Z := 4096.

(** A mapped megabyte at [buf_addr] that starts with [hello] and is zero
    afterwards; every other address faults. *)
Definition byte_at (addr : Z) : Byte.byte :=
  nth (Z.to_nat (addr - buf_addr)) hello Byte.x00.

Definition user_memory (addr size : Z) : option (list Byte.byte) :=
  if (buf_addr <=? addr) && (addr + size <=? buf_addr + 1048576)
  then Some (byte_at <$> seqZ addr size)
  else None.

Definition thread (pid_tgid : Z) : env :=
  {| current_pid_tgid := pid_tgid;
     ktime_ns := 1000;
     probe_read_user := user_memory;
     ringbuf_has_room := true;
     perf_has_room := true |}.

(** The same thread when the consumer lags and the channel is full. *)
Definition congested (pid_tgid : Z) : env :=
  {| current_pid_tgid := pid_tgid;
     ktime_ns := 1000;
     probe_read_user := user_memory;
     ringbuf_has_room := false;
     perf_has_room := false |}.

(** The same thread when the buffer of the call is no longer mapped. *)
Definition unmapped (pid_tgid : Z) : env :=
  {| current_pid_tgid := pid_tgid;
     ktime_ns := 1000;
     probe_read_user := fun _ _ => None;
     ringbuf_has_room := true;
     perf_has_room := true |}.

(** Registers at the entry of SSL_write / SSL_read (ssl, buf, num). *)
Definition at_entry (ssl buf_ num_ : Z) : pt_regs :=
  {| PT_REGS_PARM1 := ssl; PT_REGS_PARM2 := buf_;
     PT_REGS_PARM3 := u64 num_; PT_REGS_RC := 0 |}.

(** Registers at the exit of a call that returns [rc]. *)
Definition at_exit (rc : Z) : pt_regs :=
  {| PT_REGS_PARM1 := 0; PT_REGS_PARM2 := 0;
     PT_REGS_PARM3 := 0; PT_REGS_RC := u64 rc |}.

(** Thread 7 is inside SSL_write and inside SSL_read on handle 1, which is
    bound to descriptor 5. *)
Definition tls_busy : Tls.maps :=
  {| Tls.ssl_fd_map := {[ 1 := 5 ]};
     Tls.pending_write :=
       {[ 7 := {| Tls.args_ssl_ptr := 1; Tls.args_buf_ptr := buf_addr |} ]};
     Tls.pending_read :=
       {[ 7 := {| Tls.args_ssl_ptr := 1; Tls.args_buf_ptr := buf_addr |} ]} |}.

(** Thread 7 is inside SSL_read(ssl, buf, 1000). *)
Definition hook_busy : gmap Z Hook.ssl_read_ctx :=
  {[ 7 := {| Hook.buf := buf_addr; Hook.num := 1000 |} ]}.

(** The records of the perf program for "hello" written, and read, by
    thread 7. *)
Definition hello_written : Hook.ssl_event :=
  {| Hook.timestamp_ns := 1000; Hook.pid := 0; Hook.tid := 7; Hook.fd := 0;
     Hook.is_write := 1; Hook.data_len := 5; Hook.data := hello |}.

Definition hello_read : Hook.ssl_event :=
  {| Hook.timestamp_ns := 1000; Hook.pid := 0; Hook.tid := 7; Hook.fd := 0;
     Hook.is_write := 0; Hook.data_len := 5; Hook.data := hello |}.

End Sample.

(** ** The records the probes build *)

(** The record emit_event fills in for pending arguments [a], a positive
    length [len] and a direction. *)
Definition tls_record (e : env) (fds : gmap Z Z) (a : Tls.ssl_io_args)
    (len dir : Z) : Tls.tls_event :=
  {| Tls.timestamp_ns := ktime_ns e;
     Tls.ssl_ptr := Tls.args_ssl_ptr a;
     Tls.pid := Tls.get_pid (current_pid_tgid e);
     Tls.tid := Tls.get_tid (current_pid_tgid e);
     Tls.fd := Tls.lookup_fd fds (Tls.args_ssl_ptr a);
     Tls.total_len := u32 len;
     Tls.data_len := Z.min (u32 len) Tls.MAX_TLS_DATA;
     Tls.direction := dir;
     Tls.flags := if Tls.MAX_TLS_DATA <? u32 len then Tls.FLAG_TRUNCATED else 0;
     Tls.data :=
       Tls.read_payload e (Tls.args_buf_ptr a)
         (Z.min (u32 len) Tls.MAX_TLS_DATA) |}.

(** The record of the perf program for [len] bytes [bytes]. *)
Definition hook_record (e : env) (is_write_ len : Z) (bytes : list Byte.byte)
    : Hook.ssl_event :=
  {| Hook.timestamp_ns := ktime_ns e;
     Hook.pid := u32 (Z.shiftr (current_pid_tgid e) 32);
     Hook.tid := u32 (current_pid_tgid e);
     Hook.fd := 0;
     Hook.is_write := is_write_;
     Hook.data_len := len;
     Hook.data := bytes |}.

(** ** Runs of the ring-buffer program *)

Inductive tls_probe : Type :=
  | TlsSetFd (e : env) (ctx : pt_regs)
  | TlsFree (e : env) (ctx : pt_regs)
  | TlsWriteEntry (e : env) (ctx : pt_regs)
  | TlsWriteExit (e : env) (ctx : pt_regs)
  | TlsReadEntry (e : env) (ctx : pt_regs)
  | TlsReadExit (e : env) (ctx : pt_regs).

Definition tls_run (p : tls_probe) (s : Tls.maps) : outcome Tls.maps Tls.tls_event :=
  match p with
  | TlsSetFd e ctx => Tls.handle_ssl_set_fd e ctx s
  | TlsFree e ctx => Tls.handle_ssl_free e ctx s
  | TlsWriteEntry e ctx => Tls.handle_ssl_write_entry e ctx s
  | TlsWriteExit e ctx => Tls.handle_ssl_write_exit e ctx s
  | TlsReadEntry e ctx => Tls.handle_ssl_read_entry e ctx s
  | TlsReadExit e ctx => Tls.handle_ssl_read_exit e ctx s
  end.

Definition tls_step (s : Tls.maps) (p : tls_probe) : Tls.maps := st (tls_run p s).

Definition hook_run (p : hook_probe) (m : gmap Z Hook.ssl_read_ctx)
    : outcome (gmap Z Hook.ssl_read_ctx) Hook.ssl_event :=
  match p with
  | SslWriteEntry e ctx => Hook.uprobe_ssl_write e ctx m
  | SslReadEntry e ctx => Hook.uprobe_ssl_read e ctx m
  | SslReadExit e ctx => Hook.uretprobe_ssl_read e ctx m
  end.

(** Which table a probe of the ring-buffer program works on. *)
Definition on_registry (p : tls_probe) : bool :=
  match p with TlsSetFd _ _ | TlsFree _ _ => true | _ => false end.

Definition on_write (p : tls_probe) : bool :=
  match p with TlsWriteEntry _ _ | TlsWriteExit _ _ => true | _ => false end.

Definition on_read (p : tls_probe) : bool :=
  match p with TlsReadEntry _ _ | TlsReadExit _ _ => true | _ => false end.

Definition is_read_entry (p : hook_probe) : bool :=
  match p with SslReadEntry _ _ => true | _ => false end.

(** Is thread [k] inside SSL_write, as far as the probes of [run] saw: was
    the latest SSL_write probe on [k] an entry.  Likewise for SSL_read, in
    either program. *)
Definition write_open (k : Z) (run : list tls_probe) : bool :=
  fold_left
    (fun b p =>
       match p with
       | TlsWriteEntry e _ => if decide (Tls.tid_key e = k) then true else b
       | TlsWriteExit e _ => if decide (Tls.tid_key e = k) then false else b
       | _ => b
       end)
    run false.

Definition read_open (k : Z) (run : list tls_probe) : bool :=
  fold_left
    (fun b p =>
       match p with
       | TlsReadEntry e _ => if decide (Tls.tid_key e = k) then true else b
       | TlsReadExit e _ => if decide (Tls.tid_key e = k) then false else b
       | _ => b
       end)
    run false.

Definition hook_open (k : Z) (run : list hook_probe) : bool :=
  fold_left
    (fun b p =>
       match p with
       | SslReadEntry e _ =>
           if decide (current_pid_tgid e = k) then true else b
       | SslReadExit e _ =>
           if decide (current_pid_tgid e = k) then false else b
       | SslWriteEntry _ _ => b
       end)
    run false.

(** ** Readers *)

(** Two invocations that differ at most in what the memory reader answers
    for sizes outside 1 .. [cap]. *)
Definition same_reads (cap : Z) (e e' : env) : Prop :=
  current_pid_tgid e = current_pid_tgid e'
  /\ ktime_ns e = ktime_ns e'
  /\ ringbuf_has_room e = ringbuf_has_room e'
  /\ perf_has_room e = perf_has_room e'
  /\ forall addr size, 0 < size <= cap ->
       probe_read_user e addr size = probe_read_user e' addr size.

(** A reader that copies as many bytes as it is asked for. *)
Definition reader_ok (e : env) : Prop :=
  forall addr size bytes,
    probe_read_user e addr size = Some bytes ->
    length bytes = Z.to_nat size.

(** The same invocation with a reader that refuses every size above [cap]. *)
Definition short_reader (cap : Z) (e : env) : env :=
  {| current_pid_tgid := current_pid_tgid e;
     ktime_ns := ktime_ns e;
     probe_read_user :=
       fun addr size =>
         if size <=? cap then probe_read_user e addr size else None;
     ringbuf_has_room := ringbuf_has_room e;
     perf_has_room := perf_has_room e |}.

(** ** Crowded tables *)

(** [crowd v n] holds [v] under each of the keys 0 .. n-1. *)
Fixpoint crowd {V : Type} (v : V) (n : nat) : gmap Z V :=
  match n with
  | O => ∅
  | S n' => <[Z.of_nat n' := v]> (crowd v n')
  end.

(** The declared size of the perf program's table, as a number of entries. *)
Definition hook_capacity : nat := Z.to_nat Hook.max_entries.

Definition nobody : Tls.ssl_io_args :=
  {| Tls.args_ssl_ptr := 0; Tls.args_buf_ptr := 0 |}.

(** Both pending tables of the ring-buffer program full. *)
Definition full_pending : Tls.maps :=
  {| Tls.ssl_fd_map := ∅;
     Tls.pending_write := crowd nobody capacity;
     Tls.pending_read := crowd nobody capacity |}.

(** The table of the perf program full. *)
Definition full_context : gmap Z Hook.ssl_read_ctx :=
  crowd {| Hook.buf := 0; Hook.num := 1 |} hook_capacity.

(** * Properties *)

(** ** Integer conversions *)

Section cint_facts.

Lemma u32_range z : 0 <= u32 z < 2 ^ 32.
Proof. unfold u32. apply Z.mod_pos_bound. lia. Qed.

Lemma u32_small z : 0 <= z < 2 ^ 32 -> u32 z = z.
Proof. intros H. unfold u32. now apply Z.mod_small. Qed.

Lemma u64_small z : 0 <= z < 2 ^ 64 -> u64 z = z.
Proof. intros H. unfold u64. now apply Z.mod_small. Qed.

Lemma s32_small z : - 2 ^ 31 <= z < 2 ^ 31 -> s32 z = z.
Proof.
  intros H. unfold s32.
  destruct (Z.ltb_spec (z mod 2 ^ 32) (2 ^ 31)) as [Hlt | Hge].
  - destruct (Z_lt_le_dec z 0) as [Hneg | Hpos].
    + assert (z mod 2 ^ 32 = z + 2 ^ 32) as E
        by (symmetry; apply (Z.mod_unique _ _ (-1)); lia).
      lia.
    + apply Z.mod_small. lia.
  - destruct (Z_lt_le_dec z 0) as [Hneg | Hpos].
    + assert (z mod 2 ^ 32 = z + 2 ^ 32) as E
        by (symmetry; apply (Z.mod_unique _ _ (-1)); lia).
      lia.
    + rewrite Z.mod_small in Hge by lia. lia.
Qed.

Lemma s32_u32 z : s32 (u32 z) = s32 z.
Proof. unfold s32, u32. now rewrite Z.mod_mod by lia. Qed.

Lemma s64_small z : - 2 ^ 63 <= z < 2 ^ 63 -> s64 z = z.
Proof.
  intros H. unfold s64.
  destruct (Z.ltb_spec (z mod 2 ^ 64) (2 ^ 63)) as [Hlt | Hge].
  - destruct (Z_lt_le_dec z 0) as [Hneg | Hpos].
    + assert (z mod 2 ^ 64 = z + 2 ^ 64) as E
        by (symmetry; apply (Z.mod_unique _ _ (-1)); lia).
      lia.
    + apply Z.mod_small. lia.
  - destruct (Z_lt_le_dec z 0) as [Hneg | Hpos].
    + assert (z mod 2 ^ 64 = z + 2 ^ 64) as E
        by (symmetry; apply (Z.mod_unique _ _ (-1)); lia).
      lia.
    + rewrite Z.mod_small in Hge by lia. lia.
Qed.

End cint_facts.

(** ** Hash maps *)

Section hash_facts.
Context {V : Type}.
Implicit Types (m : gmap Z V) (k : Z) (v : V).

Lemma update_has_room mx m k v :
  has_room mx m k -> bpf_map_update_elem mx m k v = (0, <[k := v]> m).
Proof.
  intros [[x Hx] | Hsz]; unfold bpf_map_update_elem.
  - now rewrite Hx.
  - destruct (m !! k); [reflexivity |].
    destruct (Z.ltb_spec (Z.of_nat (size m)) mx); [reflexivity | lia].
Qed.

Lemma update_full mx m k v :
  m !! k = None -> mx <= Z.of_nat (size m) ->
  bpf_map_update_elem mx m k v = (- E2BIG, m).
Proof.
  intros Hk Hsz. unfold bpf_map_update_elem. rewrite Hk.
  destruct (Z.ltb_spec (Z.of_nat (size m)) mx); [lia | reflexivity].
Qed.

Lemma update_cases mx m k v :
  (has_room mx m k /\ (bpf_map_update_elem mx m k v).2 = <[k := v]> m)
  \/ (~ has_room mx m k /\ (bpf_map_update_elem mx m k v).2 = m).
Proof.
  destruct (m !! k) as [x |] eqn:Hk.
  - left. assert (has_room mx m k) as Hr by (left; eauto).
    split; [exact Hr |]. now rewrite update_has_room.
  - destruct (Z_lt_le_dec (Z.of_nat (size m)) mx) as [Hlt | Hge].
    + left. assert (has_room mx m k) as Hr by (now right).
      split; [exact Hr |]. now rewrite update_has_room.
    + right. split.
      * intros [[x Hx] | Hlt]; [congruence | lia].
      * now rewrite update_full.
Qed.

Lemma update_other mx m k v k' :
  k <> k' -> (bpf_map_update_elem mx m k v).2 !! k' = m !! k'.
Proof.
  intros Hne.
  destruct (update_cases mx m k v) as [[_ ->] | [_ ->]]; [| reflexivity].
  now apply lookup_insert_ne.
Qed.

Lemma update_size mx m k v :
  (size (bpf_map_update_elem mx m k v).2 <= S (size m))%nat.
Proof.
  destruct (update_cases mx m k v) as [[_ ->] | [_ ->]]; [| lia].
  destruct (m !! k) as [x |] eqn:Hk.
  - rewrite map_size_insert_Some by eauto. lia.
  - rewrite map_size_insert_None by assumption. lia.
Qed.

Lemma delete_snd m k : (bpf_map_delete_elem m k).2 = delete k m.
Proof.
  unfold bpf_map_delete_elem. destruct (m !! k) eqn:Hk; [reflexivity |].
  simpl. symmetry. now apply delete_id.
Qed.

Lemma delete_absent m k :
  m !! k = None -> bpf_map_delete_elem m k = (- ENOENT, m).
Proof. intros Hk. unfold bpf_map_delete_elem. now rewrite Hk. Qed.

End hash_facts.

(** ** The ring-buffer program, probe by probe *)

Section tls_facts.
Import Tls.
Implicit Types (e : env) (ctx : pt_regs) (s : maps) (a : ssl_io_args).

Lemma set_fd_outcome e ctx s :
  handle_ssl_set_fd e ctx s =
  {| ret := 0;
     st := {| ssl_fd_map :=
                (bpf_map_update_elem max_entries (ssl_fd_map s)
                   (u64 (PT_REGS_PARM1 ctx)) (u32 (PT_REGS_PARM2 ctx))).2;
              pending_write := pending_write s;
              pending_read := pending_read s |};
     out := [] |}.
Proof.
  unfold handle_ssl_set_fd.
  now destruct (bpf_map_update_elem _ _ _ _).
Qed.

Lemma free_outcome e ctx s :
  handle_ssl_free e ctx s =
  {| ret := 0;
     st := {| ssl_fd_map := delete (u64 (PT_REGS_PARM1 ctx)) (ssl_fd_map s);
              pending_write := pending_write s;
              pending_read := pending_read s |};
     out := [] |}.
Proof.
  unfold handle_ssl_free. rewrite <- delete_snd.
  now destruct (bpf_map_delete_elem _ _).
Qed.

Lemma write_entry_outcome e ctx s :
  handle_ssl_write_entry e ctx s =
  {| ret := 0;
     st := {| ssl_fd_map := ssl_fd_map s;
              pending_write :=
                (bpf_map_update_elem max_entries (pending_write s)
                   (tid_key e) (entry_args ctx)).2;
              pending_read := pending_read s |};
     out := [] |}.
Proof.
  unfold handle_ssl_write_entry.
  now destruct (bpf_map_update_elem _ _ _ _).
Qed.

Lemma read_entry_outcome e ctx s :
  handle_ssl_read_entry e ctx s =
  {| ret := 0;
     st := {| ssl_fd_map := ssl_fd_map s;
              pending_write := pending_write s;
              pending_read :=
                (bpf_map_update_elem max_entries (pending_read s)
                   (tid_key e) (entry_args ctx)).2 |};
     out := [] |}.
Proof.
  unfold handle_ssl_read_entry.
  now destruct (bpf_map_update_elem _ _ _ _).
Qed.

Lemma write_exit_absent e ctx s :
  pending_write s !! tid_key e = None ->
  handle_ssl_write_exit e ctx s = {| ret := 0; st := s; out := [] |}.
Proof.
  intros Hk. unfold handle_ssl_write_exit, bpf_map_lookup_elem.
  now rewrite Hk.
Qed.

Lemma read_exit_absent e ctx s :
  pending_read s !! tid_key e = None ->
  handle_ssl_read_exit e ctx s = {| ret := 0; st := s; out := [] |}.
Proof.
  intros Hk. unfold handle_ssl_read_exit, bpf_map_lookup_elem.
  now rewrite Hk.
Qed.

Lemma write_exit_present e ctx s a :
  pending_write s !! tid_key e = Some a ->
  handle_ssl_write_exit e ctx s =
  {| ret := 0;
     st := {| ssl_fd_map := ssl_fd_map s;
              pending_write := delete (tid_key e) (pending_write s);
              pending_read := pending_read s |};
     out := (emit_event e (ssl_fd_map s) (Some a)
               (s64 (PT_REGS_RC ctx)) DIR_WRITE).2 |}.
Proof.
  intros Hk. unfold handle_ssl_write_exit, bpf_map_lookup_elem.
  rewrite Hk, <- delete_snd.
  destruct (emit_event _ _ _ _ _).
  now destruct (bpf_map_delete_elem _ _).
Qed.

Lemma read_exit_present e ctx s a :
  pending_read s !! tid_key e = Some a ->
  handle_ssl_read_exit e ctx s =
  {| ret := 0;
     st := {| ssl_fd_map := ssl_fd_map s;
              pending_write := pending_write s;
              pending_read := delete (tid_key e) (pending_read s) |};
     out := (emit_event e (ssl_fd_map s) (Some a)
               (s64 (PT_REGS_RC ctx)) DIR_READ).2 |}.
Proof.
  intros Hk. unfold handle_ssl_read_exit, bpf_map_lookup_elem.
  rewrite Hk, <- delete_snd.
  destruct (emit_event _ _ _ _ _).
  now destruct (bpf_map_delete_elem _ _).
Qed.

(** *** emit_event *)

Lemma emit_event_ret e fds args len dir :
  (emit_event e fds args len dir).1 = 0.
Proof.
  unfold emit_event. destruct args as [a |]; [| reflexivity].
  destruct (len <=? 0); [reflexivity |].
  destruct (MAX_TLS_DATA <? u32 len);
    destruct (ringbuf_has_room e); reflexivity.
Qed.

Lemma emit_event_nonpositive e fds args len dir :
  len <= 0 -> emit_event e fds args len dir = (0, []).
Proof.
  intros Hle. unfold emit_event. destruct args as [a |]; [| reflexivity].
  destruct (Z.leb_spec len 0); [reflexivity | lia].
Qed.

Lemma emit_event_dropped e fds args len dir :
  ringbuf_has_room e = false -> emit_event e fds args len dir = (0, []).
Proof.
  intros Hfull. unfold emit_event. destruct args as [a |]; [| reflexivity].
  destruct (len <=? 0); [reflexivity |].
  destruct (MAX_TLS_DATA <? u32 len); now rewrite Hfull.
Qed.

(** The one record of a call that passes the guard and finds room. *)
Lemma emit_event_submitted e fds a len dir :
  0 < len -> ringbuf_has_room e = true ->
  exists ev,
    emit_event e fds (Some a) len dir = (0, [ev])
    /\ total_len ev = u32 len
    /\ data_len ev = Z.min (u32 len) MAX_TLS_DATA
    /\ truncated ev = (MAX_TLS_DATA <? u32 len)
    /\ fd ev = lookup_fd fds (args_ssl_ptr a)
    /\ direction ev = dir
    /\ data ev = read_payload e (args_buf_ptr a) (data_len ev).
Proof.
  intros Hpos Hroom. unfold emit_event.
  destruct (Z.leb_spec len 0) as [Hle | _]; [lia |].
  destruct (Z.ltb_spec MAX_TLS_DATA (u32 len)) as [Hbig | Hfit];
    rewrite Hroom; simpl; eexists; (split; [reflexivity |]); simpl;
    repeat split; try reflexivity; unfold MAX_TLS_DATA in *; lia.
Qed.

(** Every record that leaves emit_event comes from such a call. *)
Lemma emit_event_inv e fds args len dir ev :
  ev ∈ (emit_event e fds args len dir).2 ->
  exists a,
    args = Some a /\ 0 < len /\ ringbuf_has_room e = true
    /\ emit_event e fds args len dir = (0, [ev]).
Proof.
  intros Hin. destruct args as [a |]; [| now apply elem_of_nil in Hin].
  destruct (Z_le_gt_dec len 0) as [Hle | Hgt].
  { rewrite emit_event_nonpositive in Hin by assumption.
    now apply elem_of_nil in Hin. }
  destruct (ringbuf_has_room e) eqn:Hroom.
  2:{ rewrite emit_event_dropped in Hin by assumption.
      now apply elem_of_nil in Hin. }
  destruct (emit_event_submitted e fds a len dir) as (ev' & E & _);
    [lia | assumption |].
  rewrite E in Hin. simpl in Hin. apply list_elem_of_singleton in Hin.
  subst ev'. exists a. repeat split; try assumption; lia.
Qed.

End tls_facts.

(** ** The perf-event program, probe by probe *)

Section hook_facts.
Import Hook.
Implicit Types (e : env) (ctx : pt_regs) (m : gmap Z ssl_read_ctx).

Lemma read_len_min ret_val c :
  0 < ret_val <= MAX_CAPTURE_SIZE -> 0 < num c <= MAX_CAPTURE_SIZE ->
  u32 (read_len ret_val c) = Z.min ret_val (num c).
Proof.
  unfold read_len, MAX_CAPTURE_SIZE. intros Hr Hn.
  destruct (Z.ltb_spec ret_val (num c)).
  - rewrite s32_small, u32_small by lia. lia.
  - rewrite s32_small, u32_small by lia. lia.
Qed.

Lemma write_guard_rejects e ctx m :
  s32 (PT_REGS_PARM3 ctx) <= 0 \/ MAX_CAPTURE_SIZE < s32 (PT_REGS_PARM3 ctx) ->
  uprobe_ssl_write e ctx m = {| ret := 0; st := m; out := [] |}.
Proof.
  intros Hbad. unfold uprobe_ssl_write.
  destruct (Z.leb_spec (s32 (PT_REGS_PARM3 ctx)) 0);
    destruct (Z.ltb_spec MAX_CAPTURE_SIZE (s32 (PT_REGS_PARM3 ctx)));
    simpl; try reflexivity; lia.
Qed.

Lemma write_keeps_maps e ctx m :
  ret (uprobe_ssl_write e ctx m) = 0 /\ st (uprobe_ssl_write e ctx m) = m.
Proof.
  unfold uprobe_ssl_write.
  destruct (_ || _); [now split |].
  destruct (probe_read_user _ _ _); now split.
Qed.

Lemma write_submitted e ctx m bytes :
  0 < s32 (PT_REGS_PARM3 ctx) <= MAX_CAPTURE_SIZE ->
  probe_read_user e (u64 (PT_REGS_PARM2 ctx)) (u32 (s32 (PT_REGS_PARM3 ctx)))
    = Some bytes ->
  out (uprobe_ssl_write e ctx m) =
  perf_event_output e
    {| timestamp_ns := ktime_ns e;
       pid := u32 (Z.shiftr (current_pid_tgid e) 32);
       tid := u32 (current_pid_tgid e);
       fd := 0;
       is_write := 1;
       data_len := u32 (s32 (PT_REGS_PARM3 ctx));
       data := bytes |}.
Proof.
  intros Hn Hread. unfold uprobe_ssl_write.
  destruct (Z.leb_spec (s32 (PT_REGS_PARM3 ctx)) 0); [lia |].
  destruct (Z.ltb_spec MAX_CAPTURE_SIZE (s32 (PT_REGS_PARM3 ctx))); [lia |].
  simpl. now rewrite Hread.
Qed.

Lemma write_out_inv e ctx m ev :
  ev ∈ out (uprobe_ssl_write e ctx m) ->
  0 < s32 (PT_REGS_PARM3 ctx) <= MAX_CAPTURE_SIZE
  /\ perf_has_room e = true
  /\ is_write ev = 1
  /\ data_len ev = s32 (PT_REGS_PARM3 ctx)
  /\ probe_read_user e (u64 (PT_REGS_PARM2 ctx)) (data_len ev)
     = Some (data ev).
Proof.
  unfold uprobe_ssl_write.
  destruct (Z.leb_spec (s32 (PT_REGS_PARM3 ctx)) 0) as [| Hpos];
    [intros Hin; now apply elem_of_nil in Hin |].
  destruct (Z.ltb_spec MAX_CAPTURE_SIZE (s32 (PT_REGS_PARM3 ctx))) as [| Hle];
    [intros Hin; now apply elem_of_nil in Hin |].
  simpl.
  assert (u32 (s32 (PT_REGS_PARM3 ctx)) = s32 (PT_REGS_PARM3 ctx)) as Eu
    by (apply u32_small; unfold MAX_CAPTURE_SIZE in Hle; lia).
  destruct (probe_read_user _ _ _) as [bytes |] eqn:Hread;
    [| intros Hin; now apply elem_of_nil in Hin].
  unfold perf_event_output. simpl.
  destruct (perf_has_room e);
    [| intros Hin; now apply elem_of_nil in Hin].
  intros Hin. apply list_elem_of_singleton in Hin. subst ev. simpl.
  rewrite Eu in *. repeat split; try assumption; lia.
Qed.

Lemma read_entry_rejects e ctx m :
  s32 (PT_REGS_PARM3 ctx) <= 0 \/ MAX_CAPTURE_SIZE < s32 (PT_REGS_PARM3 ctx) ->
  uprobe_ssl_read e ctx m = {| ret := 0; st := m; out := [] |}.
Proof.
  intros Hbad. unfold uprobe_ssl_read.
  destruct (Z.leb_spec (s32 (PT_REGS_PARM3 ctx)) 0);
    destruct (Z.ltb_spec MAX_CAPTURE_SIZE (s32 (PT_REGS_PARM3 ctx)));
    simpl; try reflexivity; lia.
Qed.

Lemma read_entry_accepts e ctx m :
  0 < s32 (PT_REGS_PARM3 ctx) <= MAX_CAPTURE_SIZE ->
  uprobe_ssl_read e ctx m =
  {| ret := 0;
     st := (bpf_map_update_elem max_entries m (current_pid_tgid e)
              {| buf := u64 (PT_REGS_PARM2 ctx);
                 num := s32 (PT_REGS_PARM3 ctx) |}).2;
     out := [] |}.
Proof.
  intros Hn. unfold uprobe_ssl_read.
  destruct (Z.leb_spec (s32 (PT_REGS_PARM3 ctx)) 0); [lia |].
  destruct (Z.ltb_spec MAX_CAPTURE_SIZE (s32 (PT_REGS_PARM3 ctx))); [lia |].
  simpl. now destruct (bpf_map_update_elem _ _ _ _).
Qed.

Lemma read_entry_quiet e ctx m :
  ret (uprobe_ssl_read e ctx m) = 0 /\ out (uprobe_ssl_read e ctx m) = [].
Proof.
  unfold uprobe_ssl_read. destruct (_ || _); [now split |].
  now destruct (bpf_map_update_elem _ _ _ _).
Qed.

Lemma read_exit_ret e ctx m : ret (uretprobe_ssl_read e ctx m) = 0.
Proof.
  unfold uretprobe_ssl_read.
  destruct (_ || _); [now destruct (bpf_map_delete_elem _ _) |].
  destruct (bpf_map_lookup_elem _ _); [| reflexivity].
  destruct (probe_read_user _ _ _); now destruct (bpf_map_delete_elem _ _).
Qed.

Lemma read_exit_st e ctx m :
  st (uretprobe_ssl_read e ctx m) = delete (current_pid_tgid e) m.
Proof.
  unfold uretprobe_ssl_read. rewrite <- delete_snd.
  destruct (_ || _); [now destruct (bpf_map_delete_elem _ _) |].
  unfold bpf_map_lookup_elem.
  destruct (m !! current_pid_tgid e) eqn:Hk.
  - destruct (probe_read_user _ _ _); now destruct (bpf_map_delete_elem _ _).
  - now rewrite delete_absent.
Qed.

Lemma read_exit_rejects e ctx m :
  s64 (PT_REGS_RC ctx) <= 0 \/ MAX_CAPTURE_SIZE < s64 (PT_REGS_RC ctx) ->
  out (uretprobe_ssl_read e ctx m) = [].
Proof.
  intros Hbad. unfold uretprobe_ssl_read.
  destruct (Z.leb_spec (s64 (PT_REGS_RC ctx)) 0);
    destruct (Z.ltb_spec MAX_CAPTURE_SIZE (s64 (PT_REGS_RC ctx)));
    simpl; try (now destruct (bpf_map_delete_elem _ _)); lia.
Qed.

Lemma read_exit_absent_hook e ctx m :
  m !! current_pid_tgid e = None ->
  uretprobe_ssl_read e ctx m = {| ret := 0; st := m; out := [] |}.
Proof.
  intros Hk. unfold uretprobe_ssl_read, bpf_map_lookup_elem.
  rewrite Hk, delete_absent by assumption.
  now destruct (_ || _).
Qed.

Lemma read_exit_faults e ctx m c :
  m !! current_pid_tgid e = Some c ->
  probe_read_user e (buf c) (u32 (read_len (s64 (PT_REGS_RC ctx)) c)) = None ->
  out (uretprobe_ssl_read e ctx m) = [].
Proof.
  intros Hk Hread. unfold uretprobe_ssl_read, bpf_map_lookup_elem.
  destruct (_ || _); [now destruct (bpf_map_delete_elem _ _) |].
  rewrite Hk. fold (read_len (s64 (PT_REGS_RC ctx)) c). rewrite Hread.
  now destruct (bpf_map_delete_elem _ _).
Qed.

Lemma read_exit_submitted e ctx m c bytes :
  0 < s64 (PT_REGS_RC ctx) <= MAX_CAPTURE_SIZE ->
  m !! current_pid_tgid e = Some c ->
  probe_read_user e (buf c) (u32 (read_len (s64 (PT_REGS_RC ctx)) c))
    = Some bytes ->
  out (uretprobe_ssl_read e ctx m) =
  perf_event_output e
    {| timestamp_ns := ktime_ns e;
       pid := u32 (Z.shiftr (current_pid_tgid e) 32);
       tid := u32 (current_pid_tgid e);
       fd := 0;
       is_write := 0;
       data_len := u32 (read_len (s64 (PT_REGS_RC ctx)) c);
       data := bytes |}.
Proof.
  intros Hr Hk Hread. unfold uretprobe_ssl_read, bpf_map_lookup_elem.
  destruct (Z.leb_spec (s64 (PT_REGS_RC ctx)) 0); [lia |].
  destruct (Z.ltb_spec MAX_CAPTURE_SIZE (s64 (PT_REGS_RC ctx))); [lia |].
  simpl. rewrite Hk. fold (read_len (s64 (PT_REGS_RC ctx)) c).
  rewrite Hread. now destruct (bpf_map_delete_elem _ _).
Qed.

Lemma read_exit_out_inv e ctx m ev :
  ev ∈ out (uretprobe_ssl_read e ctx m) ->
  exists c,
    m !! current_pid_tgid e = Some c
    /\ 0 < s64 (PT_REGS_RC ctx) <= MAX_CAPTURE_SIZE
    /\ perf_has_room e = true
    /\ is_write ev = 0
    /\ data_len ev = u32 (read_len (s64 (PT_REGS_RC ctx)) c)
    /\ probe_read_user e (buf c) (data_len ev) = Some (data ev)
    /\ out (uretprobe_ssl_read e ctx m) = [ev].
Proof.
  intros Hin.
  destruct (Z_le_gt_dec (s64 (PT_REGS_RC ctx)) 0) as [Hle | Hpos].
  { rewrite read_exit_rejects in Hin by (now left).
    now apply elem_of_nil in Hin. }
  destruct (Z_lt_le_dec MAX_CAPTURE_SIZE (s64 (PT_REGS_RC ctx))) as [Hbig | Hfit].
  { rewrite read_exit_rejects in Hin by (now right).
    now apply elem_of_nil in Hin. }
  destruct (m !! current_pid_tgid e) as [c |] eqn:Hk.
  2:{ rewrite read_exit_absent_hook in Hin by assumption.
      now apply elem_of_nil in Hin. }
  destruct (probe_read_user e (buf c) (u32 (read_len (s64 (PT_REGS_RC ctx)) c)))
    as [bytes |] eqn:Hread.
  2:{ rewrite (read_exit_faults e ctx m c) in Hin by assumption.
      now apply elem_of_nil in Hin. }
  rewrite (read_exit_submitted e ctx m c bytes) in Hin |- * by (assumption || lia).
  unfold perf_event_output in *.
  destruct (perf_has_room e); [| now apply elem_of_nil in Hin].
  apply list_elem_of_singleton in Hin. subst ev. simpl.
  exists c. repeat split; try assumption; lia.
Qed.

(** *** Stored lengths stay within the entry guard *)

Lemma stored_lengths_init : stored_lengths_ok init.
Proof. intros k c Hk. unfold init in Hk. now rewrite lookup_empty in Hk. Qed.

Lemma stored_lengths_write e ctx m :
  stored_lengths_ok m -> stored_lengths_ok (st (uprobe_ssl_write e ctx m)).
Proof. intros Hm. now rewrite (proj2 (write_keeps_maps e ctx m)). Qed.

Lemma stored_lengths_read_entry e ctx m :
  stored_lengths_ok m -> stored_lengths_ok (st (uprobe_ssl_read e ctx m)).
Proof.
  intros Hm.
  destruct (Z_le_gt_dec (s32 (PT_REGS_PARM3 ctx)) 0) as [Hle | Hpos].
  { now rewrite read_entry_rejects by (now left). }
  destruct (Z_lt_le_dec MAX_CAPTURE_SIZE (s32 (PT_REGS_PARM3 ctx))) as [Hbig | Hfit].
  { now rewrite read_entry_rejects by (now right). }
  rewrite read_entry_accepts by lia. simpl.
  destruct (update_cases max_entries m (current_pid_tgid e)
              {| buf := u64 (PT_REGS_PARM2 ctx);
                 num := s32 (PT_REGS_PARM3 ctx) |}) as [[_ ->] | [_ ->]];
    [| assumption].
  intros k c Hk.
  destruct (decide (current_pid_tgid e = k)) as [Heq | Hne].
  - subst k. rewrite lookup_insert_eq in Hk. injection Hk as <-. simpl. lia.
  - rewrite lookup_insert_ne in Hk by assumption. now apply (Hm k).
Qed.

Lemma stored_lengths_read_exit e ctx m :
  stored_lengths_ok m -> stored_lengths_ok (st (uretprobe_ssl_read e ctx m)).
Proof.
  intros Hm k c. rewrite read_exit_st. intros Hk.
  apply lookup_delete_Some in Hk as [_ Hk]. now apply (Hm k).
Qed.

Lemma stored_lengths_step m p :
  stored_lengths_ok m -> stored_lengths_ok (hook_step m p).
Proof.
  destruct p as [e ctx | e ctx | e ctx]; simpl.
  - apply stored_lengths_write.
  - apply stored_lengths_read_entry.
  - apply stored_lengths_read_exit.
Qed.

(** Whatever probes have fired since the program was loaded, the lengths in
    the table are within the entry guard. *)
Lemma stored_lengths_reachable (run : list hook_probe) :
  stored_lengths_ok (fold_left hook_step run init).
Proof.
  assert (forall m, stored_lengths_ok m ->
                    stored_lengths_ok (fold_left hook_step run m)) as Hgen.
  { induction run as [| p run IH]; intros m Hm; simpl; [assumption |].
    apply IH. now apply stored_lengths_step. }
  apply Hgen, stored_lengths_init.
Qed.

End hook_facts.

(** ** Scenarios of the specification, run on the ring-buffer program *)

Section scenarios.
Import Tls Sample.

(** Bind(0x1, 5); entry(outbound, thread 7, handle 0x1, "hello", 5);
    exit(outbound, thread 7, 5). *)
Example scenario_1 :
  let s1 := st (handle_ssl_set_fd (thread 7) (registry_regs 1 5) init) in
  let s2 := st (handle_ssl_write_entry (thread 7) (at_entry 1 buf_addr 5) s1) in
  out (handle_ssl_write_exit (thread 7) (at_exit 5) s2) =
  [ {| timestamp_ns := 1000; ssl_ptr := 1; pid := 0; tid := 7; fd := 5;
       total_len := 5; data_len := 5; direction := DIR_WRITE; flags := 0;
       data := hello |} ].
Proof. vm_compute. reflexivity. Qed.

(** exit(outbound, thread 7, -1) after an entry. *)
Example scenario_4 :
  let s1 := st (handle_ssl_write_entry (thread 7) (at_entry 1 buf_addr 5) init) in
  out (handle_ssl_write_exit (thread 7) (at_exit (-1)) s1) = [].
Proof. vm_compute. reflexivity. Qed.

End scenarios.

(** ** The handle registry *)

Lemma capacity_Z : Z.of_nat capacity = Tls.max_entries.
Proof. unfold capacity. now rewrite Z2Nat.id by (unfold Tls.max_entries; lia). Qed.

Opaque capacity.

Section registry_facts.
Import Tls.
Implicit Types (e : env) (s : maps) (m : gmap Z Z) (ops : list registry_op).

Lemma lookup_fd_insert m h d h' :
  lookup_fd (<[h := u32 d]> m) h' =
  if decide (h = h') then s32 d else lookup_fd m h'.
Proof.
  unfold lookup_fd, bpf_map_lookup_elem. destruct (decide (h = h')) as [<- | Hne].
  - rewrite lookup_insert_eq. apply s32_u32.
  - now rewrite lookup_insert_ne.
Qed.

Lemma lookup_fd_delete m h h' :
  lookup_fd (delete h m) h' = if decide (h = h') then -1 else lookup_fd m h'.
Proof.
  unfold lookup_fd, bpf_map_lookup_elem. destruct (decide (h = h')) as [<- | Hne].
  - now rewrite lookup_delete_eq.
  - now rewrite lookup_delete_ne.
Qed.

Lemma lookup_fd_empty h : lookup_fd ∅ h = -1.
Proof. unfold lookup_fd, bpf_map_lookup_elem. now rewrite lookup_empty. Qed.

Lemma run_ops_app e ops1 ops2 s :
  run_ops e (ops1 ++ ops2) s = run_ops e ops2 (run_ops e ops1 s).
Proof. unfold run_ops. apply fold_left_app. Qed.

Lemma run_op_size e s op :
  (size (ssl_fd_map (run_op e s op)) <= S (size (ssl_fd_map s)))%nat.
Proof.
  destruct op as [h d | h]; simpl.
  - rewrite set_fd_outcome. simpl. apply update_size.
  - rewrite free_outcome. simpl.
    pose proof (map_subseteq_size _ _ (delete_subseteq (ssl_fd_map s) (u64 h))).
    lia.
Qed.

(** While the registry cannot overflow, lookups follow the operations. *)
Lemma run_ops_lookup e ops : forall s h,
  Z.of_nat (size (ssl_fd_map s)) + Z.of_nat (length ops) <= max_entries ->
  lookup_fd (ssl_fd_map (run_ops e ops s)) h =
  expected_fd ops h (lookup_fd (ssl_fd_map s) h).
Proof.
  induction ops as [| op ops IH]; intros s h Hsz; [reflexivity |].
  cbn [length] in Hsz. unfold run_ops, expected_fd. cbn [fold_left].
  fold (run_ops e ops (run_op e s op)).
  rewrite IH by (pose proof (run_op_size e s op); lia).
  unfold expected_fd. f_equal.
  destruct op as [h' d | h']; simpl.
  - rewrite set_fd_outcome. simpl.
    rewrite update_has_room by (right; lia). simpl.
    apply lookup_fd_insert.
  - rewrite free_outcome. simpl. apply lookup_fd_delete.
Qed.

(** *** Filling the registry *)

Lemma filled_lookup n k :
  filled n !! k = if decide (0 <= k < Z.of_nat n) then Some 3 else None.
Proof.
  induction n as [| n IH]; simpl filled.
  - rewrite lookup_empty. rewrite decide_False by lia. reflexivity.
  - destruct (decide (Z.of_nat n = k)) as [Heq | Hne].
    + subst k. rewrite lookup_insert_eq, decide_True by lia. reflexivity.
    + rewrite lookup_insert_ne, IH by assumption.
      destruct (decide (0 <= k < Z.of_nat n)),
        (decide (0 <= k < Z.of_nat (S n))); try reflexivity; lia.
Qed.

Lemma filled_size n : size (filled n) = n.
Proof.
  induction n as [| n IH]; simpl filled.
  - apply map_size_empty.
  - rewrite map_size_insert_None, IH; [reflexivity |].
    rewrite filled_lookup, decide_False by lia. reflexivity.
Qed.

Lemma full_registry_is_full h :
  max_entries <= h ->
  ~ has_room max_entries (ssl_fd_map full_registry) h.
Proof.
  intros Hh [[x Hx] | Hsz]; simpl in *.
  - rewrite filled_lookup in Hx. destruct (decide _) as [Hin |]; [| discriminate].
    rewrite capacity_Z in Hin. lia.
  - rewrite filled_size, capacity_Z in Hsz. lia.
Qed.

(** The full registry is what 32768 SSL_set_fd calls on fresh handles leave. *)
Lemma binds_fill e n :
  Z.of_nat n <= max_entries ->
  run_ops e (binds n) init =
  {| ssl_fd_map := filled n; pending_write := ∅; pending_read := ∅ |}.
Proof.
  induction n as [| n IH]; intros Hn; [reflexivity |].
  simpl binds. rewrite run_ops_app, IH by lia.
  unfold run_ops. simpl. rewrite set_fd_outcome. simpl.
  unfold max_entries in Hn.
  rewrite (u64_small (Z.of_nat n)) by lia.
  rewrite update_has_room; [reflexivity |].
  right. rewrite filled_size. unfold max_entries. lia.
Qed.

Lemma full_registry_reachable e :
  run_ops e (binds capacity) init = full_registry.
Proof. apply binds_fill. rewrite capacity_Z. lia. Qed.

Lemma set_fd_on_full e h d :
  max_entries <= h < 2 ^ 64 ->
  st (handle_ssl_set_fd e (registry_regs h d) full_registry) = full_registry.
Proof.
  intros Hh. rewrite set_fd_outcome. simpl.
  rewrite (u64_small h) by (unfold max_entries in Hh; lia).
  destruct (update_cases max_entries (filled capacity) h (u32 d))
    as [[Hroom _] | [_ ->]]; [| reflexivity].
  exfalso. now apply (full_registry_is_full h); [lia |].
Qed.

End registry_facts.

(** ** Records of the exit probes *)

Section exit_records.
Import Tls.
Implicit Types (e : env) (ctx : pt_regs) (s : maps) (a : ssl_io_args).

Lemma emit_event_record e fds args len dir ev :
  ev ∈ (emit_event e fds args len dir).2 ->
  0 < len
  /\ ringbuf_has_room e = true
  /\ total_len ev = u32 len
  /\ data_len ev = Z.min (u32 len) MAX_TLS_DATA
  /\ truncated ev = (MAX_TLS_DATA <? u32 len)
  /\ direction ev = dir
  /\ exists a, args = Some a
       /\ fd ev = lookup_fd fds (args_ssl_ptr a)
       /\ data ev = read_payload e (args_buf_ptr a) (data_len ev).
Proof.
  intros Hin.
  destruct (emit_event_inv _ _ _ _ _ _ Hin) as (a & -> & Hpos & Hroom & E).
  destruct (emit_event_submitted e fds a len dir Hpos Hroom)
    as (ev' & E' & Ht & Hd & Hf & Hfd & Hdir & Hdata).
  rewrite E in E'. injection E' as <-.
  repeat split; try assumption. exists a. now repeat split.
Qed.

Lemma write_exit_record e ctx s ev :
  ev ∈ out (handle_ssl_write_exit e ctx s) ->
  exists a, pending_write s !! tid_key e = Some a
    /\ ev ∈ (emit_event e (ssl_fd_map s) (Some a)
               (s64 (PT_REGS_RC ctx)) DIR_WRITE).2.
Proof.
  destruct (pending_write s !! tid_key e) as [a |] eqn:Hk.
  - rewrite (write_exit_present e ctx s a Hk). simpl. eauto.
  - rewrite (write_exit_absent e ctx s Hk). simpl.
    intros Hin. now apply elem_of_nil in Hin.
Qed.

Lemma read_exit_record e ctx s ev :
  ev ∈ out (handle_ssl_read_exit e ctx s) ->
  exists a, pending_read s !! tid_key e = Some a
    /\ ev ∈ (emit_event e (ssl_fd_map s) (Some a)
               (s64 (PT_REGS_RC ctx)) DIR_READ).2.
Proof.
  destruct (pending_read s !! tid_key e) as [a |] eqn:Hk.
  - rewrite (read_exit_present e ctx s a Hk). simpl. eauto.
  - rewrite (read_exit_absent e ctx s Hk). simpl.
    intros Hin. now apply elem_of_nil in Hin.
Qed.

(** Both exit probes hand over records of the same shape. *)
Lemma exit_record e ctx s ev :
  ev ∈ out (handle_ssl_write_exit e ctx s)
       ++ out (handle_ssl_read_exit e ctx s) ->
  exists a dir,
    ev ∈ (emit_event e (ssl_fd_map s) (Some a) (s64 (PT_REGS_RC ctx)) dir).2.
Proof.
  intros Hin. apply elem_of_app in Hin as [Hin | Hin].
  - destruct (write_exit_record _ _ _ _ Hin) as (a & _ & H). eauto.
  - destruct (read_exit_record _ _ _ _ Hin) as (a & _ & H). eauto.
Qed.

Lemma truncated_iff_longer len :
  (MAX_TLS_DATA <? u32 len) = true <-> Z.min (u32 len) MAX_TLS_DATA < u32 len.
Proof. rewrite Z.ltb_lt. lia. Qed.

Lemma clamped e fds a len dir :
  MAX_TLS_DATA < len < 2 ^ 32 -> ringbuf_has_room e = true ->
  exists ev,
    (emit_event e fds (Some a) len dir).2 = [ev]
    /\ data_len ev = MAX_TLS_DATA /\ truncated ev = true /\ total_len ev = len.
Proof.
  intros Hlen Hroom. unfold MAX_TLS_DATA in Hlen.
  destruct (emit_event_submitted e fds a len dir) as (ev & E & Ht & Hd & Hf & _);
    [lia | assumption |].
  rewrite u32_small in * by lia.
  exists ev. rewrite E. repeat split; try assumption.
  - rewrite Hd. unfold MAX_TLS_DATA. lia.
  - rewrite Hf. apply Z.ltb_lt. unfold MAX_TLS_DATA. lia.
Qed.

Lemma emit_event_ssl_ptr e fds a len dir ev :
  ev ∈ (emit_event e fds (Some a) len dir).2 -> ssl_ptr ev = args_ssl_ptr a.
Proof.
  unfold emit_event.
  destruct (len <=? 0); [intros Hin; now apply elem_of_nil in Hin |].
  destruct (MAX_TLS_DATA <? u32 len); destruct (ringbuf_has_room e); simpl;
    intros Hin;
    try (now apply elem_of_nil in Hin);
    apply list_elem_of_singleton in Hin; now subst ev.
Qed.

Lemma write_exit_st e ctx s :
  st (handle_ssl_write_exit e ctx s) =
  {| ssl_fd_map := ssl_fd_map s;
     pending_write := delete (tid_key e) (pending_write s);
     pending_read := pending_read s |}.
Proof.
  destruct (pending_write s !! tid_key e) as [a |] eqn:Hk.
  - now rewrite (write_exit_present e ctx s a Hk).
  - rewrite (write_exit_absent e ctx s Hk), delete_id by assumption.
    now destruct s.
Qed.

Lemma read_exit_st_tls e ctx s :
  st (handle_ssl_read_exit e ctx s) =
  {| ssl_fd_map := ssl_fd_map s;
     pending_write := pending_write s;
     pending_read := delete (tid_key e) (pending_read s) |}.
Proof.
  destruct (pending_read s !! tid_key e) as [a |] eqn:Hk.
  - now rewrite (read_exit_present e ctx s a Hk).
  - rewrite (read_exit_absent e ctx s Hk), delete_id by assumption.
    now destruct s.
Qed.

Lemma write_exit_ret e ctx s : ret (handle_ssl_write_exit e ctx s) = 0.
Proof.
  destruct (pending_write s !! tid_key e) as [a |] eqn:Hk.
  - now rewrite (write_exit_present e ctx s a Hk).
  - now rewrite (write_exit_absent e ctx s Hk).
Qed.

Lemma read_exit_ret_tls e ctx s : ret (handle_ssl_read_exit e ctx s) = 0.
Proof.
  destruct (pending_read s !! tid_key e) as [a |] eqn:Hk.
  - now rewrite (read_exit_present e ctx s a Hk).
  - now rewrite (read_exit_absent e ctx s Hk).
Qed.

(** A faulting copy changes the payload of the record, not whether the
    record is handed over. *)
Lemma emit_event_despite_fault e fds a len dir :
  0 < len -> ringbuf_has_room e = true ->
  probe_read_user e (args_buf_ptr a) (Z.min (u32 len) MAX_TLS_DATA) = None ->
  exists ev,
    (emit_event e fds (Some a) len dir).2 = [ev]
    /\ data ev = replicate (Z.to_nat (data_len ev)) Byte.x00.
Proof.
  intros Hpos Hroom Hfault.
  destruct (emit_event_submitted e fds a len dir Hpos Hroom)
    as (ev & E & _ & Hd & _ & _ & _ & Hdata).
  exists ev. rewrite E. split; [reflexivity |].
  rewrite Hdata. unfold read_payload. rewrite Hd, Hfault.
  destruct (Z.ltb_spec 0 (Z.min (u32 len) MAX_TLS_DATA)) as [| Hle];
    [reflexivity |].
  now replace (Z.to_nat (Z.min (u32 len) MAX_TLS_DATA)) with 0%nat by lia.
Qed.

End exit_records.

(** * The properties of the specification, claim by claim *)

(** ** C1: bounded capture and the truncation flag *)

(** C1, as the code has it.  Every record of either program carries at most
    the program's cap of payload bytes (512 for the ring buffer, 65536 for
    the perf array, in every state its probes can reach).  In the ring-buffer program the truncation flag is set
    exactly when [total_len] exceeds [data_len], [total_len] is the return
    code whenever that is below 2^32, and an exit with a pending entry, room
    in the ring buffer and a return code above 512 (and below 2^32) hands
    over exactly one record, clamped to 512 bytes and flagged.  The perf
    program has no flag: an SSL_read exit whose return code exceeds 65536
    and an SSL_write entry whose length exceeds 65536 hand over nothing. *)
Theorem capture_bounded_and_flagged
    (e : env) (ctx : pt_regs) (s : Tls.maps) (m : gmap Z Hook.ssl_read_ctx) :
  (forall ev,
     ev ∈ out (Tls.handle_ssl_write_exit e ctx s)
          ++ out (Tls.handle_ssl_read_exit e ctx s) ->
     0 <= Tls.data_len ev <= Tls.MAX_TLS_DATA
     /\ (Tls.truncated ev = true <-> Tls.data_len ev < Tls.total_len ev)
     /\ (s64 (PT_REGS_RC ctx) < 2 ^ 32 ->
         Tls.total_len ev = s64 (PT_REGS_RC ctx)))
  /\ (Tls.MAX_TLS_DATA < s64 (PT_REGS_RC ctx) < 2 ^ 32 ->
      ringbuf_has_room e = true ->
      (is_Some (Tls.pending_write s !! Tls.tid_key e) ->
       exists ev, out (Tls.handle_ssl_write_exit e ctx s) = [ev]
         /\ Tls.data_len ev = Tls.MAX_TLS_DATA /\ Tls.truncated ev = true)
      /\ (is_Some (Tls.pending_read s !! Tls.tid_key e) ->
          exists ev, out (Tls.handle_ssl_read_exit e ctx s) = [ev]
            /\ Tls.data_len ev = Tls.MAX_TLS_DATA /\ Tls.truncated ev = true))
  /\ (forall ev, ev ∈ out (Hook.uprobe_ssl_write e ctx m) ->
      0 < Hook.data_len ev <= Hook.MAX_CAPTURE_SIZE)
  /\ (forall run ev,
        ev ∈ out (Hook.uretprobe_ssl_read e ctx
                    (fold_left hook_step run Hook.init)) ->
        0 < Hook.data_len ev <= Hook.MAX_CAPTURE_SIZE)
  /\ (Hook.MAX_CAPTURE_SIZE < s64 (PT_REGS_RC ctx) ->
      out (Hook.uretprobe_ssl_read e ctx m) = [])
  /\ (Hook.MAX_CAPTURE_SIZE < s32 (PT_REGS_PARM3 ctx) ->
      out (Hook.uprobe_ssl_write e ctx m) = []).
Proof.
  split; [| split; [| split; [| split; [| split]]]].
  - intros ev Hin.
    destruct (exit_record _ _ _ _ Hin) as (a & dir & Hev).
    destruct (emit_event_record _ _ _ _ _ _ Hev)
      as (Hpos & _ & Ht & Hd & Hf & _).
    pose proof (u32_range (s64 (PT_REGS_RC ctx))) as Hu.
    repeat split.
    + rewrite Hd. unfold Tls.MAX_TLS_DATA. lia.
    + rewrite Hd. unfold Tls.MAX_TLS_DATA. lia.
    + rewrite Hf, Ht, Hd. apply truncated_iff_longer.
    + rewrite Hf, Ht, Hd. apply truncated_iff_longer.
    + intros Hlt. rewrite Ht. apply u32_small. lia.
  - intros Hrc Hroom. split; intros [a Ha].
    + rewrite (write_exit_present e ctx s a Ha). cbn [out].
      destruct (clamped e (Tls.ssl_fd_map s) a _ Tls.DIR_WRITE Hrc Hroom)
        as (ev & E & Hd & Hf & _).
      exists ev. now rewrite E.
    + rewrite (read_exit_present e ctx s a Ha). cbn [out].
      destruct (clamped e (Tls.ssl_fd_map s) a _ Tls.DIR_READ Hrc Hroom)
        as (ev & E & Hd & Hf & _).
      exists ev. now rewrite E.
  - intros ev Hin.
    destruct (write_out_inv _ _ _ _ Hin) as (Hn & _ & _ & -> & _). lia.
  - intros run ev Hin.
    pose proof (stored_lengths_reachable run) as Hm.
    destruct (read_exit_out_inv _ _ _ _ Hin) as (c & Hk & Hr & _ & _ & -> & _).
    rewrite read_len_min by (assumption || now apply (Hm _ _ Hk)).
    pose proof (Hm _ _ Hk). lia.
  - intros Hbig. apply read_exit_rejects. now right.
  - intros Hbig. rewrite write_guard_rejects by (now right). reflexivity.
Qed.

Lemma capture_bounded_and_flagged_witness :
  (Tls.MAX_TLS_DATA < s64 (PT_REGS_RC (Sample.at_exit 600)) < 2 ^ 32
   /\ ringbuf_has_room (Sample.thread 7) = true
   /\ is_Some (Tls.pending_write Sample.tls_busy !! Tls.tid_key (Sample.thread 7))
   /\ exists ev,
        out (Tls.handle_ssl_write_exit (Sample.thread 7) (Sample.at_exit 600)
               Sample.tls_busy) = [ev]
        /\ Tls.data_len ev = Tls.MAX_TLS_DATA /\ Tls.truncated ev = true
        /\ 0 <= Tls.data_len ev <= Tls.MAX_TLS_DATA
        /\ (Tls.truncated ev = true <-> Tls.data_len ev < Tls.total_len ev)
        /\ Tls.total_len ev = s64 (PT_REGS_RC (Sample.at_exit 600)))
  /\ (Sample.hello_written
        ∈ out (Hook.uprobe_ssl_write (Sample.thread 7)
                 (Sample.at_entry 1 Sample.buf_addr 5) Sample.hook_busy)
      /\ 0 < Hook.data_len Sample.hello_written <= Hook.MAX_CAPTURE_SIZE)
  /\ (Sample.hello_read
        ∈ out (Hook.uretprobe_ssl_read (Sample.thread 7) (Sample.at_exit 5)
                 (fold_left hook_step
                    [SslReadEntry (Sample.thread 7)
                       (Sample.at_entry 1 Sample.buf_addr 1000)]
                    Hook.init))
      /\ 0 < Hook.data_len Sample.hello_read <= Hook.MAX_CAPTURE_SIZE)
  /\ (Hook.MAX_CAPTURE_SIZE < s64 (PT_REGS_RC (Sample.at_exit 70000))
      /\ out (Hook.uretprobe_ssl_read (Sample.thread 7) (Sample.at_exit 70000)
                Sample.hook_busy) = [])
  /\ (Hook.MAX_CAPTURE_SIZE
        < s32 (PT_REGS_PARM3 (Sample.at_entry 1 Sample.buf_addr 70000))
      /\ out (Hook.uprobe_ssl_write (Sample.thread 7)
                (Sample.at_entry 1 Sample.buf_addr 70000) Sample.hook_busy) = []).
Proof.
  split; [| split; [| split; [| split]]].
  - assert (Tls.MAX_TLS_DATA < s64 (PT_REGS_RC (Sample.at_exit 600)) < 2 ^ 32)
      as Hrc by (vm_compute; split; reflexivity).
    assert (is_Some (Tls.pending_write Sample.tls_busy
                       !! Tls.tid_key (Sample.thread 7))) as Hk
      by (vm_compute; eauto).
    destruct (capture_bounded_and_flagged (Sample.thread 7) (Sample.at_exit 600)
                Sample.tls_busy Sample.hook_busy) as (Hall & Hclamp & _).
    destruct (proj1 (Hclamp Hrc eq_refl) Hk) as (ev & E & Hd & Hf).
    destruct (Hall ev) as (Hb & Hiff & Ht).
    { rewrite E. apply elem_of_app. left. apply list_elem_of_singleton.
      reflexivity. }
    repeat split; try exact Hk; try apply Hrc.
    exists ev. repeat split; try assumption; try apply Hb; try apply Hiff.
    apply Ht, Hrc.
  - destruct (capture_bounded_and_flagged (Sample.thread 7)
                (Sample.at_entry 1 Sample.buf_addr 5)
                Sample.tls_busy Sample.hook_busy) as (_ & _ & Hw & _).
    assert (Sample.hello_written
              ∈ out (Hook.uprobe_ssl_write (Sample.thread 7)
                       (Sample.at_entry 1 Sample.buf_addr 5) Sample.hook_busy))
      as Hin by (vm_compute; apply list_elem_of_singleton; reflexivity).
    split; [exact Hin | exact (Hw _ Hin)].
  - destruct (capture_bounded_and_flagged (Sample.thread 7) (Sample.at_exit 5)
                Sample.tls_busy Sample.hook_busy) as (_ & _ & _ & Hr & _).
    assert (Sample.hello_read
              ∈ out (Hook.uretprobe_ssl_read (Sample.thread 7)
                       (Sample.at_exit 5)
                       (fold_left hook_step
                          [SslReadEntry (Sample.thread 7)
                             (Sample.at_entry 1 Sample.buf_addr 1000)]
                          Hook.init)))
      as Hin by (vm_compute; apply list_elem_of_singleton; reflexivity).
    split; [exact Hin | exact (Hr _ _ Hin)].
  - assert (Hook.MAX_CAPTURE_SIZE < s64 (PT_REGS_RC (Sample.at_exit 70000)))
      as Hrc by (vm_compute; reflexivity).
    split; [exact Hrc |].
    exact (proj1 (proj2 (proj2 (proj2 (proj2 (capture_bounded_and_flagged
             (Sample.thread 7) (Sample.at_exit 70000) Sample.tls_busy
             Sample.hook_busy))))) Hrc).
  - assert (Hook.MAX_CAPTURE_SIZE
              < s32 (PT_REGS_PARM3 (Sample.at_entry 1 Sample.buf_addr 70000)))
      as Hn by (vm_compute; reflexivity).
    split; [exact Hn |].
    exact (proj2 (proj2 (proj2 (proj2 (proj2 (capture_bounded_and_flagged
             (Sample.thread 7) (Sample.at_entry 1 Sample.buf_addr 70000)
             Sample.tls_busy Sample.hook_busy))))) Hn).
Defined.

(** C1 as stated fails on the perf program, which drops what exceeds its
    cap: SSL_read(ssl, buf, 70000) that returns 70000 yields no record at
    all, neither at entry nor at exit, and neither does the entry of
    SSL_write(ssl, buf, 70000). *)
Lemma oversized_read_is_dropped :
  0 < s64 (PT_REGS_RC (Sample.at_exit 70000))
  /\ Hook.MAX_CAPTURE_SIZE < s64 (PT_REGS_RC (Sample.at_exit 70000))
  /\ perf_has_room (Sample.thread 7) = true
  /\ (~ exists ev,
          ev ∈ out (Hook.uprobe_ssl_read (Sample.thread 7)
                      (Sample.at_entry 1 Sample.buf_addr 70000) Hook.init)
               ++ out (Hook.uretprobe_ssl_read (Sample.thread 7)
                         (Sample.at_exit 70000)
                         (st (Hook.uprobe_ssl_read (Sample.thread 7)
                                (Sample.at_entry 1 Sample.buf_addr 70000)
                                Hook.init)))
          /\ Hook.data_len ev = Hook.MAX_CAPTURE_SIZE)
  /\ out (Hook.uprobe_ssl_write (Sample.thread 7)
            (Sample.at_entry 1 Sample.buf_addr 70000) Hook.init) = [].
Proof.
  repeat split; try (vm_compute; reflexivity).
  intros (ev & Hin & _). vm_compute in Hin. now apply elem_of_nil in Hin.
Qed.

(** ** C2: a failed read of the payload *)

(** C2 does not hold on the ring-buffer program.  SSL_write on handle 1 by
    thread 7 returns 5 while the buffer is no longer mapped: the copy of the
    5 bytes faults, and the exit probes of both directions still hand over a
    record, with 5 zero bytes as payload. *)
Theorem faulting_read_still_emits :
  probe_read_user (Sample.unmapped 7) Sample.buf_addr 5 = None
  /\ out (Tls.handle_ssl_write_exit (Sample.unmapped 7) (Sample.at_exit 5)
            Sample.tls_busy)
     = [ {| Tls.timestamp_ns := 1000; Tls.ssl_ptr := 1; Tls.pid := 0;
            Tls.tid := 7; Tls.fd := 5; Tls.total_len := 5; Tls.data_len := 5;
            Tls.direction := Tls.DIR_WRITE; Tls.flags := 0;
            Tls.data := replicate 5 Byte.x00 |} ]
  /\ out (Tls.handle_ssl_read_exit (Sample.unmapped 7) (Sample.at_exit 5)
            Sample.tls_busy)
     = [ {| Tls.timestamp_ns := 1000; Tls.ssl_ptr := 1; Tls.pid := 0;
            Tls.tid := 7; Tls.fd := 5; Tls.total_len := 5; Tls.data_len := 5;
            Tls.direction := Tls.DIR_READ; Tls.flags := 0;
            Tls.data := replicate 5 Byte.x00 |} ].
Proof. repeat split; vm_compute; reflexivity. Qed.

(** ** C3: records and the return code *)

(** SSL_read and SSL_write return an int: the call's return code is the low
    half of the return register, read as a signed number.  The probes read
    the whole register as a signed 64-bit number. *)
Lemma int_failure_is_rejected r :
  s32 r <= 0 -> s64 r <= 0 \/ Hook.MAX_CAPTURE_SIZE < s64 r.
Proof.
  unfold s32, s64, Hook.MAX_CAPTURE_SIZE.
  rewrite <- (Z.mod_mod_divide r (2 ^ 64) (2 ^ 32))
    by (exists (2 ^ 32); reflexivity).
  pose proof (Z.mod_pos_bound r (2 ^ 64) ltac:(lia)) as Hu.
  set (u := r mod 2 ^ 64) in *.
  pose proof (Z.div_mod u (2 ^ 32) ltac:(lia)) as Hsplit.
  pose proof (Z.mod_pos_bound u (2 ^ 32) ltac:(lia)) as Hl.
  set (l := u mod 2 ^ 32) in *. set (q := u / 2 ^ 32) in *.
  destruct (Z.ltb_spec l (2 ^ 31)); destruct (Z.ltb_spec u (2 ^ 63)); lia.
Qed.

Lemma accepted_is_positive_int r :
  0 < s64 r <= Hook.MAX_CAPTURE_SIZE -> s32 r = s64 r.
Proof.
  unfold s32, s64, Hook.MAX_CAPTURE_SIZE.
  rewrite <- (Z.mod_mod_divide r (2 ^ 64) (2 ^ 32))
    by (exists (2 ^ 32); reflexivity).
  pose proof (Z.mod_pos_bound r (2 ^ 64) ltac:(lia)) as Hu.
  set (u := r mod 2 ^ 64) in *.
  destruct (Z.ltb_spec u (2 ^ 63)); [| lia].
  intros Hr. rewrite (Z.mod_small u (2 ^ 32)) by lia.
  destruct (Z.ltb_spec u (2 ^ 31)); lia.
Qed.

(** C3, as the code has it by design.  The SSL_read exit probe of the perf
    program hands over nothing when the int return code of the call is zero
    or negative, whatever the upper half of the return register holds, and
    every record it hands over comes from a positive int return code.  The
    exit probes of the ring-buffer program do the same for every return
    register except those that read as a positive 64-bit number while the
    int they carry is zero or negative; a register that holds the int
    sign-extended is never one of these, and nothing is stated here for the
    registers that are.  The entry probes of the ring-buffer program, its
    registry probes and the SSL_read entry probe of the perf program hand
    over nothing.  The perf program's SSL_write record is the exception: it
    leaves at the entry of the call, carries the requested length, and does
    not depend on the return value register. *)
Theorem records_need_positive_return
    (e : env) (ctx : pt_regs) (s : Tls.maps) (m : gmap Z Hook.ssl_read_ctx) :
  (s32 (PT_REGS_RC ctx) <= 0 -> out (Hook.uretprobe_ssl_read e ctx m) = [])
  /\ (forall ev, ev ∈ out (Hook.uretprobe_ssl_read e ctx m) ->
        0 < s32 (PT_REGS_RC ctx) /\ Hook.is_write ev = 0)
  /\ (~ (s32 (PT_REGS_RC ctx) <= 0 /\ 0 < s64 (PT_REGS_RC ctx)) ->
      (s32 (PT_REGS_RC ctx) <= 0 ->
       out (Tls.handle_ssl_write_exit e ctx s) = []
       /\ out (Tls.handle_ssl_read_exit e ctx s) = [])
      /\ (forall ev,
            ev ∈ out (Tls.handle_ssl_write_exit e ctx s)
                 ++ out (Tls.handle_ssl_read_exit e ctx s) ->
            0 < s32 (PT_REGS_RC ctx)))
  /\ (s64 (PT_REGS_RC ctx) = s32 (PT_REGS_RC ctx) ->
      ~ (s32 (PT_REGS_RC ctx) <= 0 /\ 0 < s64 (PT_REGS_RC ctx)))
  /\ (out (Tls.handle_ssl_write_entry e ctx s) = []
      /\ out (Tls.handle_ssl_read_entry e ctx s) = []
      /\ out (Tls.handle_ssl_set_fd e ctx s) = []
      /\ out (Tls.handle_ssl_free e ctx s) = []
      /\ out (Hook.uprobe_ssl_read e ctx m) = [])
  /\ (forall ev, ev ∈ out (Hook.uprobe_ssl_write e ctx m) ->
        Hook.is_write ev = 1
        /\ Hook.data_len ev = s32 (PT_REGS_PARM3 ctx)
        /\ forall rc, out (Hook.uprobe_ssl_write e (set_rc ctx rc) m)
                      = out (Hook.uprobe_ssl_write e ctx m)).
Proof.
  split; [| split; [| split; [| split; [| split]]]].
  - intros Hrc. apply read_exit_rejects. now apply int_failure_is_rejected.
  - intros ev Hin.
    destruct (read_exit_out_inv _ _ _ _ Hin) as (c & _ & Hr & _ & Hw & _).
    split; [| assumption]. rewrite accepted_is_positive_int by assumption. lia.
  - intros Hext. split.
    + intros Hrc.
      assert (s64 (PT_REGS_RC ctx) <= 0) as Hrc64 by lia.
      clear Hrc. rename Hrc64 into Hrc. split.
      * destruct (Tls.pending_write s !! Tls.tid_key e) as [a |] eqn:Hk.
        -- rewrite (write_exit_present e ctx s a Hk). cbn [out].
           now rewrite emit_event_nonpositive.
        -- now rewrite (write_exit_absent e ctx s Hk).
      * destruct (Tls.pending_read s !! Tls.tid_key e) as [a |] eqn:Hk.
        -- rewrite (read_exit_present e ctx s a Hk). cbn [out].
           now rewrite emit_event_nonpositive.
        -- now rewrite (read_exit_absent e ctx s Hk).
    + intros ev Hin. destruct (exit_record _ _ _ _ Hin) as (a & dir & Hev).
      destruct (emit_event_record _ _ _ _ _ _ Hev) as (Hpos & _).
      lia.
  - intros Hext. lia.
  - rewrite write_entry_outcome, read_entry_outcome, set_fd_outcome,
      free_outcome. repeat split. apply read_entry_quiet.
  - intros ev Hin.
    destruct (write_out_inv _ _ _ _ Hin) as (_ & _ & Hw & Hd & _).
    repeat split; try assumption.
Qed.

(** The int -1 of a failed call, sign-extended ([Sample.at_exit (-1)]) and
    zero-extended ([Sample.at_exit 4294967295]). *)
Lemma records_need_positive_return_witness :
  (s32 (PT_REGS_RC (Sample.at_exit 4294967295)) <= 0
   /\ out (Hook.uretprobe_ssl_read (Sample.thread 7)
             (Sample.at_exit 4294967295) Sample.hook_busy) = [])
  /\ (s32 (PT_REGS_RC (Sample.at_exit (-1))) <= 0
      /\ out (Hook.uretprobe_ssl_read (Sample.thread 7) (Sample.at_exit (-1))
                Sample.hook_busy) = [])
  /\ (Sample.hello_read
        ∈ out (Hook.uretprobe_ssl_read (Sample.thread 7) (Sample.at_exit 5)
                 Sample.hook_busy)
      /\ 0 < s32 (PT_REGS_RC (Sample.at_exit 5)))
  /\ (~ (s32 (PT_REGS_RC (Sample.at_exit (-1))) <= 0
         /\ 0 < s64 (PT_REGS_RC (Sample.at_exit (-1))))
      /\ s32 (PT_REGS_RC (Sample.at_exit (-1))) <= 0
      /\ out (Tls.handle_ssl_write_exit (Sample.thread 7) (Sample.at_exit (-1))
                Sample.tls_busy) = []
      /\ out (Tls.handle_ssl_read_exit (Sample.thread 7) (Sample.at_exit (-1))
                Sample.tls_busy) = [])
  /\ (~ (s32 (PT_REGS_RC (Sample.at_exit 5)) <= 0
         /\ 0 < s64 (PT_REGS_RC (Sample.at_exit 5)))
      /\ (exists ev,
            ev ∈ out (Tls.handle_ssl_write_exit (Sample.thread 7)
                        (Sample.at_exit 5) Sample.tls_busy)
                 ++ out (Tls.handle_ssl_read_exit (Sample.thread 7)
                           (Sample.at_exit 5) Sample.tls_busy))
      /\ 0 < s32 (PT_REGS_RC (Sample.at_exit 5)))
  /\ (Sample.hello_written
        ∈ out (Hook.uprobe_ssl_write (Sample.thread 7)
                 (Sample.at_entry 1 Sample.buf_addr 5) Sample.hook_busy)
      /\ Hook.is_write Sample.hello_written = 1
      /\ Hook.data_len Sample.hello_written
         = s32 (PT_REGS_PARM3 (Sample.at_entry 1 Sample.buf_addr 5))).
Proof.
  assert (s64 (PT_REGS_RC (Sample.at_exit (-1))) = -1) as E64 by reflexivity.
  assert (s32 (PT_REGS_RC (Sample.at_exit 5)) = 5) as E32 by reflexivity.
  split; [| split; [| split; [| split; [| split]]]].
  - assert (s32 (PT_REGS_RC (Sample.at_exit 4294967295)) <= 0) as Hrc
      by (vm_compute; discriminate).
    split; [exact Hrc |].
    exact (proj1 (records_need_positive_return (Sample.thread 7)
                    (Sample.at_exit 4294967295) Sample.tls_busy
                    Sample.hook_busy) Hrc).
  - assert (s32 (PT_REGS_RC (Sample.at_exit (-1))) <= 0) as Hrc
      by (vm_compute; discriminate).
    split; [exact Hrc |].
    exact (proj1 (records_need_positive_return (Sample.thread 7)
                    (Sample.at_exit (-1)) Sample.tls_busy Sample.hook_busy) Hrc).
  - assert (Sample.hello_read
              ∈ out (Hook.uretprobe_ssl_read (Sample.thread 7)
                       (Sample.at_exit 5) Sample.hook_busy))
      as Hin by (vm_compute; apply list_elem_of_singleton; reflexivity).
    split; [exact Hin |].
    exact (proj1 (proj1 (proj2 (records_need_positive_return
             (Sample.thread 7) (Sample.at_exit 5) Sample.tls_busy
             Sample.hook_busy)) _ Hin)).
  - assert (~ (s32 (PT_REGS_RC (Sample.at_exit (-1))) <= 0
               /\ 0 < s64 (PT_REGS_RC (Sample.at_exit (-1))))) as Hext
      by (rewrite E64; lia).
    assert (s32 (PT_REGS_RC (Sample.at_exit (-1))) <= 0) as Hrc
      by (vm_compute; discriminate).
    split; [exact Hext |]. split; [exact Hrc |].
    exact (proj1 (proj1 (proj2 (proj2 (records_need_positive_return
             (Sample.thread 7) (Sample.at_exit (-1)) Sample.tls_busy
             Sample.hook_busy))) Hext) Hrc).
  - assert (~ (s32 (PT_REGS_RC (Sample.at_exit 5)) <= 0
               /\ 0 < s64 (PT_REGS_RC (Sample.at_exit 5)))) as Hext
      by (rewrite E32; lia).
    split; [exact Hext |].
    assert (exists ev,
              ev ∈ out (Tls.handle_ssl_write_exit (Sample.thread 7)
                          (Sample.at_exit 5) Sample.tls_busy)
                   ++ out (Tls.handle_ssl_read_exit (Sample.thread 7)
                             (Sample.at_exit 5) Sample.tls_busy))
      as (ev & Hin) by (eexists; vm_compute; apply list_elem_of_here).
    split; [exists ev; exact Hin |].
    exact (proj2 (proj1 (proj2 (proj2 (records_need_positive_return
             (Sample.thread 7) (Sample.at_exit 5) Sample.tls_busy
             Sample.hook_busy))) Hext) ev Hin).
  - assert (Sample.hello_written
              ∈ out (Hook.uprobe_ssl_write (Sample.thread 7)
                       (Sample.at_entry 1 Sample.buf_addr 5) Sample.hook_busy))
      as Hin by (vm_compute; apply list_elem_of_singleton; reflexivity).
    split; [exact Hin |].
    destruct (proj2 (proj2 (proj2 (proj2 (proj2 (records_need_positive_return
                (Sample.thread 7) (Sample.at_entry 1 Sample.buf_addr 5)
                Sample.tls_busy Sample.hook_busy))))) _ Hin) as (Hw & Hd & _).
    split; assumption.
Defined.

(** C3 as stated fails on the perf program: a call SSL_write(ssl, "hello", 5)
    that returns -1 has handed over its record when it was entered; the
    program has no probe on the exit of SSL_write that could hold the record
    back. *)
Lemma write_record_precedes_return :
  s64 (PT_REGS_RC (Sample.at_exit (-1))) <= 0
  /\ out (Hook.uprobe_ssl_write (Sample.thread 7)
            (Sample.at_entry 1 Sample.buf_addr 5) Hook.init)
     = [Sample.hello_written].
Proof. split; vm_compute; [discriminate | reflexivity]. Qed.

(** The registers C3 is silent about.  emit_event tests the 64-bit register
    (line 65), not the int the call returned: when the -1 of a failed call
    arrives zero-extended, the exit probes of the ring-buffer program let it
    through and hand over a flagged record of 512 bytes, where the perf
    program drops it. *)
Lemma zero_extended_failure_is_recorded :
  PT_REGS_RC (Sample.at_exit 4294967295) = 4294967295
  /\ s32 (PT_REGS_RC (Sample.at_exit 4294967295)) = -1
  /\ (exists ev,
        out (Tls.handle_ssl_write_exit (Sample.thread 7)
               (Sample.at_exit 4294967295) Sample.tls_busy) = [ev]
        /\ Tls.total_len ev = 4294967295
        /\ Tls.data_len ev = 512
        /\ Tls.truncated ev = true)
  /\ (exists ev,
        out (Tls.handle_ssl_read_exit (Sample.thread 7)
               (Sample.at_exit 4294967295) Sample.tls_busy) = [ev]
        /\ Tls.total_len ev = 4294967295
        /\ Tls.data_len ev = 512
        /\ Tls.truncated ev = true)
  /\ out (Hook.uretprobe_ssl_read (Sample.thread 7)
            (Sample.at_exit 4294967295) Sample.hook_busy) = [].
Proof.
  split; [reflexivity |]. split; [reflexivity |].
  split; [eexists; repeat split; vm_compute; reflexivity |].
  split; [eexists; repeat split; vm_compute; reflexivity |].
  vm_compute. reflexivity.
Qed.

(** ** C4: an exit without a pending entry *)

(** C4.  An exit probe that finds no pending entry under the key of the
    running thread hands nothing to the output channel, returns 0 and leaves
    every map (the other pending entries, the registry) exactly as it was. *)
Theorem unmatched_exit_is_noop
    (e : env) (ctx : pt_regs) (s : Tls.maps) (m : gmap Z Hook.ssl_read_ctx) :
  (Tls.pending_write s !! Tls.tid_key e = None ->
   Tls.handle_ssl_write_exit e ctx s = {| ret := 0; st := s; out := [] |})
  /\ (Tls.pending_read s !! Tls.tid_key e = None ->
      Tls.handle_ssl_read_exit e ctx s = {| ret := 0; st := s; out := [] |})
  /\ (m !! current_pid_tgid e = None ->
      Hook.uretprobe_ssl_read e ctx m = {| ret := 0; st := m; out := [] |}).
Proof.
  split; [| split].
  - apply write_exit_absent.
  - apply read_exit_absent.
  - apply read_exit_absent_hook.
Qed.

(** Scenario 3 of the specification: exit(inbound, thread 9, 5) while only
    thread 7 has calls in flight. *)
Lemma unmatched_exit_is_noop_witness :
  (Tls.pending_write Sample.tls_busy !! Tls.tid_key (Sample.thread 9) = None
   /\ Tls.handle_ssl_write_exit (Sample.thread 9) (Sample.at_exit 5)
        Sample.tls_busy
      = {| ret := 0; st := Sample.tls_busy; out := [] |})
  /\ (Tls.pending_read Sample.tls_busy !! Tls.tid_key (Sample.thread 9) = None
      /\ Tls.handle_ssl_read_exit (Sample.thread 9) (Sample.at_exit 5)
           Sample.tls_busy
         = {| ret := 0; st := Sample.tls_busy; out := [] |})
  /\ (Sample.hook_busy !! current_pid_tgid (Sample.thread 9) = None
      /\ Hook.uretprobe_ssl_read (Sample.thread 9) (Sample.at_exit 5)
           Sample.hook_busy
         = {| ret := 0; st := Sample.hook_busy; out := [] |}).
Proof.
  destruct (unmatched_exit_is_noop (Sample.thread 9) (Sample.at_exit 5)
              Sample.tls_busy Sample.hook_busy) as (Hw & Hr & Hh).
  split; [| split].
  - split; [reflexivity | apply Hw; reflexivity].
  - split; [reflexivity | apply Hr; reflexivity].
  - split; [reflexivity | apply Hh; reflexivity].
Defined.

(** ** C5: what a lookup answers *)

Lemma lookup_fd_update (m : gmap Z Z) k v h :
  k <> h ->
  Tls.lookup_fd (bpf_map_update_elem Tls.max_entries m k v).2 h
  = Tls.lookup_fd m h.
Proof.
  intros Hne. unfold Tls.lookup_fd, bpf_map_lookup_elem.
  now rewrite update_other.
Qed.

(** A lookup follows the operations as long as the Binds of the handle that
    is looked up find room. *)
Lemma run_ops_lookup_fit e h ops : forall s,
  binds_fit e h ops s ->
  Tls.lookup_fd (Tls.ssl_fd_map (run_ops e ops s)) h
  = expected_fd ops h (Tls.lookup_fd (Tls.ssl_fd_map s) h).
Proof.
  induction ops as [| op ops IH]; intros s Hfit; [reflexivity |].
  cbn [binds_fit] in Hfit. destruct Hfit as [Hop Hrest].
  unfold run_ops, expected_fd. cbn [fold_left].
  fold (run_ops e ops (run_op e s op)).
  rewrite (IH _ Hrest). unfold expected_fd. f_equal.
  destruct op as [h' d | h']; cbn [run_op].
  - rewrite set_fd_outcome. cbn [st Tls.ssl_fd_map registry_regs
      PT_REGS_PARM1 PT_REGS_PARM2].
    destruct (decide (u64 h' = h)) as [Heq | Hne].
    + rewrite update_has_room by (rewrite Heq; now apply Hop). cbn [snd].
      now rewrite lookup_fd_insert, decide_True.
    + now apply lookup_fd_update.
  - rewrite free_outcome. cbn [st Tls.ssl_fd_map registry_regs PT_REGS_PARM1].
    apply lookup_fd_delete.
Qed.

(** Runs too short to fill the registry are a special case. *)
Lemma short_runs_fit e h ops : forall s,
  Z.of_nat (size (Tls.ssl_fd_map s)) + Z.of_nat (length ops)
    <= Tls.max_entries ->
  binds_fit e h ops s.
Proof.
  induction ops as [| op ops IH]; intros s Hsz; cbn [binds_fit]; [exact I |].
  cbn [length] in Hsz. split.
  - destruct op as [h' d | h']; [| exact I]. intros _. right. lia.
  - apply IH. pose proof (run_op_size e s op). lia.
Qed.

(** Unbinding one of its handles makes room in a filled registry. *)
Lemma room_after_unbind n k mx :
  0 <= k < Z.of_nat n -> Z.of_nat n <= mx ->
  Z.of_nat (size (delete k (filled n))) < mx.
Proof.
  intros Hk Hn.
  assert (is_Some (filled n !! k)) as Hsome
    by (rewrite filled_lookup, decide_True by assumption; eauto).
  rewrite (map_size_delete_Some k (filled n) Hsome), filled_size. lia.
Qed.

(** C5, as the code has it.  Over any sequence of Bind and Unbind operations
    in which every Bind of the handle finds room (the handle is bound at
    that time, or fewer than 32768 handles are), the lookup of the handle
    answers the descriptor of its latest Bind, and -1 if the handle was never
    bound or was unbound since; the empty registry answers -1.  Sequences too
    short to fill the registry are a special case.  Every record of an exit
    probe carries the answer of the lookup for its handle at the time of the
    exit; in particular, an exit that follows the Unbind of the handle of its
    call carries -1. *)
Theorem lookup_follows_registry_ops
    (e : env) (ops : list registry_op) (s : Tls.maps) (h : Z) :
  (binds_fit e h ops s ->
   Tls.lookup_fd (Tls.ssl_fd_map (run_ops e ops s)) h
   = expected_fd ops h (Tls.lookup_fd (Tls.ssl_fd_map s) h))
  /\ (Z.of_nat (size (Tls.ssl_fd_map s)) + Z.of_nat (length ops)
        <= Tls.max_entries ->
      binds_fit e h ops s)
  /\ Tls.lookup_fd (Tls.ssl_fd_map Tls.init) h = -1
  /\ (forall ctx ev,
        ev ∈ out (Tls.handle_ssl_write_exit e ctx s)
             ++ out (Tls.handle_ssl_read_exit e ctx s) ->
        Tls.fd ev = Tls.lookup_fd (Tls.ssl_fd_map s) (Tls.ssl_ptr ev))
  /\ (forall e' ctx_free ctx ev,
        ev ∈ out (Tls.handle_ssl_write_exit e ctx
                    (st (Tls.handle_ssl_free e' ctx_free s)))
             ++ out (Tls.handle_ssl_read_exit e ctx
                       (st (Tls.handle_ssl_free e' ctx_free s))) ->
        Tls.ssl_ptr ev = u64 (PT_REGS_PARM1 ctx_free) ->
        Tls.fd ev = -1).
Proof.
  assert (forall s' ctx ev,
            ev ∈ out (Tls.handle_ssl_write_exit e ctx s')
                 ++ out (Tls.handle_ssl_read_exit e ctx s') ->
            Tls.fd ev = Tls.lookup_fd (Tls.ssl_fd_map s') (Tls.ssl_ptr ev))
    as Hfd.
  { intros s' ctx ev Hin.
    destruct (exit_record _ _ _ _ Hin) as (a & dir & Hev).
    rewrite (emit_event_ssl_ptr _ _ _ _ _ _ Hev).
    destruct (emit_event_record _ _ _ _ _ _ Hev)
      as (_ & _ & _ & _ & _ & _ & a' & Ha & Hlook & _).
    injection Ha as <-. exact Hlook. }
  split; [| split; [| split; [| split]]].
  - apply run_ops_lookup_fit.
  - apply short_runs_fit.
  - apply lookup_fd_empty.
  - apply Hfd.
  - intros e' ctx_free ctx ev Hin Hptr.
    rewrite (Hfd _ _ _ Hin), free_outcome, Hptr. cbn [st Tls.ssl_fd_map].
    rewrite lookup_fd_delete, decide_True; reflexivity.
Qed.

(** A short run from the empty registry; on the full registry, an Unbind, a
    Bind that overwrites, and an Unbind that makes room for a Bind of a new
    handle; an exit after an Unbind. *)
Lemma lookup_follows_registry_ops_witness :
  (Z.of_nat (size (Tls.ssl_fd_map Tls.init))
     + Z.of_nat (length [Bind 1 5; Bind 2 6; Unbind 1; Bind 2 8])
     <= Tls.max_entries
   /\ binds_fit (Sample.thread 7) 2 [Bind 1 5; Bind 2 6; Unbind 1; Bind 2 8]
        Tls.init
   /\ Tls.lookup_fd
        (Tls.ssl_fd_map (run_ops (Sample.thread 7)
                           [Bind 1 5; Bind 2 6; Unbind 1; Bind 2 8] Tls.init)) 2
      = expected_fd [Bind 1 5; Bind 2 6; Unbind 1; Bind 2 8] 2
          (Tls.lookup_fd (Tls.ssl_fd_map Tls.init) 2)
   /\ expected_fd [Bind 1 5; Bind 2 6; Unbind 1; Bind 2 8] 2
        (Tls.lookup_fd (Tls.ssl_fd_map Tls.init) 2) = 8)
  /\ (binds_fit (Sample.thread 7) 5 [Unbind 5] full_registry
      /\ Tls.lookup_fd
           (Tls.ssl_fd_map (run_ops (Sample.thread 7) [Unbind 5] full_registry))
           5
         = expected_fd [Unbind 5] 5
             (Tls.lookup_fd (Tls.ssl_fd_map full_registry) 5)
      /\ expected_fd [Unbind 5] 5
           (Tls.lookup_fd (Tls.ssl_fd_map full_registry) 5) = -1)
  /\ (binds_fit (Sample.thread 7) 5 [Bind 5 9] full_registry
      /\ Tls.lookup_fd
           (Tls.ssl_fd_map (run_ops (Sample.thread 7) [Bind 5 9] full_registry))
           5
         = expected_fd [Bind 5 9] 5
             (Tls.lookup_fd (Tls.ssl_fd_map full_registry) 5)
      /\ expected_fd [Bind 5 9] 5
           (Tls.lookup_fd (Tls.ssl_fd_map full_registry) 5) = 9)
  /\ (binds_fit (Sample.thread 7) 40000 [Unbind 5; Bind 40000 9] full_registry
      /\ Tls.lookup_fd
           (Tls.ssl_fd_map (run_ops (Sample.thread 7) [Unbind 5; Bind 40000 9]
                              full_registry)) 40000
         = expected_fd [Unbind 5; Bind 40000 9] 40000
             (Tls.lookup_fd (Tls.ssl_fd_map full_registry) 40000)
      /\ expected_fd [Unbind 5; Bind 40000 9] 40000
           (Tls.lookup_fd (Tls.ssl_fd_map full_registry) 40000) = 9)
  /\ (exists ev,
        ev ∈ out (Tls.handle_ssl_write_exit (Sample.thread 7) (Sample.at_exit 5)
                    (st (Tls.handle_ssl_free (Sample.thread 7)
                           (registry_regs 1 0) Sample.tls_busy)))
             ++ out (Tls.handle_ssl_read_exit (Sample.thread 7)
                       (Sample.at_exit 5)
                       (st (Tls.handle_ssl_free (Sample.thread 7)
                              (registry_regs 1 0) Sample.tls_busy)))
        /\ Tls.ssl_ptr ev = u64 (PT_REGS_PARM1 (registry_regs 1 0))
        /\ Tls.fd ev = -1).
Proof.
  assert (filled capacity !! 5 = Some 3) as Hfive.
  { rewrite filled_lookup, decide_True; [reflexivity |].
    rewrite capacity_Z. unfold Tls.max_entries. lia. }
  split; [| split; [| split; [| split]]].
  - assert (Z.of_nat (size (Tls.ssl_fd_map Tls.init))
              + Z.of_nat (length [Bind 1 5; Bind 2 6; Unbind 1; Bind 2 8])
              <= Tls.max_entries) as Hsz by (vm_compute; discriminate).
    pose proof (proj1 (proj2 (lookup_follows_registry_ops (Sample.thread 7)
                  [Bind 1 5; Bind 2 6; Unbind 1; Bind 2 8] Tls.init 2)) Hsz)
      as Hfit.
    split; [exact Hsz |]. split; [exact Hfit |].
    split; [| vm_compute; reflexivity].
    exact (proj1 (lookup_follows_registry_ops (Sample.thread 7)
                    [Bind 1 5; Bind 2 6; Unbind 1; Bind 2 8] Tls.init 2) Hfit).
  - assert (binds_fit (Sample.thread 7) 5 [Unbind 5] full_registry) as Hfit
      by (cbn [binds_fit]; split; exact I).
    split; [exact Hfit |].
    split; [| reflexivity].
    exact (proj1 (lookup_follows_registry_ops (Sample.thread 7)
                    [Unbind 5] full_registry 5) Hfit).
  - assert (binds_fit (Sample.thread 7) 5 [Bind 5 9] full_registry) as Hfit.
    { cbn [binds_fit]. split; [| exact I]. intros _. left.
      cbn [full_registry Tls.ssl_fd_map]. exists 3. exact Hfive. }
    split; [exact Hfit |].
    split; [| reflexivity].
    exact (proj1 (lookup_follows_registry_ops (Sample.thread 7)
                    [Bind 5 9] full_registry 5) Hfit).
  - assert (binds_fit (Sample.thread 7) 40000 [Unbind 5; Bind 40000 9]
              full_registry) as Hfit.
    { cbn [binds_fit]. split; [exact I |]. split; [| exact I]. intros _.
      right. cbn [run_op]. rewrite free_outcome.
      cbn [st Tls.ssl_fd_map registry_regs PT_REGS_PARM1].
      rewrite (u64_small 5) by lia.
      cbn [full_registry Tls.ssl_fd_map].
      apply room_after_unbind; rewrite capacity_Z; unfold Tls.max_entries; lia. }
    split; [exact Hfit |].
    split; [| reflexivity].
    exact (proj1 (lookup_follows_registry_ops (Sample.thread 7)
                    [Unbind 5; Bind 40000 9] full_registry 40000) Hfit).
  - destruct (lookup_follows_registry_ops (Sample.thread 7) [] Sample.tls_busy 1)
      as (_ & _ & _ & _ & Hfree).
    eexists. split; [vm_compute; apply list_elem_of_here |].
    split; [reflexivity |].
    refine (Hfree (Sample.thread 7) (registry_regs 1 0) (Sample.at_exit 5) _ _ _).
    + vm_compute. apply list_elem_of_here.
    + reflexivity.
Defined.

(** C5 as stated fails once the registry is full: after 32768 handles have
    been bound, the handle 32768 is bound to descriptor 5 and never unbound,
    and its lookup answers -1. *)
Lemma bind_on_full_registry_is_not_found :
  expected_fd (binds capacity ++ [Bind 32768 5]) 32768
    (Tls.lookup_fd (Tls.ssl_fd_map Tls.init) 32768) = 5
  /\ Tls.lookup_fd
       (Tls.ssl_fd_map (run_ops (Sample.thread 7)
                          (binds capacity ++ [Bind 32768 5]) Tls.init)) 32768
     = -1.
Proof.
  split.
  - unfold expected_fd. rewrite fold_left_app. reflexivity.
  - rewrite run_ops_app, full_registry_reachable.
    unfold run_ops. cbn [fold_left run_op].
    rewrite set_fd_on_full by (unfold Tls.max_entries; lia).
    unfold Tls.lookup_fd, bpf_map_lookup_elem. cbn [full_registry Tls.ssl_fd_map].
    rewrite filled_lookup, decide_False; [reflexivity |].
    rewrite capacity_Z. unfold Tls.max_entries. lia.
Qed.

(** ** C6: Bind and Unbind on the registry *)

(** C6, as the code has it.  The SSL_set_fd probe always returns 0 and hands
    over nothing; it inserts or overwrites the binding of the handle when the
    handle is already bound or the registry holds fewer than 32768 bindings,
    and leaves the registry as it is otherwise.  Binding twice is binding
    once, and a later binding of the same handle wins.  The SSL_free probe
    always returns 0, removes the binding of the handle, and changes nothing
    when the handle has none. *)
Theorem bind_and_unbind
    (e : env) (ctx : pt_regs) (s : Tls.maps) :
  (ret (Tls.handle_ssl_set_fd e ctx s) = 0
   /\ out (Tls.handle_ssl_set_fd e ctx s) = []
   /\ Tls.pending_write (st (Tls.handle_ssl_set_fd e ctx s))
      = Tls.pending_write s
   /\ Tls.pending_read (st (Tls.handle_ssl_set_fd e ctx s))
      = Tls.pending_read s)
  /\ (has_room Tls.max_entries (Tls.ssl_fd_map s) (u64 (PT_REGS_PARM1 ctx)) ->
      Tls.ssl_fd_map (st (Tls.handle_ssl_set_fd e ctx s))
      = <[u64 (PT_REGS_PARM1 ctx) := u32 (PT_REGS_PARM2 ctx)]> (Tls.ssl_fd_map s))
  /\ (~ has_room Tls.max_entries (Tls.ssl_fd_map s) (u64 (PT_REGS_PARM1 ctx)) ->
      Tls.ssl_fd_map (st (Tls.handle_ssl_set_fd e ctx s)) = Tls.ssl_fd_map s)
  /\ Tls.handle_ssl_set_fd e ctx (st (Tls.handle_ssl_set_fd e ctx s))
     = Tls.handle_ssl_set_fd e ctx s
  /\ (forall ctx',
        u64 (PT_REGS_PARM1 ctx') = u64 (PT_REGS_PARM1 ctx) ->
        Tls.handle_ssl_set_fd e ctx' (st (Tls.handle_ssl_set_fd e ctx s))
        = Tls.handle_ssl_set_fd e ctx' s)
  /\ (ret (Tls.handle_ssl_free e ctx s) = 0
      /\ out (Tls.handle_ssl_free e ctx s) = []
      /\ Tls.ssl_fd_map (st (Tls.handle_ssl_free e ctx s))
         = delete (u64 (PT_REGS_PARM1 ctx)) (Tls.ssl_fd_map s)
      /\ Tls.pending_write (st (Tls.handle_ssl_free e ctx s))
         = Tls.pending_write s
      /\ Tls.pending_read (st (Tls.handle_ssl_free e ctx s))
         = Tls.pending_read s)
  /\ (Tls.ssl_fd_map s !! u64 (PT_REGS_PARM1 ctx) = None ->
      st (Tls.handle_ssl_free e ctx s) = s).
Proof.
  assert (forall ctx',
            u64 (PT_REGS_PARM1 ctx') = u64 (PT_REGS_PARM1 ctx) ->
            Tls.handle_ssl_set_fd e ctx' (st (Tls.handle_ssl_set_fd e ctx s))
            = Tls.handle_ssl_set_fd e ctx' s) as Hlast.
  { intros ctx' Hsame. rewrite !set_fd_outcome. cbn [st Tls.ssl_fd_map
      Tls.pending_write Tls.pending_read]. rewrite Hsame.
    set (h := u64 (PT_REGS_PARM1 ctx)).
    set (d := u32 (PT_REGS_PARM2 ctx)). set (d' := u32 (PT_REGS_PARM2 ctx')).
    do 3 f_equal.
    destruct (update_cases Tls.max_entries (Tls.ssl_fd_map s) h d)
      as [[Hroom ->] | [Hfull ->]]; [| reflexivity].
    rewrite update_has_room by (left; rewrite lookup_insert_eq; eauto).
    rewrite update_has_room by assumption.
    f_equal. apply insert_insert_eq. }
  split; [| split; [| split; [| split; [| split; [| split]]]]].
  - rewrite set_fd_outcome. now repeat split.
  - intros Hroom. rewrite set_fd_outcome. cbn [st Tls.ssl_fd_map].
    now rewrite update_has_room.
  - intros Hfull. rewrite set_fd_outcome. cbn [st Tls.ssl_fd_map].
    destruct (update_cases Tls.max_entries (Tls.ssl_fd_map s)
                (u64 (PT_REGS_PARM1 ctx)) (u32 (PT_REGS_PARM2 ctx)))
      as [[Hroom _] | [_ ->]]; [contradiction | reflexivity].
  - now apply Hlast.
  - exact Hlast.
  - rewrite free_outcome. now repeat split.
  - intros Hk. rewrite free_outcome. cbn [st].
    rewrite delete_id by assumption. now destruct s.
Qed.

Lemma bind_and_unbind_witness :
  (has_room Tls.max_entries (Tls.ssl_fd_map Tls.init)
     (u64 (PT_REGS_PARM1 (registry_regs 1 5)))
   /\ Tls.ssl_fd_map (st (Tls.handle_ssl_set_fd (Sample.thread 7)
                            (registry_regs 1 5) Tls.init))
      = <[u64 (PT_REGS_PARM1 (registry_regs 1 5))
            := u32 (PT_REGS_PARM2 (registry_regs 1 5))]>
          (Tls.ssl_fd_map Tls.init))
  /\ (~ has_room Tls.max_entries (Tls.ssl_fd_map full_registry)
          (u64 (PT_REGS_PARM1 (registry_regs 32768 5)))
      /\ Tls.ssl_fd_map (st (Tls.handle_ssl_set_fd (Sample.thread 7)
                               (registry_regs 32768 5) full_registry))
         = Tls.ssl_fd_map full_registry)
  /\ (u64 (PT_REGS_PARM1 (registry_regs 1 9))
      = u64 (PT_REGS_PARM1 (registry_regs 1 5))
      /\ Tls.handle_ssl_set_fd (Sample.thread 7) (registry_regs 1 9)
           (st (Tls.handle_ssl_set_fd (Sample.thread 7)
                  (registry_regs 1 5) Tls.init))
         = Tls.handle_ssl_set_fd (Sample.thread 7) (registry_regs 1 9) Tls.init)
  /\ (Tls.ssl_fd_map Tls.init !! u64 (PT_REGS_PARM1 (registry_regs 1 5)) = None
      /\ st (Tls.handle_ssl_free (Sample.thread 7) (registry_regs 1 5) Tls.init)
         = Tls.init).
Proof.
  destruct (bind_and_unbind (Sample.thread 7) (registry_regs 1 5) Tls.init)
    as (_ & Hins & _ & _ & Hlast & _ & Hfree).
  destruct (bind_and_unbind (Sample.thread 7) (registry_regs 32768 5)
              full_registry) as (_ & _ & Hfull & _).
  split; [| split; [| split]].
  - assert (has_room Tls.max_entries (Tls.ssl_fd_map Tls.init)
              (u64 (PT_REGS_PARM1 (registry_regs 1 5)))) as Hroom
      by (right; vm_compute; reflexivity).
    split; [exact Hroom | exact (Hins Hroom)].
  - assert (~ has_room Tls.max_entries (Tls.ssl_fd_map full_registry)
                (u64 (PT_REGS_PARM1 (registry_regs 32768 5)))) as Hno
      by (apply full_registry_is_full; vm_compute; discriminate).
    split; [exact Hno | exact (Hfull Hno)].
  - assert (u64 (PT_REGS_PARM1 (registry_regs 1 9))
            = u64 (PT_REGS_PARM1 (registry_regs 1 5))) as Hsame by reflexivity.
    split; [exact Hsame | exact (Hlast _ Hsame)].
  - assert (Tls.ssl_fd_map Tls.init
              !! u64 (PT_REGS_PARM1 (registry_regs 1 5)) = None) as Hk
      by reflexivity.
    split; [exact Hk | exact (Hfree Hk)].
Defined.

(** C6 as stated fails on a full registry: after 32768 handles have been
    bound, the SSL_set_fd probe for one more handle inserts nothing. *)
Lemma bind_on_full_registry_inserts_nothing :
  run_ops (Sample.thread 7) (binds capacity) Tls.init = full_registry
  /\ Tls.ssl_fd_map full_registry !! 32768 = None
  /\ Tls.ssl_fd_map (st (Tls.handle_ssl_set_fd (Sample.thread 7)
                           (registry_regs 32768 5) full_registry))
       !! 32768 = None.
Proof.
  assert (Tls.ssl_fd_map full_registry !! 32768 = None) as Hk.
  { cbn [full_registry Tls.ssl_fd_map]. rewrite filled_lookup, decide_False;
      [reflexivity |]. rewrite capacity_Z. unfold Tls.max_entries. lia. }
  split; [apply full_registry_reachable |]. split; [exact Hk |].
  rewrite set_fd_on_full; [exact Hk |]. unfold Tls.max_entries. lia.
Qed.

(** ** C7: requested lengths the entry probes refuse *)

(** C7, as the code has it.  The SSL_read entry probe of the perf program
    stores nothing when the requested length is zero, negative or above
    65536: the table is unchanged, and if the thread had no entry before, its
    exit finds none and hands over nothing.  (Its SSL_write probe hands over
    nothing for such a length either.)  The entry probes of the ring-buffer
    program never look at the requested length: whatever the third argument,
    they do the same, and store the handle and the buffer address of the call
    whenever the table has room. *)
Theorem refused_lengths_are_untracked
    (e : env) (ctx : pt_regs) (s : Tls.maps) (m : gmap Z Hook.ssl_read_ctx) :
  (s32 (PT_REGS_PARM3 ctx) <= 0
   \/ Hook.MAX_CAPTURE_SIZE < s32 (PT_REGS_PARM3 ctx) ->
   Hook.uprobe_ssl_read e ctx m = {| ret := 0; st := m; out := [] |}
   /\ Hook.uprobe_ssl_write e ctx m = {| ret := 0; st := m; out := [] |}
   /\ (m !! current_pid_tgid e = None ->
       forall ctx',
         Hook.uretprobe_ssl_read e ctx' (st (Hook.uprobe_ssl_read e ctx m))
         = {| ret := 0; st := m; out := [] |}))
  /\ (forall n,
        Tls.handle_ssl_write_entry e (set_parm3 ctx n) s
          = Tls.handle_ssl_write_entry e ctx s
        /\ Tls.handle_ssl_read_entry e (set_parm3 ctx n) s
           = Tls.handle_ssl_read_entry e ctx s)
  /\ (has_room Tls.max_entries (Tls.pending_write s) (Tls.tid_key e) ->
      Tls.pending_write (st (Tls.handle_ssl_write_entry e ctx s))
        !! Tls.tid_key e = Some (Tls.entry_args ctx))
  /\ (has_room Tls.max_entries (Tls.pending_read s) (Tls.tid_key e) ->
      Tls.pending_read (st (Tls.handle_ssl_read_entry e ctx s))
        !! Tls.tid_key e = Some (Tls.entry_args ctx)).
Proof.
  split; [| split; [| split]].
  - intros Hbad. rewrite read_entry_rejects, write_guard_rejects by assumption.
    repeat split. intros Hk ctx'. cbn [st]. now apply read_exit_absent_hook.
  - intros n. split; reflexivity.
  - intros Hroom. rewrite write_entry_outcome. cbn [st Tls.pending_write].
    rewrite update_has_room by assumption. apply lookup_insert_eq.
  - intros Hroom. rewrite read_entry_outcome. cbn [st Tls.pending_read].
    rewrite update_has_room by assumption. apply lookup_insert_eq.
Qed.

Lemma refused_lengths_are_untracked_witness :
  ((s32 (PT_REGS_PARM3 (Sample.at_entry 1 Sample.buf_addr (-1))) <= 0
    \/ Hook.MAX_CAPTURE_SIZE
         < s32 (PT_REGS_PARM3 (Sample.at_entry 1 Sample.buf_addr (-1))))
   /\ Hook.uprobe_ssl_read (Sample.thread 9)
        (Sample.at_entry 1 Sample.buf_addr (-1)) Sample.hook_busy
      = {| ret := 0; st := Sample.hook_busy; out := [] |}
   /\ Sample.hook_busy !! current_pid_tgid (Sample.thread 9) = None
   /\ Hook.uretprobe_ssl_read (Sample.thread 9) (Sample.at_exit 5)
        (st (Hook.uprobe_ssl_read (Sample.thread 9)
               (Sample.at_entry 1 Sample.buf_addr (-1)) Sample.hook_busy))
      = {| ret := 0; st := Sample.hook_busy; out := [] |})
  /\ (has_room Tls.max_entries (Tls.pending_write Tls.init)
        (Tls.tid_key (Sample.thread 7))
      /\ Tls.pending_write
           (st (Tls.handle_ssl_write_entry (Sample.thread 7)
                  (Sample.at_entry 1 Sample.buf_addr 5) Tls.init))
           !! Tls.tid_key (Sample.thread 7)
         = Some (Tls.entry_args (Sample.at_entry 1 Sample.buf_addr 5)))
  /\ (has_room Tls.max_entries (Tls.pending_read Tls.init)
        (Tls.tid_key (Sample.thread 7))
      /\ Tls.pending_read
           (st (Tls.handle_ssl_read_entry (Sample.thread 7)
                  (Sample.at_entry 1 Sample.buf_addr 5) Tls.init))
           !! Tls.tid_key (Sample.thread 7)
         = Some (Tls.entry_args (Sample.at_entry 1 Sample.buf_addr 5))).
Proof.
  split; [| split].
  - assert (s32 (PT_REGS_PARM3 (Sample.at_entry 1 Sample.buf_addr (-1))) <= 0
            \/ Hook.MAX_CAPTURE_SIZE
                 < s32 (PT_REGS_PARM3 (Sample.at_entry 1 Sample.buf_addr (-1))))
      as Hbad by (left; vm_compute; discriminate).
    assert (Sample.hook_busy !! current_pid_tgid (Sample.thread 9) = None)
      as Hk by reflexivity.
    destruct (proj1 (refused_lengths_are_untracked (Sample.thread 9)
                (Sample.at_entry 1 Sample.buf_addr (-1)) Tls.init
                Sample.hook_busy) Hbad) as (Hr & _ & Hexit).
    split; [exact Hbad |]. split; [exact Hr |]. split; [exact Hk |].
    exact (Hexit Hk (Sample.at_exit 5)).
  - assert (has_room Tls.max_entries (Tls.pending_write Tls.init)
              (Tls.tid_key (Sample.thread 7))) as Hroom
      by (right; vm_compute; reflexivity).
    split; [exact Hroom |].
    exact (proj1 (proj2 (proj2 (refused_lengths_are_untracked (Sample.thread 7)
             (Sample.at_entry 1 Sample.buf_addr 5) Tls.init Hook.init))) Hroom).
  - assert (has_room Tls.max_entries (Tls.pending_read Tls.init)
              (Tls.tid_key (Sample.thread 7))) as Hroom
      by (right; vm_compute; reflexivity).
    split; [exact Hroom |].
    exact (proj2 (proj2 (proj2 (refused_lengths_are_untracked (Sample.thread 7)
             (Sample.at_entry 1 Sample.buf_addr 5) Tls.init Hook.init))) Hroom).
Defined.

(** C7 as stated fails on the ring-buffer program.  SSL_write(ssl, buf, -1)
    is tracked like any other call, and so is SSL_write(ssl, buf, 70000),
    whose exit with return code 70000 then hands over a record.  On the perf
    program the refused entry stores nothing, but its exit still finds an
    entry when an earlier call of the thread left one behind. *)
Lemma any_length_is_tracked :
  s32 (PT_REGS_PARM3 (Sample.at_entry 1 Sample.buf_addr (-1))) <= 0
  /\ Tls.pending_write
       (st (Tls.handle_ssl_write_entry (Sample.thread 7)
              (Sample.at_entry 1 Sample.buf_addr (-1)) Tls.init))
       !! Tls.tid_key (Sample.thread 7)
     = Some {| Tls.args_ssl_ptr := 1; Tls.args_buf_ptr := Sample.buf_addr |}
  /\ Hook.MAX_CAPTURE_SIZE
       < s32 (PT_REGS_PARM3 (Sample.at_entry 1 Sample.buf_addr 70000))
  /\ out (Tls.handle_ssl_write_exit (Sample.thread 7) (Sample.at_exit 70000)
            (st (Tls.handle_ssl_write_entry (Sample.thread 7)
                   (Sample.at_entry 1 Sample.buf_addr 70000) Tls.init)))
     <> []
  /\ out (Hook.uretprobe_ssl_read (Sample.thread 7) (Sample.at_exit 5)
            (st (Hook.uprobe_ssl_read (Sample.thread 7)
                   (Sample.at_entry 1 Sample.buf_addr 70000)
                   Sample.hook_busy)))
     = [Sample.hello_read].
Proof.
  split; [vm_compute; discriminate |].
  split; [vm_compute; reflexivity |].
  split; [vm_compute; reflexivity |].
  split; [vm_compute; discriminate |].
  vm_compute. reflexivity.
Qed.

(** ** C8: the captured length of an inbound call *)

(** C8, as the code has it.  A record of the perf program's SSL_read exit
    carries min(return code, requested length stored at entry, 65536) bytes,
    for an entry found in the table as well as for the entry the call itself
    stored.  A record of the ring-buffer program's SSL_read exit carries
    min(return code mod 2^32, 512) bytes: the program stores no requested
    length, and its figure agrees with min(return code, requested length,
    512) for every requested length the return code does not exceed. *)
Theorem inbound_capture_length
    (e : env) (ctx : pt_regs) (s : Tls.maps) (m : gmap Z Hook.ssl_read_ctx) :
  (forall c ev,
     m !! current_pid_tgid e = Some c ->
     0 < Hook.num c <= Hook.MAX_CAPTURE_SIZE ->
     ev ∈ out (Hook.uretprobe_ssl_read e ctx m) ->
     Hook.data_len ev
     = Z.min (s64 (PT_REGS_RC ctx)) (Z.min (Hook.num c) Hook.MAX_CAPTURE_SIZE))
  /\ (forall ctx_in ev,
        0 < s32 (PT_REGS_PARM3 ctx_in) <= Hook.MAX_CAPTURE_SIZE ->
        has_room Hook.max_entries m (current_pid_tgid e) ->
        ev ∈ out (Hook.uretprobe_ssl_read e ctx
                    (st (Hook.uprobe_ssl_read e ctx_in m))) ->
        Hook.data_len ev
        = Z.min (s64 (PT_REGS_RC ctx))
            (Z.min (s32 (PT_REGS_PARM3 ctx_in)) Hook.MAX_CAPTURE_SIZE))
  /\ (forall ev,
        ev ∈ out (Tls.handle_ssl_read_exit e ctx s) ->
        Tls.data_len ev = Z.min (u32 (s64 (PT_REGS_RC ctx))) Tls.MAX_TLS_DATA
        /\ forall requested,
             s64 (PT_REGS_RC ctx) <= requested < 2 ^ 32 ->
             Tls.data_len ev
             = Z.min (s64 (PT_REGS_RC ctx)) (Z.min requested Tls.MAX_TLS_DATA)).
Proof.
  assert (forall m' c ev,
            m' !! current_pid_tgid e = Some c ->
            0 < Hook.num c <= Hook.MAX_CAPTURE_SIZE ->
            ev ∈ out (Hook.uretprobe_ssl_read e ctx m') ->
            Hook.data_len ev
            = Z.min (s64 (PT_REGS_RC ctx))
                (Z.min (Hook.num c) Hook.MAX_CAPTURE_SIZE)) as Hstored.
  { intros m' c ev Hk Hn Hin.
    destruct (read_exit_out_inv _ _ _ _ Hin) as (c' & Hk' & Hr & _ & _ & -> & _).
    rewrite Hk in Hk'. injection Hk' as <-.
    rewrite read_len_min by assumption. lia. }
  split; [| split].
  - intros c ev. apply Hstored.
  - intros ctx_in ev Hn Hroom Hin.
    rewrite read_entry_accepts in Hin by assumption. cbn [st] in Hin.
    rewrite update_has_room in Hin by assumption. cbn [snd] in Hin.
    apply (Hstored _ {| Hook.buf := u64 (PT_REGS_PARM2 ctx_in);
                        Hook.num := s32 (PT_REGS_PARM3 ctx_in) |} ev) in Hin;
      [exact Hin | apply lookup_insert_eq | exact Hn].
  - intros ev Hin.
    destruct (read_exit_record _ _ _ _ Hin) as (a & _ & Hev).
    destruct (emit_event_record _ _ _ _ _ _ Hev) as (Hpos & _ & _ & Hd & _).
    split; [exact Hd |].
    intros requested Hreq. rewrite Hd, u32_small by lia. lia.
Qed.

Lemma inbound_capture_length_witness :
  (Sample.hook_busy !! current_pid_tgid (Sample.thread 7)
   = Some {| Hook.buf := Sample.buf_addr; Hook.num := 1000 |}
   /\ 0 < 1000 <= Hook.MAX_CAPTURE_SIZE
   /\ Sample.hello_read
        ∈ out (Hook.uretprobe_ssl_read (Sample.thread 7) (Sample.at_exit 5)
                 Sample.hook_busy)
   /\ Hook.data_len Sample.hello_read
      = Z.min (s64 (PT_REGS_RC (Sample.at_exit 5)))
          (Z.min 1000 Hook.MAX_CAPTURE_SIZE))
  /\ (0 < s32 (PT_REGS_PARM3 (Sample.at_entry 1 Sample.buf_addr 1000))
        <= Hook.MAX_CAPTURE_SIZE
      /\ has_room Hook.max_entries Hook.init (current_pid_tgid (Sample.thread 7))
      /\ Sample.hello_read
           ∈ out (Hook.uretprobe_ssl_read (Sample.thread 7) (Sample.at_exit 5)
                    (st (Hook.uprobe_ssl_read (Sample.thread 7)
                           (Sample.at_entry 1 Sample.buf_addr 1000) Hook.init)))
      /\ Hook.data_len Sample.hello_read
         = Z.min (s64 (PT_REGS_RC (Sample.at_exit 5)))
             (Z.min (s32 (PT_REGS_PARM3 (Sample.at_entry 1 Sample.buf_addr 1000)))
                Hook.MAX_CAPTURE_SIZE))
  /\ (exists ev,
        ev ∈ out (Tls.handle_ssl_read_exit (Sample.thread 7) (Sample.at_exit 5)
                    Sample.tls_busy)
        /\ s64 (PT_REGS_RC (Sample.at_exit 5)) <= 8 < 2 ^ 32
        /\ Tls.data_len ev
           = Z.min (s64 (PT_REGS_RC (Sample.at_exit 5)))
               (Z.min 8 Tls.MAX_TLS_DATA)).
Proof.
  destruct (inbound_capture_length (Sample.thread 7) (Sample.at_exit 5)
              Sample.tls_busy Sample.hook_busy) as (Hstored & _ & Htls).
  destruct (inbound_capture_length (Sample.thread 7) (Sample.at_exit 5)
              Sample.tls_busy Hook.init) as (_ & Hcall & _).
  split; [| split].
  - assert (Sample.hook_busy !! current_pid_tgid (Sample.thread 7)
            = Some {| Hook.buf := Sample.buf_addr; Hook.num := 1000 |})
      as Hk by reflexivity.
    assert (0 < 1000 <= Hook.MAX_CAPTURE_SIZE) as Hn
      by (unfold Hook.MAX_CAPTURE_SIZE; lia).
    assert (Sample.hello_read
              ∈ out (Hook.uretprobe_ssl_read (Sample.thread 7)
                       (Sample.at_exit 5) Sample.hook_busy))
      as Hin by (vm_compute; apply list_elem_of_singleton; reflexivity).
    split; [exact Hk |]. split; [exact Hn |]. split; [exact Hin |].
    exact (Hstored _ _ Hk Hn Hin).
  - assert (0 < s32 (PT_REGS_PARM3 (Sample.at_entry 1 Sample.buf_addr 1000))
              <= Hook.MAX_CAPTURE_SIZE) as Hn
      by (vm_compute; split; [reflexivity | discriminate]).
    assert (has_room Hook.max_entries Hook.init
              (current_pid_tgid (Sample.thread 7))) as Hroom
      by (right; vm_compute; reflexivity).
    assert (Sample.hello_read
              ∈ out (Hook.uretprobe_ssl_read (Sample.thread 7)
                       (Sample.at_exit 5)
                       (st (Hook.uprobe_ssl_read (Sample.thread 7)
                              (Sample.at_entry 1 Sample.buf_addr 1000)
                              Hook.init))))
      as Hin by (vm_compute; apply list_elem_of_singleton; reflexivity).
    split; [exact Hn |]. split; [exact Hroom |]. split; [exact Hin |].
    exact (Hcall _ _ Hn Hroom Hin).
  - eexists. split; [vm_compute; apply list_elem_of_singleton; reflexivity |].
    assert (s64 (PT_REGS_RC (Sample.at_exit 5)) <= 8 < 2 ^ 32) as Hreq
      by (vm_compute; split; [discriminate | reflexivity]).
    split; [exact Hreq |].
    refine (proj2 (Htls _ _) 8 Hreq).
    vm_compute. apply list_elem_of_singleton. reflexivity.
Defined.

(** C8 as stated fails on the ring-buffer program: after an entry that
    requested 5 bytes, an exit with return code 10 hands over a record with
    10 bytes, not min(10, 5, 512) = 5; and after an entry that requested 100
    bytes, an exit whose return register holds 0xFFFFFFFF hands over 512
    bytes, not 100. *)
Lemma requested_length_is_not_consulted :
  (exists ev,
     out (Tls.handle_ssl_read_exit (Sample.thread 7) (Sample.at_exit 10)
            (st (Tls.handle_ssl_read_entry (Sample.thread 7)
                   (Sample.at_entry 1 Sample.buf_addr 5) Tls.init)))
     = [ev]
     /\ Tls.data_len ev = 10
     /\ Z.min (s64 (PT_REGS_RC (Sample.at_exit 10)))
          (Z.min (s32 (PT_REGS_PARM3 (Sample.at_entry 1 Sample.buf_addr 5)))
             Tls.MAX_TLS_DATA) = 5)
  /\ (exists ev,
        out (Tls.handle_ssl_read_exit (Sample.thread 7)
               (Sample.at_exit 4294967295)
               (st (Tls.handle_ssl_read_entry (Sample.thread 7)
                      (Sample.at_entry 1 Sample.buf_addr 100) Tls.init)))
        = [ev]
        /\ Tls.data_len ev = 512
        /\ Z.min (s64 (PT_REGS_RC (Sample.at_exit 4294967295)))
             (Z.min (s32 (PT_REGS_PARM3 (Sample.at_entry 1 Sample.buf_addr 100)))
                Tls.MAX_TLS_DATA) = 100).
Proof. split; eexists; repeat split; vm_compute; reflexivity. Qed.

(** ** C9: a full output channel *)

(** C9, as the code has it.  When the output channel has no room, the probe
    hands over nothing and still returns 0, and it leaves its maps exactly as
    it leaves them when the record goes through: neither program keeps a
    count of the records it drops. *)
Theorem full_channel_drops_silently
    (e : env) (ctx : pt_regs) (s : Tls.maps) (m : gmap Z Hook.ssl_read_ctx) :
  (ringbuf_has_room e = false ->
   (out (Tls.handle_ssl_write_exit e ctx s) = []
    /\ ret (Tls.handle_ssl_write_exit e ctx s) = 0
    /\ st (Tls.handle_ssl_write_exit e ctx s)
       = st (Tls.handle_ssl_write_exit (set_room true e) ctx s))
   /\ (out (Tls.handle_ssl_read_exit e ctx s) = []
       /\ ret (Tls.handle_ssl_read_exit e ctx s) = 0
       /\ st (Tls.handle_ssl_read_exit e ctx s)
          = st (Tls.handle_ssl_read_exit (set_room true e) ctx s)))
  /\ (perf_has_room e = false ->
      (out (Hook.uprobe_ssl_write e ctx m) = []
       /\ ret (Hook.uprobe_ssl_write e ctx m) = 0
       /\ st (Hook.uprobe_ssl_write e ctx m) = m)
      /\ (out (Hook.uretprobe_ssl_read e ctx m) = []
          /\ ret (Hook.uretprobe_ssl_read e ctx m) = 0
          /\ st (Hook.uretprobe_ssl_read e ctx m)
             = st (Hook.uretprobe_ssl_read (set_room true e) ctx m))).
Proof.
  split.
  - intros Hfull. split; repeat split.
    + destruct (Tls.pending_write s !! Tls.tid_key e) as [a |] eqn:Hk.
      * rewrite (write_exit_present e ctx s a Hk). cbn [out].
        now rewrite emit_event_dropped.
      * now rewrite (write_exit_absent e ctx s Hk).
    + apply write_exit_ret.
    + now rewrite !write_exit_st.
    + destruct (Tls.pending_read s !! Tls.tid_key e) as [a |] eqn:Hk.
      * rewrite (read_exit_present e ctx s a Hk). cbn [out].
        now rewrite emit_event_dropped.
      * now rewrite (read_exit_absent e ctx s Hk).
    + apply read_exit_ret_tls.
    + now rewrite !read_exit_st_tls.
  - intros Hfull. split; repeat split.
    + destruct (out (Hook.uprobe_ssl_write e ctx m)) as [| ev l] eqn:E;
        [reflexivity |].
      assert (ev ∈ out (Hook.uprobe_ssl_write e ctx m)) as Hin
        by (rewrite E; apply list_elem_of_here).
      destruct (write_out_inv _ _ _ _ Hin) as (_ & Hroom & _). congruence.
    + apply write_keeps_maps.
    + apply write_keeps_maps.
    + destruct (out (Hook.uretprobe_ssl_read e ctx m)) as [| ev l] eqn:E;
        [reflexivity |].
      assert (ev ∈ out (Hook.uretprobe_ssl_read e ctx m)) as Hin
        by (rewrite E; apply list_elem_of_here).
      destruct (read_exit_out_inv _ _ _ _ Hin) as (c & _ & _ & Hroom & _).
      congruence.
    + apply read_exit_ret.
    + now rewrite !read_exit_st.
Qed.

Lemma full_channel_drops_silently_witness :
  (ringbuf_has_room (Sample.congested 7) = false
   /\ out (Tls.handle_ssl_write_exit (Sample.congested 7) (Sample.at_exit 5)
             Sample.tls_busy) = []
   /\ ret (Tls.handle_ssl_write_exit (Sample.congested 7) (Sample.at_exit 5)
             Sample.tls_busy) = 0
   /\ st (Tls.handle_ssl_write_exit (Sample.congested 7) (Sample.at_exit 5)
            Sample.tls_busy)
      = st (Tls.handle_ssl_write_exit (set_room true (Sample.congested 7))
              (Sample.at_exit 5) Sample.tls_busy))
  /\ (perf_has_room (Sample.congested 7) = false
      /\ out (Hook.uretprobe_ssl_read (Sample.congested 7) (Sample.at_exit 5)
                Sample.hook_busy) = []
      /\ ret (Hook.uretprobe_ssl_read (Sample.congested 7) (Sample.at_exit 5)
                Sample.hook_busy) = 0
      /\ st (Hook.uretprobe_ssl_read (Sample.congested 7) (Sample.at_exit 5)
               Sample.hook_busy)
         = st (Hook.uretprobe_ssl_read (set_room true (Sample.congested 7))
                 (Sample.at_exit 5) Sample.hook_busy)).
Proof.
  destruct (full_channel_drops_silently (Sample.congested 7) (Sample.at_exit 5)
              Sample.tls_busy Sample.hook_busy) as (Hring & Hperf).
  split.
  - split; [reflexivity |]. exact (proj1 (Hring eq_refl)).
  - split; [reflexivity |]. exact (proj2 (Hperf eq_refl)).
Defined.

(** C9 as stated fails: no drop counter is incremented.  Any counter would be
    a function of the program's maps, and the perf program's SSL_write probe
    leaves its map untouched when the record it built finds no room. *)
Lemma no_drop_counter :
  ~ exists counter : gmap Z Hook.ssl_read_ctx -> Z,
      forall (e : env) (ctx : pt_regs) (m : gmap Z Hook.ssl_read_ctx),
        perf_has_room e = false ->
        out (Hook.uprobe_ssl_write (set_room true e) ctx m) <> [] ->
        counter (st (Hook.uprobe_ssl_write e ctx m)) = counter m + 1.
Proof.
  intros (counter & Hcount).
  specialize (Hcount (Sample.congested 7)
                (Sample.at_entry 1 Sample.buf_addr 5) Hook.init eq_refl).
  assert (st (Hook.uprobe_ssl_write (Sample.congested 7)
                (Sample.at_entry 1 Sample.buf_addr 5) Hook.init) = Hook.init)
    as Hst by apply write_keeps_maps.
  rewrite Hst in Hcount.
  assert (out (Hook.uprobe_ssl_write (set_room true (Sample.congested 7))
                 (Sample.at_entry 1 Sample.buf_addr 5) Hook.init) <> [])
    as Hready by (vm_compute; discriminate).
  specialize (Hcount Hready). lia.
Qed.

(** ** C10: an exit consumes the pending entry *)

(** C10.  Whatever the return code, the outcome of the memory read and the
    room in the output channel, an exit probe leaves its table as it was with
    the entry of the running thread deleted: no entry remains under that key,
    every other entry stays, and the ring-buffer program's other maps are
    untouched. *)
Theorem exit_consumes_pending
    (e : env) (ctx : pt_regs) (s : Tls.maps) (m : gmap Z Hook.ssl_read_ctx) :
  (Tls.pending_write (st (Tls.handle_ssl_write_exit e ctx s))
     = delete (Tls.tid_key e) (Tls.pending_write s)
   /\ Tls.pending_write (st (Tls.handle_ssl_write_exit e ctx s))
        !! Tls.tid_key e = None
   /\ Tls.pending_read (st (Tls.handle_ssl_write_exit e ctx s))
        = Tls.pending_read s
   /\ Tls.ssl_fd_map (st (Tls.handle_ssl_write_exit e ctx s))
        = Tls.ssl_fd_map s)
  /\ (Tls.pending_read (st (Tls.handle_ssl_read_exit e ctx s))
        = delete (Tls.tid_key e) (Tls.pending_read s)
      /\ Tls.pending_read (st (Tls.handle_ssl_read_exit e ctx s))
           !! Tls.tid_key e = None
      /\ Tls.pending_write (st (Tls.handle_ssl_read_exit e ctx s))
           = Tls.pending_write s
      /\ Tls.ssl_fd_map (st (Tls.handle_ssl_read_exit e ctx s))
           = Tls.ssl_fd_map s)
  /\ (st (Hook.uretprobe_ssl_read e ctx m) = delete (current_pid_tgid e) m
      /\ st (Hook.uretprobe_ssl_read e ctx m) !! current_pid_tgid e = None).
Proof.
  split; [| split].
  - destruct (Tls.pending_write s !! Tls.tid_key e) as [a |] eqn:Hk.
    + rewrite (write_exit_present e ctx s a Hk). cbn [st Tls.pending_write
        Tls.pending_read Tls.ssl_fd_map].
      repeat split. apply lookup_delete_eq.
    + rewrite (write_exit_absent e ctx s Hk). cbn [st].
      rewrite delete_id by assumption. now repeat split.
  - destruct (Tls.pending_read s !! Tls.tid_key e) as [a |] eqn:Hk.
    + rewrite (read_exit_present e ctx s a Hk). cbn [st Tls.pending_write
        Tls.pending_read Tls.ssl_fd_map].
      repeat split. apply lookup_delete_eq.
    + rewrite (read_exit_absent e ctx s Hk). cbn [st].
      rewrite delete_id by assumption. now repeat split.
  - rewrite read_exit_st. split; [reflexivity | apply lookup_delete_eq].
Qed.

(** * Further properties of the two programs *)

(** ** Exact outcomes *)

Section exact_outcomes.
Import Tls.
Implicit Types (e : env) (ctx : pt_regs) (s : maps) (a : ssl_io_args).

Lemma emit_event_exact e fds a len dir :
  0 < len -> ringbuf_has_room e = true ->
  emit_event e fds (Some a) len dir = (0, [tls_record e fds a len dir]).
Proof.
  intros Hpos Hroom. unfold emit_event, tls_record.
  destruct (Z.leb_spec len 0); [lia |].
  destruct (Z.ltb_spec MAX_TLS_DATA (u32 len)); rewrite Hroom; simpl.
  - now rewrite Z.min_r by lia.
  - now rewrite Z.min_l by lia.
Qed.

Lemma emit_event_cases e fds a len dir :
  (emit_event e fds (Some a) len dir).2 = []
  \/ (0 < len /\ ringbuf_has_room e = true
      /\ (emit_event e fds (Some a) len dir).2 = [tls_record e fds a len dir]).
Proof.
  destruct (Z_le_gt_dec len 0) as [Hle | Hgt].
  { left. now rewrite emit_event_nonpositive. }
  destruct (ringbuf_has_room e) eqn:Hroom.
  - right. rewrite emit_event_exact by (assumption || lia).
    split; [lia |]. split; reflexivity.
  - left. now rewrite emit_event_dropped.
Qed.

Lemma write_exit_exact e ctx s a :
  pending_write s !! tid_key e = Some a ->
  0 < s64 (PT_REGS_RC ctx) -> ringbuf_has_room e = true ->
  handle_ssl_write_exit e ctx s =
  {| ret := 0;
     st := {| ssl_fd_map := ssl_fd_map s;
              pending_write := delete (tid_key e) (pending_write s);
              pending_read := pending_read s |};
     out := [tls_record e (ssl_fd_map s) a (s64 (PT_REGS_RC ctx)) DIR_WRITE] |}.
Proof.
  intros Hk Hrc Hroom. rewrite (write_exit_present e ctx s a Hk).
  now rewrite emit_event_exact.
Qed.

Lemma read_exit_exact e ctx s a :
  pending_read s !! tid_key e = Some a ->
  0 < s64 (PT_REGS_RC ctx) -> ringbuf_has_room e = true ->
  handle_ssl_read_exit e ctx s =
  {| ret := 0;
     st := {| ssl_fd_map := ssl_fd_map s;
              pending_write := pending_write s;
              pending_read := delete (tid_key e) (pending_read s) |};
     out := [tls_record e (ssl_fd_map s) a (s64 (PT_REGS_RC ctx)) DIR_READ] |}.
Proof.
  intros Hk Hrc Hroom. rewrite (read_exit_present e ctx s a Hk).
  now rewrite emit_event_exact.
Qed.

Lemma pid_tid_join z :
  0 <= z < 2 ^ 64 ->
  0 <= get_pid z < 2 ^ 32 /\ 0 <= get_tid z < 2 ^ 32
  /\ get_pid z * 2 ^ 32 + get_tid z = z.
Proof.
  intros Hz. unfold get_pid, get_tid, u32.
  rewrite Z.shiftr_div_pow2 by lia.
  assert (0 <= z / 2 ^ 32 < 2 ^ 32) as Hhi.
  { split; [apply Z.div_pos; lia |].
    apply Z.div_lt_upper_bound; [lia |].
    replace (2 ^ 32 * 2 ^ 32) with (2 ^ 64) by reflexivity. lia. }
  rewrite (Z.mod_small (z / 2 ^ 32)) by assumption.
  split; [assumption |]. split; [apply Z.mod_pos_bound; lia |].
  pose proof (Z.div_mod z (2 ^ 32)). lia.
Qed.

End exact_outcomes.

Section exact_outcomes_hook.
Import Hook.
Implicit Types (e : env) (ctx : pt_regs) (m : gmap Z ssl_read_ctx).

Lemma write_out_exact e ctx m ev :
  ev ∈ out (uprobe_ssl_write e ctx m) ->
  exists bytes,
    probe_read_user e (u64 (PT_REGS_PARM2 ctx)) (s32 (PT_REGS_PARM3 ctx))
      = Some bytes
    /\ 0 < s32 (PT_REGS_PARM3 ctx) <= MAX_CAPTURE_SIZE
    /\ ev = hook_record e 1 (s32 (PT_REGS_PARM3 ctx)) bytes.
Proof.
  intros Hin.
  destruct (write_out_inv _ _ _ _ Hin) as (Hn & Hroom & _ & Hd & Hread).
  rewrite Hd in Hread.
  assert (u32 (s32 (PT_REGS_PARM3 ctx)) = s32 (PT_REGS_PARM3 ctx)) as Eu
    by (apply u32_small; unfold MAX_CAPTURE_SIZE in Hn; lia).
  rewrite (write_submitted e ctx m (data ev)) in Hin
    by (assumption || now rewrite Eu).
  unfold perf_event_output in Hin. rewrite Hroom, Eu in Hin.
  apply list_elem_of_singleton in Hin.
  exists (data ev). repeat split; try assumption; lia.
Qed.

Lemma read_out_exact e ctx m ev :
  ev ∈ out (uretprobe_ssl_read e ctx m) ->
  exists c bytes,
    m !! current_pid_tgid e = Some c
    /\ 0 < s64 (PT_REGS_RC ctx) <= MAX_CAPTURE_SIZE
    /\ probe_read_user e (buf c) (u32 (read_len (s64 (PT_REGS_RC ctx)) c))
       = Some bytes
    /\ ev = hook_record e 0 (u32 (read_len (s64 (PT_REGS_RC ctx)) c)) bytes.
Proof.
  intros Hin.
  destruct (read_exit_out_inv _ _ _ _ Hin)
    as (c & Hk & Hr & Hroom & _ & Hd & Hread & _).
  rewrite Hd in Hread.
  rewrite (read_exit_submitted e ctx m c (data ev)) in Hin by assumption.
  unfold perf_event_output in Hin. rewrite Hroom in Hin.
  apply list_elem_of_singleton in Hin.
  exists c, (data ev). repeat split; try assumption; lia.
Qed.

End exact_outcomes_hook.

(** ** X1: a record names the thread that made the call *)

(** X1.  The pid and tid of a record are the high and the low half of the
    64-bit identity of the running thread: both fit in 32 bits and together
    they give the identity back, in either program; the timestamp is the
    clock of the invocation. *)
Theorem record_identifies_thread
    (e : env) (ctx : pt_regs) (s : Tls.maps) (m : gmap Z Hook.ssl_read_ctx) :
  0 <= current_pid_tgid e < 2 ^ 64 ->
  (forall ev,
     ev ∈ out (Tls.handle_ssl_write_exit e ctx s)
          ++ out (Tls.handle_ssl_read_exit e ctx s) ->
     Tls.pid ev * 2 ^ 32 + Tls.tid ev = current_pid_tgid e
     /\ 0 <= Tls.pid ev < 2 ^ 32 /\ 0 <= Tls.tid ev < 2 ^ 32
     /\ Tls.timestamp_ns ev = ktime_ns e)
  /\ (forall ev,
        ev ∈ out (Hook.uprobe_ssl_write e ctx m)
             ++ out (Hook.uretprobe_ssl_read e ctx m) ->
        Hook.pid ev * 2 ^ 32 + Hook.tid ev = current_pid_tgid e
        /\ 0 <= Hook.pid ev < 2 ^ 32 /\ 0 <= Hook.tid ev < 2 ^ 32
        /\ Hook.timestamp_ns ev = ktime_ns e).
Proof.
  intros Hid.
  destruct (pid_tid_join _ Hid) as (Hp & Ht & Hjoin).
  split.
  - intros ev Hin. destruct (exit_record _ _ _ _ Hin) as (a & dir & Hev).
    destruct (emit_event_cases e (Tls.ssl_fd_map s) a
                (s64 (PT_REGS_RC ctx)) dir) as [E | (_ & _ & E)];
      rewrite E in Hev; [now apply elem_of_nil in Hev |].
    apply list_elem_of_singleton in Hev. subst ev.
    cbn [tls_record Tls.pid Tls.tid Tls.timestamp_ns].
    split; [exact Hjoin |]. split; [exact Hp |]. split; [exact Ht | reflexivity].
  - unfold Tls.get_pid, Tls.get_tid in Hp, Ht, Hjoin.
    intros ev Hin. apply elem_of_app in Hin as [Hin | Hin].
    + destruct (write_out_exact _ _ _ _ Hin) as (bytes & _ & _ & ->).
      cbn [hook_record Hook.pid Hook.tid Hook.timestamp_ns].
      split; [exact Hjoin |]. split; [exact Hp |].
      split; [exact Ht | reflexivity].
    + destruct (read_out_exact _ _ _ _ Hin) as (c & bytes & _ & _ & _ & ->).
      cbn [hook_record Hook.pid Hook.tid Hook.timestamp_ns].
      split; [exact Hjoin |]. split; [exact Hp |].
      split; [exact Ht | reflexivity].
Qed.

Lemma record_identifies_thread_witness :
  0 <= current_pid_tgid (Sample.thread (3 * 2 ^ 32 + 7)) < 2 ^ 64
  /\ exists ev,
       ev ∈ out (Hook.uprobe_ssl_write (Sample.thread (3 * 2 ^ 32 + 7))
                   (Sample.at_entry 1 Sample.buf_addr 5) Hook.init)
            ++ out (Hook.uretprobe_ssl_read (Sample.thread (3 * 2 ^ 32 + 7))
                      (Sample.at_entry 1 Sample.buf_addr 5) Hook.init)
       /\ Hook.pid ev = 3 /\ Hook.tid ev = 7
       /\ Hook.pid ev * 2 ^ 32 + Hook.tid ev
          = current_pid_tgid (Sample.thread (3 * 2 ^ 32 + 7)).
Proof.
  assert (0 <= current_pid_tgid (Sample.thread (3 * 2 ^ 32 + 7)) < 2 ^ 64)
    as Hid by (vm_compute; split; [discriminate | reflexivity]).
  split; [exact Hid |].
  eexists. split; [vm_compute; apply list_elem_of_here |].
  split; [reflexivity |]. split; [reflexivity |].
  refine (proj1 (proj2 (record_identifies_thread
            (Sample.thread (3 * 2 ^ 32 + 7))
            (Sample.at_entry 1 Sample.buf_addr 5) Tls.init Hook.init Hid) _ _)).
  vm_compute. apply list_elem_of_here.
Defined.

(** ** X2: a tracked call of the ring-buffer program, from entry to exit *)

Section round_trip.
Import Tls.

Lemma small_record e fds a len dir bytes :
  0 < len <= MAX_TLS_DATA ->
  probe_read_user e (args_buf_ptr a) len = Some bytes ->
  tls_record e fds a len dir =
  {| timestamp_ns := ktime_ns e;
     ssl_ptr := args_ssl_ptr a;
     pid := get_pid (current_pid_tgid e);
     tid := get_tid (current_pid_tgid e);
     fd := lookup_fd fds (args_ssl_ptr a);
     total_len := len;
     data_len := len;
     direction := dir;
     flags := 0;
     data := bytes |}.
Proof.
  intros Hlen Hread. unfold tls_record, read_payload, MAX_TLS_DATA in *.
  rewrite (u32_small len) by lia. rewrite Z.min_l by lia. rewrite Hread.
  destruct (Z.ltb_spec 512 len); [lia |].
  destruct (Z.ltb_spec 0 len); [reflexivity | lia].
Qed.

End round_trip.

(** X2.  When a thread with no pending entry enters SSL_write (or SSL_read),
    the table has room, the call returns between 1 and 512, the ring buffer
    has room and the buffer can be read, the exit probe hands over exactly
    one record: the handle and the descriptor of the call, total and captured
    length equal to the return code, no truncation flag, the bytes read at
    the buffer address of the entry; and all maps are back as they were
    before the call. *)
Theorem tracked_call_round_trip
    (e_in e_out : env) (ctx_in ctx_out : pt_regs) (s : Tls.maps)
    (bytes : list Byte.byte) :
  Tls.tid_key e_in = Tls.tid_key e_out ->
  0 < s64 (PT_REGS_RC ctx_out) <= Tls.MAX_TLS_DATA ->
  ringbuf_has_room e_out = true ->
  probe_read_user e_out (u64 (PT_REGS_PARM2 ctx_in)) (s64 (PT_REGS_RC ctx_out))
    = Some bytes ->
  (Tls.pending_write s !! Tls.tid_key e_in = None ->
   Z.of_nat (size (Tls.pending_write s)) < Tls.max_entries ->
   Tls.handle_ssl_write_exit e_out ctx_out
     (st (Tls.handle_ssl_write_entry e_in ctx_in s))
   = {| ret := 0; st := s;
        out := [ {| Tls.timestamp_ns := ktime_ns e_out;
                    Tls.ssl_ptr := u64 (PT_REGS_PARM1 ctx_in);
                    Tls.pid := Tls.get_pid (current_pid_tgid e_out);
                    Tls.tid := Tls.get_tid (current_pid_tgid e_out);
                    Tls.fd := Tls.lookup_fd (Tls.ssl_fd_map s)
                                (u64 (PT_REGS_PARM1 ctx_in));
                    Tls.total_len := s64 (PT_REGS_RC ctx_out);
                    Tls.data_len := s64 (PT_REGS_RC ctx_out);
                    Tls.direction := Tls.DIR_WRITE;
                    Tls.flags := 0;
                    Tls.data := bytes |} ] |})
  /\ (Tls.pending_read s !! Tls.tid_key e_in = None ->
      Z.of_nat (size (Tls.pending_read s)) < Tls.max_entries ->
      Tls.handle_ssl_read_exit e_out ctx_out
        (st (Tls.handle_ssl_read_entry e_in ctx_in s))
      = {| ret := 0; st := s;
           out := [ {| Tls.timestamp_ns := ktime_ns e_out;
                       Tls.ssl_ptr := u64 (PT_REGS_PARM1 ctx_in);
                       Tls.pid := Tls.get_pid (current_pid_tgid e_out);
                       Tls.tid := Tls.get_tid (current_pid_tgid e_out);
                       Tls.fd := Tls.lookup_fd (Tls.ssl_fd_map s)
                                   (u64 (PT_REGS_PARM1 ctx_in));
                       Tls.total_len := s64 (PT_REGS_RC ctx_out);
                       Tls.data_len := s64 (PT_REGS_RC ctx_out);
                       Tls.direction := Tls.DIR_READ;
                       Tls.flags := 0;
                       Tls.data := bytes |} ] |}).
Proof.
  intros Hkey Hrc Hroom Hread. split; intros Hk Hsz.
  - rewrite write_entry_outcome. cbn [st].
    rewrite update_has_room by (now right). cbn [snd].
    rewrite (write_exit_exact e_out ctx_out _ (Tls.entry_args ctx_in));
      [| cbn [Tls.pending_write]; rewrite <- Hkey; apply lookup_insert_eq
       | lia | assumption].
    cbn [Tls.ssl_fd_map Tls.pending_write Tls.pending_read].
    rewrite <- Hkey, delete_insert_id by assumption.
    rewrite (small_record _ _ _ _ _ bytes) by assumption.
    now destruct s.
  - rewrite read_entry_outcome. cbn [st].
    rewrite update_has_room by (now right). cbn [snd].
    rewrite (read_exit_exact e_out ctx_out _ (Tls.entry_args ctx_in));
      [| cbn [Tls.pending_read]; rewrite <- Hkey; apply lookup_insert_eq
       | lia | assumption].
    cbn [Tls.ssl_fd_map Tls.pending_write Tls.pending_read].
    rewrite <- Hkey, delete_insert_id by assumption.
    rewrite (small_record _ _ _ _ _ bytes) by assumption.
    now destruct s.
Qed.

Lemma tracked_call_round_trip_witness :
  Tls.tid_key (Sample.thread 9) = Tls.tid_key (Sample.thread 9)
  /\ 0 < s64 (PT_REGS_RC (Sample.at_exit 5)) <= Tls.MAX_TLS_DATA
  /\ ringbuf_has_room (Sample.thread 9) = true
  /\ probe_read_user (Sample.thread 9)
       (u64 (PT_REGS_PARM2 (Sample.at_entry 1 Sample.buf_addr 5)))
       (s64 (PT_REGS_RC (Sample.at_exit 5))) = Some Sample.hello
  /\ Tls.pending_write Sample.tls_busy !! Tls.tid_key (Sample.thread 9) = None
  /\ Z.of_nat (size (Tls.pending_write Sample.tls_busy)) < Tls.max_entries
  /\ out (Tls.handle_ssl_write_exit (Sample.thread 9) (Sample.at_exit 5)
            (st (Tls.handle_ssl_write_entry (Sample.thread 9)
                   (Sample.at_entry 1 Sample.buf_addr 5) Sample.tls_busy)))
     = [ {| Tls.timestamp_ns := 1000; Tls.ssl_ptr := 1; Tls.pid := 0;
            Tls.tid := 9; Tls.fd := 5; Tls.total_len := 5; Tls.data_len := 5;
            Tls.direction := Tls.DIR_WRITE; Tls.flags := 0;
            Tls.data := Sample.hello |} ]
  /\ st (Tls.handle_ssl_write_exit (Sample.thread 9) (Sample.at_exit 5)
           (st (Tls.handle_ssl_write_entry (Sample.thread 9)
                  (Sample.at_entry 1 Sample.buf_addr 5) Sample.tls_busy)))
     = Sample.tls_busy.
Proof.
  assert (0 < s64 (PT_REGS_RC (Sample.at_exit 5)) <= Tls.MAX_TLS_DATA) as Hrc
    by (vm_compute; split; [reflexivity | discriminate]).
  assert (probe_read_user (Sample.thread 9)
            (u64 (PT_REGS_PARM2 (Sample.at_entry 1 Sample.buf_addr 5)))
            (s64 (PT_REGS_RC (Sample.at_exit 5))) = Some Sample.hello) as Hread
    by (vm_compute; reflexivity).
  assert (Z.of_nat (size (Tls.pending_write Sample.tls_busy)) < Tls.max_entries)
    as Hsz by (vm_compute; reflexivity).
  pose proof (proj1 (tracked_call_round_trip (Sample.thread 9) (Sample.thread 9)
                (Sample.at_entry 1 Sample.buf_addr 5) (Sample.at_exit 5)
                Sample.tls_busy Sample.hello eq_refl Hrc eq_refl Hread)
              eq_refl Hsz) as E.
  split; [reflexivity |]. split; [exact Hrc |]. split; [reflexivity |].
  split; [exact Hread |]. split; [reflexivity |]. split; [exact Hsz |].
  rewrite E. split; reflexivity.
Defined.

(** ** X3: calls of different threads do not mix *)

(** X3.  Thread A enters a call, thread B enters a call, thread A's call
    exits: whatever B's arguments, a record handed over at A's exit carries
    A's handle and the bytes read at A's buffer, and B's pending entry is
    left as it was.  This holds for SSL_write and SSL_read of the ring-buffer
    program and for SSL_read of the perf program. *)
Theorem threads_do_not_mix
    (ea eb ea_out : env) (ctx_a ctx_b ctx_out : pt_regs)
    (s : Tls.maps) (m : gmap Z Hook.ssl_read_ctx) :
  current_pid_tgid ea <> current_pid_tgid eb ->
  current_pid_tgid ea_out = current_pid_tgid ea ->
  (has_room Tls.max_entries (Tls.pending_write s) (Tls.tid_key ea) ->
   (forall ev,
      ev ∈ out (Tls.handle_ssl_write_exit ea_out ctx_out
                  (st (Tls.handle_ssl_write_entry eb ctx_b
                         (st (Tls.handle_ssl_write_entry ea ctx_a s))))) ->
      Tls.ssl_ptr ev = u64 (PT_REGS_PARM1 ctx_a)
      /\ Tls.data ev
         = Tls.read_payload ea_out (u64 (PT_REGS_PARM2 ctx_a)) (Tls.data_len ev))
   /\ Tls.pending_write
        (st (Tls.handle_ssl_write_exit ea_out ctx_out
               (st (Tls.handle_ssl_write_entry eb ctx_b
                      (st (Tls.handle_ssl_write_entry ea ctx_a s))))))
        !! Tls.tid_key eb
      = Tls.pending_write
          (st (Tls.handle_ssl_write_entry eb ctx_b
                 (st (Tls.handle_ssl_write_entry ea ctx_a s))))
          !! Tls.tid_key eb)
  /\ (has_room Tls.max_entries (Tls.pending_read s) (Tls.tid_key ea) ->
      (forall ev,
         ev ∈ out (Tls.handle_ssl_read_exit ea_out ctx_out
                     (st (Tls.handle_ssl_read_entry eb ctx_b
                            (st (Tls.handle_ssl_read_entry ea ctx_a s))))) ->
         Tls.ssl_ptr ev = u64 (PT_REGS_PARM1 ctx_a)
         /\ Tls.data ev
            = Tls.read_payload ea_out (u64 (PT_REGS_PARM2 ctx_a))
                (Tls.data_len ev))
      /\ Tls.pending_read
           (st (Tls.handle_ssl_read_exit ea_out ctx_out
                  (st (Tls.handle_ssl_read_entry eb ctx_b
                         (st (Tls.handle_ssl_read_entry ea ctx_a s))))))
           !! Tls.tid_key eb
         = Tls.pending_read
             (st (Tls.handle_ssl_read_entry eb ctx_b
                    (st (Tls.handle_ssl_read_entry ea ctx_a s))))
             !! Tls.tid_key eb)
  /\ (has_room Hook.max_entries m (current_pid_tgid ea) ->
      0 < s32 (PT_REGS_PARM3 ctx_a) <= Hook.MAX_CAPTURE_SIZE ->
      (forall ev,
         ev ∈ out (Hook.uretprobe_ssl_read ea_out ctx_out
                     (st (Hook.uprobe_ssl_read eb ctx_b
                            (st (Hook.uprobe_ssl_read ea ctx_a m))))) ->
         probe_read_user ea_out (u64 (PT_REGS_PARM2 ctx_a)) (Hook.data_len ev)
         = Some (Hook.data ev))
      /\ st (Hook.uretprobe_ssl_read ea_out ctx_out
               (st (Hook.uprobe_ssl_read eb ctx_b
                      (st (Hook.uprobe_ssl_read ea ctx_a m)))))
           !! current_pid_tgid eb
         = st (Hook.uprobe_ssl_read eb ctx_b
                 (st (Hook.uprobe_ssl_read ea ctx_a m)))
             !! current_pid_tgid eb).
Proof.
  intros Hne Hsame. split; [| split].
  - intros Hroom.
    assert (Tls.pending_write
              (st (Tls.handle_ssl_write_entry eb ctx_b
                     (st (Tls.handle_ssl_write_entry ea ctx_a s))))
              !! Tls.tid_key ea_out = Some (Tls.entry_args ctx_a)) as Hk.
    { rewrite !write_entry_outcome. cbn [st Tls.pending_write].
      unfold Tls.tid_key in *. rewrite Hsame.
      rewrite update_other by congruence.
      rewrite update_has_room by assumption. apply lookup_insert_eq. }
    split.
    + intros ev Hin. rewrite (write_exit_present _ _ _ _ Hk) in Hin.
      cbn [out] in Hin.
      rewrite (emit_event_ssl_ptr _ _ _ _ _ _ Hin).
      destruct (emit_event_record _ _ _ _ _ _ Hin)
        as (_ & _ & _ & _ & _ & _ & a & Ha & _ & Hdata).
      injection Ha as <-. split; [reflexivity | exact Hdata].
    + rewrite write_exit_st. cbn [Tls.pending_write].
      apply lookup_delete_ne. unfold Tls.tid_key. congruence.
  - intros Hroom.
    assert (Tls.pending_read
              (st (Tls.handle_ssl_read_entry eb ctx_b
                     (st (Tls.handle_ssl_read_entry ea ctx_a s))))
              !! Tls.tid_key ea_out = Some (Tls.entry_args ctx_a)) as Hk.
    { rewrite !read_entry_outcome. cbn [st Tls.pending_read].
      unfold Tls.tid_key in *. rewrite Hsame.
      rewrite update_other by congruence.
      rewrite update_has_room by assumption. apply lookup_insert_eq. }
    split.
    + intros ev Hin. rewrite (read_exit_present _ _ _ _ Hk) in Hin.
      cbn [out] in Hin.
      rewrite (emit_event_ssl_ptr _ _ _ _ _ _ Hin).
      destruct (emit_event_record _ _ _ _ _ _ Hin)
        as (_ & _ & _ & _ & _ & _ & a & Ha & _ & Hdata).
      injection Ha as <-. split; [reflexivity | exact Hdata].
    + rewrite read_exit_st_tls. cbn [Tls.pending_read].
      apply lookup_delete_ne. unfold Tls.tid_key. congruence.
  - intros Hroom Hn.
    assert (st (Hook.uprobe_ssl_read eb ctx_b
                  (st (Hook.uprobe_ssl_read ea ctx_a m)))
              !! current_pid_tgid ea_out
            = Some {| Hook.buf := u64 (PT_REGS_PARM2 ctx_a);
                      Hook.num := s32 (PT_REGS_PARM3 ctx_a) |}) as Hk.
    { rewrite (read_entry_accepts ea ctx_a m Hn). cbn [st].
      rewrite update_has_room by assumption. cbn [snd]. rewrite Hsame.
      destruct (Z_le_gt_dec (s32 (PT_REGS_PARM3 ctx_b)) 0) as [Hle | Hpos].
      { rewrite read_entry_rejects by (now left). apply lookup_insert_eq. }
      destruct (Z_lt_le_dec Hook.MAX_CAPTURE_SIZE (s32 (PT_REGS_PARM3 ctx_b)))
        as [Hbig | Hfit].
      { rewrite read_entry_rejects by (now right). apply lookup_insert_eq. }
      rewrite read_entry_accepts by lia. cbn [st].
      rewrite update_other by congruence. apply lookup_insert_eq. }
    split.
    + intros ev Hin.
      destruct (read_exit_out_inv _ _ _ _ Hin)
        as (c & Hc & _ & _ & _ & _ & Hread & _).
      rewrite Hk in Hc. injection Hc as <-. exact Hread.
    + rewrite read_exit_st. apply lookup_delete_ne. congruence.
Qed.

Lemma threads_do_not_mix_witness :
  current_pid_tgid (Sample.thread 8) <> current_pid_tgid (Sample.thread 9)
  /\ current_pid_tgid (Sample.thread 8) = current_pid_tgid (Sample.thread 8)
  /\ has_room Tls.max_entries (Tls.pending_write Sample.tls_busy)
       (Tls.tid_key (Sample.thread 8))
  /\ exists ev,
       ev ∈ out (Tls.handle_ssl_write_exit (Sample.thread 8) (Sample.at_exit 5)
                   (st (Tls.handle_ssl_write_entry (Sample.thread 9)
                          (Sample.at_entry 2 0 5)
                          (st (Tls.handle_ssl_write_entry (Sample.thread 8)
                                 (Sample.at_entry 1 Sample.buf_addr 5)
                                 Sample.tls_busy)))))
       /\ Tls.ssl_ptr ev
          = u64 (PT_REGS_PARM1 (Sample.at_entry 1 Sample.buf_addr 5))
       /\ Tls.data ev = Sample.hello.
Proof.
  assert (current_pid_tgid (Sample.thread 8) <> current_pid_tgid (Sample.thread 9))
    as Hne by (vm_compute; discriminate).
  assert (has_room Tls.max_entries (Tls.pending_write Sample.tls_busy)
            (Tls.tid_key (Sample.thread 8))) as Hroom
    by (right; vm_compute; reflexivity).
  split; [exact Hne |]. split; [reflexivity |]. split; [exact Hroom |].
  eexists. split; [vm_compute; apply list_elem_of_here |].
  pose proof (proj1 (proj1 (threads_do_not_mix (Sample.thread 8)
                (Sample.thread 9) (Sample.thread 8)
                (Sample.at_entry 1 Sample.buf_addr 5) (Sample.at_entry 2 0 5)
                (Sample.at_exit 5) Sample.tls_busy Hook.init Hne eq_refl)
              Hroom)) as Hmix.
  split; [| reflexivity].
  refine (proj1 (Hmix _ _)). vm_compute. apply list_elem_of_here.
Defined.

(** ** X4: the two directions of the ring-buffer program are separate *)

Lemma write_exit_out_depends e ctx (s s' : Tls.maps) :
  Tls.pending_write s = Tls.pending_write s' ->
  Tls.ssl_fd_map s = Tls.ssl_fd_map s' ->
  out (Tls.handle_ssl_write_exit e ctx s)
  = out (Tls.handle_ssl_write_exit e ctx s').
Proof.
  intros Hp Hf.
  destruct (Tls.pending_write s !! Tls.tid_key e) as [a |] eqn:Hk.
  - rewrite (write_exit_present e ctx s a Hk).
    rewrite Hp in Hk. rewrite (write_exit_present e ctx s' a Hk).
    cbn [out]. now rewrite Hf.
  - rewrite (write_exit_absent e ctx s Hk).
    rewrite Hp in Hk. now rewrite (write_exit_absent e ctx s' Hk).
Qed.

Lemma read_exit_out_depends e ctx (s s' : Tls.maps) :
  Tls.pending_read s = Tls.pending_read s' ->
  Tls.ssl_fd_map s = Tls.ssl_fd_map s' ->
  out (Tls.handle_ssl_read_exit e ctx s)
  = out (Tls.handle_ssl_read_exit e ctx s').
Proof.
  intros Hp Hf.
  destruct (Tls.pending_read s !! Tls.tid_key e) as [a |] eqn:Hk.
  - rewrite (read_exit_present e ctx s a Hk).
    rewrite Hp in Hk. rewrite (read_exit_present e ctx s' a Hk).
    cbn [out]. now rewrite Hf.
  - rewrite (read_exit_absent e ctx s Hk).
    rewrite Hp in Hk. now rewrite (read_exit_absent e ctx s' Hk).
Qed.

(** X4.  Records of the SSL_write exit are tagged outbound (1), records of
    the SSL_read exit inbound (2).  An exit of one direction neither sees nor
    disturbs a pending entry of the other: it hands over the same records
    whether or not the other direction's entry probe ran before it, and the
    two probes commute on the maps. *)
Theorem directions_are_separate
    (e e' : env) (ctx ctx' : pt_regs) (s : Tls.maps) :
  Forall (fun ev => Tls.direction ev = Tls.DIR_WRITE)
    (out (Tls.handle_ssl_write_exit e ctx s))
  /\ Forall (fun ev => Tls.direction ev = Tls.DIR_READ)
       (out (Tls.handle_ssl_read_exit e ctx s))
  /\ out (Tls.handle_ssl_read_exit e ctx
            (st (Tls.handle_ssl_write_entry e' ctx' s)))
     = out (Tls.handle_ssl_read_exit e ctx s)
  /\ st (Tls.handle_ssl_read_exit e ctx
           (st (Tls.handle_ssl_write_entry e' ctx' s)))
     = st (Tls.handle_ssl_write_entry e' ctx'
             (st (Tls.handle_ssl_read_exit e ctx s)))
  /\ out (Tls.handle_ssl_write_exit e ctx
            (st (Tls.handle_ssl_read_entry e' ctx' s)))
     = out (Tls.handle_ssl_write_exit e ctx s)
  /\ st (Tls.handle_ssl_write_exit e ctx
           (st (Tls.handle_ssl_read_entry e' ctx' s)))
     = st (Tls.handle_ssl_read_entry e' ctx'
             (st (Tls.handle_ssl_write_exit e ctx s))).
Proof.
  split; [| split; [| split; [| split; [| split]]]].
  - apply Forall_forall. intros ev Hin.
    destruct (write_exit_record _ _ _ _ Hin) as (a & _ & Hev).
    now destruct (emit_event_record _ _ _ _ _ _ Hev)
      as (_ & _ & _ & _ & _ & Hdir & _).
  - apply Forall_forall. intros ev Hin.
    destruct (read_exit_record _ _ _ _ Hin) as (a & _ & Hev).
    now destruct (emit_event_record _ _ _ _ _ _ Hev)
      as (_ & _ & _ & _ & _ & Hdir & _).
  - apply read_exit_out_depends; now rewrite write_entry_outcome.
  - now rewrite !read_exit_st_tls, !write_entry_outcome.
  - apply write_exit_out_depends; now rewrite read_entry_outcome.
  - now rewrite !write_exit_st, !read_entry_outcome.
Qed.

(** ** X5: the latest entry of a thread is the one that counts *)

(** X5.  A second entry probe on the same thread replaces what the first one
    stored: the maps are as if only the second had run.  In the perf program
    this holds when the second requested length is within 1 .. 65536; when
    it is not, the second entry changes nothing and the first one stays in
    the table. *)
Theorem latest_entry_wins
    (e e' : env) (ctx1 ctx2 : pt_regs)
    (s : Tls.maps) (m : gmap Z Hook.ssl_read_ctx) :
  current_pid_tgid e' = current_pid_tgid e ->
  Tls.handle_ssl_write_entry e' ctx2 (st (Tls.handle_ssl_write_entry e ctx1 s))
  = Tls.handle_ssl_write_entry e' ctx2 s
  /\ Tls.handle_ssl_read_entry e' ctx2 (st (Tls.handle_ssl_read_entry e ctx1 s))
     = Tls.handle_ssl_read_entry e' ctx2 s
  /\ (0 < s32 (PT_REGS_PARM3 ctx2) <= Hook.MAX_CAPTURE_SIZE ->
      Hook.uprobe_ssl_read e' ctx2 (st (Hook.uprobe_ssl_read e ctx1 m))
      = Hook.uprobe_ssl_read e' ctx2 m)
  /\ (s32 (PT_REGS_PARM3 ctx2) <= 0
      \/ Hook.MAX_CAPTURE_SIZE < s32 (PT_REGS_PARM3 ctx2) ->
      st (Hook.uprobe_ssl_read e' ctx2 (st (Hook.uprobe_ssl_read e ctx1 m)))
      = st (Hook.uprobe_ssl_read e ctx1 m)).
Proof.
  intros Hsame.
  assert (forall (V : Type) mx (t : gmap Z V) k v v',
            (bpf_map_update_elem mx (bpf_map_update_elem mx t k v).2 k v').2
            = (bpf_map_update_elem mx t k v').2) as Htwice.
  { intros V mx t k v v'.
    destruct (update_cases mx t k v) as [[Hroom ->] | [Hfull ->]];
      [| reflexivity].
    rewrite update_has_room by (left; rewrite lookup_insert_eq; eauto).
    rewrite update_has_room by assumption. cbn [snd].
    apply insert_insert_eq. }
  split; [| split; [| split]].
  - rewrite !write_entry_outcome.
    cbn [st Tls.ssl_fd_map Tls.pending_write Tls.pending_read].
    unfold Tls.tid_key. rewrite Hsame. now rewrite Htwice.
  - rewrite !read_entry_outcome.
    cbn [st Tls.ssl_fd_map Tls.pending_write Tls.pending_read].
    unfold Tls.tid_key. rewrite Hsame. now rewrite Htwice.
  - intros Hn. rewrite !(read_entry_accepts e' ctx2) by assumption.
    rewrite Hsame.
    destruct (Z_le_gt_dec (s32 (PT_REGS_PARM3 ctx1)) 0) as [Hle | Hpos].
    { now rewrite read_entry_rejects by (now left). }
    destruct (Z_lt_le_dec Hook.MAX_CAPTURE_SIZE (s32 (PT_REGS_PARM3 ctx1)))
      as [Hbig | Hfit].
    { now rewrite read_entry_rejects by (now right). }
    rewrite (read_entry_accepts e ctx1) by lia. cbn [st].
    now rewrite Htwice.
  - intros Hbad. now rewrite (read_entry_rejects e' ctx2) by assumption.
Qed.

Lemma latest_entry_wins_witness :
  current_pid_tgid (Sample.thread 7) = current_pid_tgid (Sample.thread 7)
  /\ Tls.handle_ssl_write_entry (Sample.thread 7) (Sample.at_entry 2 64 9)
       (st (Tls.handle_ssl_write_entry (Sample.thread 7)
              (Sample.at_entry 1 Sample.buf_addr 5) Tls.init))
     = Tls.handle_ssl_write_entry (Sample.thread 7) (Sample.at_entry 2 64 9)
         Tls.init
  /\ (0 < s32 (PT_REGS_PARM3 (Sample.at_entry 2 64 9)) <= Hook.MAX_CAPTURE_SIZE
      /\ Hook.uprobe_ssl_read (Sample.thread 7) (Sample.at_entry 2 64 9)
           (st (Hook.uprobe_ssl_read (Sample.thread 7)
                  (Sample.at_entry 1 Sample.buf_addr 5) Hook.init))
         = Hook.uprobe_ssl_read (Sample.thread 7) (Sample.at_entry 2 64 9)
             Hook.init)
  /\ ((s32 (PT_REGS_PARM3 (Sample.at_entry 2 64 0)) <= 0
       \/ Hook.MAX_CAPTURE_SIZE < s32 (PT_REGS_PARM3 (Sample.at_entry 2 64 0)))
      /\ st (Hook.uprobe_ssl_read (Sample.thread 7) (Sample.at_entry 2 64 0)
               (st (Hook.uprobe_ssl_read (Sample.thread 7)
                      (Sample.at_entry 1 Sample.buf_addr 5) Hook.init)))
         = st (Hook.uprobe_ssl_read (Sample.thread 7)
                 (Sample.at_entry 1 Sample.buf_addr 5) Hook.init)).
Proof.
  destruct (latest_entry_wins (Sample.thread 7) (Sample.thread 7)
              (Sample.at_entry 1 Sample.buf_addr 5) (Sample.at_entry 2 64 9)
              Tls.init Hook.init eq_refl) as (Hw & _ & Hr & _).
  destruct (latest_entry_wins (Sample.thread 7) (Sample.thread 7)
              (Sample.at_entry 1 Sample.buf_addr 5) (Sample.at_entry 2 64 0)
              Tls.init Hook.init eq_refl) as (_ & _ & _ & Hstale).
  split; [reflexivity |]. split; [exact Hw |]. split.
  - assert (0 < s32 (PT_REGS_PARM3 (Sample.at_entry 2 64 9))
              <= Hook.MAX_CAPTURE_SIZE) as Hn
      by (vm_compute; split; [reflexivity | discriminate]).
    split; [exact Hn | exact (Hr Hn)].
  - assert (s32 (PT_REGS_PARM3 (Sample.at_entry 2 64 0)) <= 0
            \/ Hook.MAX_CAPTURE_SIZE
                 < s32 (PT_REGS_PARM3 (Sample.at_entry 2 64 0))) as Hbad
      by (left; vm_compute; discriminate).
    split; [exact Hbad | exact (Hstale Hbad)].
Defined.

(** ** X6: a pending entry belongs to a call that is still open *)

Section open_calls.
Import Tls.

Lemma write_open_snoc k run p :
  write_open k (run ++ [p]) =
  match p with
  | TlsWriteEntry e _ => if decide (tid_key e = k) then true else write_open k run
  | TlsWriteExit e _ => if decide (tid_key e = k) then false else write_open k run
  | _ => write_open k run
  end.
Proof. unfold write_open. now rewrite fold_left_app. Qed.

Lemma read_open_snoc k run p :
  read_open k (run ++ [p]) =
  match p with
  | TlsReadEntry e _ => if decide (tid_key e = k) then true else read_open k run
  | TlsReadExit e _ => if decide (tid_key e = k) then false else read_open k run
  | _ => read_open k run
  end.
Proof. unfold read_open. now rewrite fold_left_app. Qed.

Lemma hook_open_snoc k run p :
  hook_open k (run ++ [p]) =
  match p with
  | SslReadEntry e _ =>
      if decide (current_pid_tgid e = k) then true else hook_open k run
  | SslReadExit e _ =>
      if decide (current_pid_tgid e = k) then false else hook_open k run
  | SslWriteEntry _ _ => hook_open k run
  end.
Proof. unfold hook_open. now rewrite fold_left_app. Qed.

Lemma pending_write_open run : forall k,
  is_Some (pending_write (fold_left tls_step run init) !! k) ->
  write_open k run = true.
Proof.
  induction run as [| p run IH] using rev_ind; intros k [a Ha].
  - cbn in Ha. now rewrite lookup_empty in Ha.
  - rewrite fold_left_app in Ha. cbn [fold_left] in Ha.
    rewrite write_open_snoc. unfold tls_step in Ha.
    destruct p as [e ctx | e ctx | e ctx | e ctx | e ctx | e ctx];
      cbn [tls_run] in Ha.
    + rewrite set_fd_outcome in Ha. apply IH. eauto.
    + rewrite free_outcome in Ha. apply IH. eauto.
    + destruct (decide (tid_key e = k)) as [Heq | Hne]; [reflexivity |].
      rewrite write_entry_outcome in Ha. cbn [st pending_write] in Ha.
      rewrite update_other in Ha by assumption. apply IH. eauto.
    + rewrite write_exit_st in Ha. cbn [pending_write] in Ha.
      destruct (decide (tid_key e = k)) as [Heq | Hne].
      * subst k. now rewrite lookup_delete_eq in Ha.
      * rewrite lookup_delete_ne in Ha by assumption. apply IH. eauto.
    + rewrite read_entry_outcome in Ha. apply IH. eauto.
    + rewrite read_exit_st_tls in Ha. apply IH. eauto.
Qed.

Lemma pending_read_open run : forall k,
  is_Some (pending_read (fold_left tls_step run init) !! k) ->
  read_open k run = true.
Proof.
  induction run as [| p run IH] using rev_ind; intros k [a Ha].
  - cbn in Ha. now rewrite lookup_empty in Ha.
  - rewrite fold_left_app in Ha. cbn [fold_left] in Ha.
    rewrite read_open_snoc. unfold tls_step in Ha.
    destruct p as [e ctx | e ctx | e ctx | e ctx | e ctx | e ctx];
      cbn [tls_run] in Ha.
    + rewrite set_fd_outcome in Ha. apply IH. eauto.
    + rewrite free_outcome in Ha. apply IH. eauto.
    + rewrite write_entry_outcome in Ha. apply IH. eauto.
    + rewrite write_exit_st in Ha. apply IH. eauto.
    + destruct (decide (tid_key e = k)) as [Heq | Hne]; [reflexivity |].
      rewrite read_entry_outcome in Ha. cbn [st pending_read] in Ha.
      rewrite update_other in Ha by assumption. apply IH. eauto.
    + rewrite read_exit_st_tls in Ha. cbn [pending_read] in Ha.
      destruct (decide (tid_key e = k)) as [Heq | Hne].
      * subst k. now rewrite lookup_delete_eq in Ha.
      * rewrite lookup_delete_ne in Ha by assumption. apply IH. eauto.
Qed.

Lemma context_open run : forall k,
  is_Some (fold_left hook_step run Hook.init !! k) ->
  hook_open k run = true.
Proof.
  induction run as [| p run IH] using rev_ind; intros k [c Hc].
  - cbn in Hc. unfold Hook.init in Hc. now rewrite lookup_empty in Hc.
  - rewrite fold_left_app in Hc. cbn [fold_left] in Hc.
    rewrite hook_open_snoc.
    destruct p as [e ctx | e ctx | e ctx]; cbn [hook_step] in Hc.
    + rewrite (proj2 (write_keeps_maps e ctx _)) in Hc. apply IH. eauto.
    + destruct (decide (current_pid_tgid e = k)) as [Heq | Hne];
        [reflexivity |].
      apply IH.
      destruct (Z_le_gt_dec (s32 (PT_REGS_PARM3 ctx)) 0) as [Hle | Hpos].
      { rewrite read_entry_rejects in Hc by (now left). eauto. }
      destruct (Z_lt_le_dec Hook.MAX_CAPTURE_SIZE (s32 (PT_REGS_PARM3 ctx)))
        as [Hbig | Hfit].
      { rewrite read_entry_rejects in Hc by (now right). eauto. }
      rewrite read_entry_accepts in Hc by lia. cbn [st] in Hc.
      rewrite update_other in Hc by assumption. eauto.
    + rewrite read_exit_st in Hc.
      destruct (decide (current_pid_tgid e = k)) as [Heq | Hne].
      * subst k. now rewrite lookup_delete_eq in Hc.
      * rewrite lookup_delete_ne in Hc by assumption. apply IH. eauto.
Qed.

End open_calls.

(** X6.  Whatever probes have fired since the programs were loaded, a pending
    table holds an entry under the key of a thread only if the latest probe
    of that table on the thread was an entry probe: once the exit probe has
    run on a thread, that thread has no entry until it enters a call again.
    This holds for the two pending tables of the ring-buffer program and for
    the table of the perf program. *)
Theorem pending_entries_belong_to_open_calls
    (run_tls : list tls_probe) (run_hook : list hook_probe) (k : Z) :
  (is_Some (Tls.pending_write (fold_left tls_step run_tls Tls.init) !! k) ->
   write_open k run_tls = true)
  /\ (is_Some (Tls.pending_read (fold_left tls_step run_tls Tls.init) !! k) ->
      read_open k run_tls = true)
  /\ (is_Some (fold_left hook_step run_hook Hook.init !! k) ->
      hook_open k run_hook = true).
Proof.
  split; [| split].
  - apply pending_write_open.
  - apply pending_read_open.
  - apply context_open.
Qed.

Lemma pending_entries_belong_to_open_calls_witness :
  (is_Some (Tls.pending_write
              (fold_left tls_step
                 [TlsWriteEntry (Sample.thread 8) (Sample.at_entry 1 0 5);
                  TlsWriteExit (Sample.thread 8) (Sample.at_exit 5);
                  TlsWriteEntry (Sample.thread 7)
                    (Sample.at_entry 1 Sample.buf_addr 5)] Tls.init) !! 7)
   /\ write_open 7
        [TlsWriteEntry (Sample.thread 8) (Sample.at_entry 1 0 5);
         TlsWriteExit (Sample.thread 8) (Sample.at_exit 5);
         TlsWriteEntry (Sample.thread 7) (Sample.at_entry 1 Sample.buf_addr 5)]
      = true)
  /\ (is_Some (Tls.pending_read
                 (fold_left tls_step
                    [TlsReadEntry (Sample.thread 7)
                       (Sample.at_entry 1 Sample.buf_addr 5)] Tls.init) !! 7)
      /\ read_open 7
           [TlsReadEntry (Sample.thread 7) (Sample.at_entry 1 Sample.buf_addr 5)]
         = true)
  /\ (is_Some (fold_left hook_step
                 [SslReadEntry (Sample.thread 7)
                    (Sample.at_entry 1 Sample.buf_addr 5)] Hook.init !! 7)
      /\ hook_open 7
           [SslReadEntry (Sample.thread 7) (Sample.at_entry 1 Sample.buf_addr 5)]
         = true).
Proof.
  split; [| split].
  - assert (is_Some (Tls.pending_write
                       (fold_left tls_step
                          [TlsWriteEntry (Sample.thread 8) (Sample.at_entry 1 0 5);
                           TlsWriteExit (Sample.thread 8) (Sample.at_exit 5);
                           TlsWriteEntry (Sample.thread 7)
                             (Sample.at_entry 1 Sample.buf_addr 5)] Tls.init)
                       !! 7)) as Hin by (vm_compute; eexists; reflexivity).
    split; [exact Hin |].
    exact (proj1 (pending_entries_belong_to_open_calls
             [TlsWriteEntry (Sample.thread 8) (Sample.at_entry 1 0 5);
              TlsWriteExit (Sample.thread 8) (Sample.at_exit 5);
              TlsWriteEntry (Sample.thread 7)
                (Sample.at_entry 1 Sample.buf_addr 5)] [] 7) Hin).
  - assert (is_Some (Tls.pending_read
                       (fold_left tls_step
                          [TlsReadEntry (Sample.thread 7)
                             (Sample.at_entry 1 Sample.buf_addr 5)] Tls.init)
                       !! 7)) as Hin by (vm_compute; eexists; reflexivity).
    split; [exact Hin |].
    exact (proj1 (proj2 (pending_entries_belong_to_open_calls
             [TlsReadEntry (Sample.thread 7)
                (Sample.at_entry 1 Sample.buf_addr 5)] [] 7)) Hin).
  - assert (is_Some (fold_left hook_step
                       [SslReadEntry (Sample.thread 7)
                          (Sample.at_entry 1 Sample.buf_addr 5)] Hook.init
                       !! 7)) as Hin by (vm_compute; eexists; reflexivity).
    split; [exact Hin |].
    exact (proj2 (proj2 (pending_entries_belong_to_open_calls []
             [SslReadEntry (Sample.thread 7)
                (Sample.at_entry 1 Sample.buf_addr 5)] 7)) Hin).
Defined.

(** ** X7: each table changes through its own probes only *)

Section ownership.
Import Tls.

Lemma registry_owner run : forall s s',
  ssl_fd_map s = ssl_fd_map s' ->
  ssl_fd_map (fold_left tls_step run s)
  = ssl_fd_map (fold_left tls_step (List.filter on_registry run) s').
Proof.
  induction run as [| p run IH]; intros s s' Heq; [assumption |].
  cbn [fold_left List.filter].
  destruct p as [e ctx | e ctx | e ctx | e ctx | e ctx | e ctx];
    cbn [on_registry fold_left]; apply IH; unfold tls_step; cbn [tls_run].
  - rewrite !set_fd_outcome. cbn [st ssl_fd_map]. now rewrite Heq.
  - rewrite !free_outcome. cbn [st ssl_fd_map]. now rewrite Heq.
  - now rewrite write_entry_outcome.
  - now rewrite write_exit_st.
  - now rewrite read_entry_outcome.
  - now rewrite read_exit_st_tls.
Qed.

Lemma write_table_owner run : forall s s',
  pending_write s = pending_write s' ->
  pending_write (fold_left tls_step run s)
  = pending_write (fold_left tls_step (List.filter on_write run) s').
Proof.
  induction run as [| p run IH]; intros s s' Heq; [assumption |].
  cbn [fold_left List.filter].
  destruct p as [e ctx | e ctx | e ctx | e ctx | e ctx | e ctx];
    cbn [on_write fold_left]; apply IH; unfold tls_step; cbn [tls_run].
  - now rewrite set_fd_outcome.
  - now rewrite free_outcome.
  - rewrite !write_entry_outcome. cbn [st pending_write]. now rewrite Heq.
  - rewrite !write_exit_st. cbn [pending_write]. now rewrite Heq.
  - now rewrite read_entry_outcome.
  - now rewrite read_exit_st_tls.
Qed.

Lemma read_table_owner run : forall s s',
  pending_read s = pending_read s' ->
  pending_read (fold_left tls_step run s)
  = pending_read (fold_left tls_step (List.filter on_read run) s').
Proof.
  induction run as [| p run IH]; intros s s' Heq; [assumption |].
  cbn [fold_left List.filter].
  destruct p as [e ctx | e ctx | e ctx | e ctx | e ctx | e ctx];
    cbn [on_read fold_left]; apply IH; unfold tls_step; cbn [tls_run].
  - now rewrite set_fd_outcome.
  - now rewrite free_outcome.
  - now rewrite write_entry_outcome.
  - now rewrite write_exit_st.
  - rewrite !read_entry_outcome. cbn [st pending_read]. now rewrite Heq.
  - rewrite !read_exit_st_tls. cbn [pending_read]. now rewrite Heq.
Qed.

End ownership.

(** X7.  In any run of the ring-buffer program, the registry ends as the
    SSL_set_fd and SSL_free probes of the run alone would leave it, the
    outbound pending table as the SSL_write probes alone would leave it, and
    the inbound pending table as the SSL_read probes alone would leave it: no
    probe writes to a table of another group. *)
Theorem each_table_has_its_own_probes (run : list tls_probe) (s : Tls.maps) :
  Tls.ssl_fd_map (fold_left tls_step run s)
  = Tls.ssl_fd_map (fold_left tls_step (List.filter on_registry run) s)
  /\ Tls.pending_write (fold_left tls_step run s)
     = Tls.pending_write (fold_left tls_step (List.filter on_write run) s)
  /\ Tls.pending_read (fold_left tls_step run s)
     = Tls.pending_read (fold_left tls_step (List.filter on_read run) s).
Proof.
  split; [| split].
  - now apply registry_owner.
  - now apply write_table_owner.
  - now apply read_table_owner.
Qed.

(** ** X8: no probe fails, no probe hands over more than one record *)

Lemma write_out_short e ctx m :
  (length (out (Hook.uprobe_ssl_write e ctx m)) <= 1)%nat.
Proof.
  unfold Hook.uprobe_ssl_write. destruct (_ || _); [simpl; lia |].
  destruct (probe_read_user _ _ _); [| simpl; lia].
  unfold Hook.perf_event_output. cbn [out].
  destruct (perf_has_room e); simpl; lia.
Qed.

Lemma read_out_short e ctx m :
  (length (out (Hook.uretprobe_ssl_read e ctx m)) <= 1)%nat.
Proof.
  destruct (out (Hook.uretprobe_ssl_read e ctx m)) as [| ev l] eqn:E;
    [simpl; lia |].
  assert (ev ∈ out (Hook.uretprobe_ssl_read e ctx m)) as Hin
    by (rewrite E; apply list_elem_of_here).
  destruct (read_exit_out_inv _ _ _ _ Hin) as (c & _ & _ & _ & _ & _ & _ & E').
  rewrite E' in E. injection E as El. subst l. simpl. lia.
Qed.

Lemma emit_event_short e fds args len dir :
  (length (Tls.emit_event e fds args len dir).2 <= 1)%nat.
Proof.
  destruct args as [a |]; [| simpl; lia].
  destruct (emit_event_cases e fds a len dir) as [-> | (_ & _ & ->)];
    simpl; lia.
Qed.

(** X8.  Every probe of either program returns 0 to the kernel and hands
    over at most one record, whatever the registers, the maps, the memory of
    the process and the state of the output channel. *)
Theorem probes_return_zero_and_emit_at_most_once
    (p : tls_probe) (s : Tls.maps)
    (q : hook_probe) (m : gmap Z Hook.ssl_read_ctx) :
  ret (tls_run p s) = 0
  /\ (length (out (tls_run p s)) <= 1)%nat
  /\ ret (hook_run q m) = 0
  /\ (length (out (hook_run q m)) <= 1)%nat.
Proof.
  split; [| split; [| split]].
  - destruct p as [e ctx | e ctx | e ctx | e ctx | e ctx | e ctx];
      cbn [tls_run].
    + now rewrite set_fd_outcome.
    + now rewrite free_outcome.
    + now rewrite write_entry_outcome.
    + apply write_exit_ret.
    + now rewrite read_entry_outcome.
    + apply read_exit_ret_tls.
  - destruct p as [e ctx | e ctx | e ctx | e ctx | e ctx | e ctx];
      cbn [tls_run].
    + rewrite set_fd_outcome. simpl. lia.
    + rewrite free_outcome. simpl. lia.
    + rewrite write_entry_outcome. simpl. lia.
    + destruct (Tls.pending_write s !! Tls.tid_key e) as [a |] eqn:Hk.
      * rewrite (write_exit_present e ctx s a Hk). cbn [out].
        apply emit_event_short.
      * rewrite (write_exit_absent e ctx s Hk). simpl. lia.
    + rewrite read_entry_outcome. simpl. lia.
    + destruct (Tls.pending_read s !! Tls.tid_key e) as [a |] eqn:Hk.
      * rewrite (read_exit_present e ctx s a Hk). cbn [out].
        apply emit_event_short.
      * rewrite (read_exit_absent e ctx s Hk). simpl. lia.
  - destruct q as [e ctx | e ctx | e ctx]; cbn [hook_run].
    + apply write_keeps_maps.
    + apply read_entry_quiet.
    + apply read_exit_ret.
  - destruct q as [e ctx | e ctx | e ctx]; cbn [hook_run].
    + apply write_out_short.
    + rewrite (proj2 (read_entry_quiet e ctx m)). simpl. lia.
    + apply read_out_short.
Qed.

(** ** X9: a probe never asks for more bytes than its record holds *)

Lemma same_reads_short cap e : same_reads cap e (short_reader cap e).
Proof.
  unfold same_reads, short_reader. cbn. repeat split.
  intros addr size Hsz. destruct (Z.leb_spec size cap); [reflexivity | lia].
Qed.

Lemma read_payload_same e e' buf_ len :
  same_reads Tls.MAX_TLS_DATA e e' -> len <= Tls.MAX_TLS_DATA ->
  Tls.read_payload e buf_ len = Tls.read_payload e' buf_ len.
Proof.
  intros (_ & _ & _ & _ & Hreads) Hlen. unfold Tls.read_payload.
  destruct (Z.ltb_spec 0 len); [| reflexivity].
  now rewrite Hreads by lia.
Qed.

Lemma emit_event_same e e' fds args len dir :
  same_reads Tls.MAX_TLS_DATA e e' ->
  Tls.emit_event e fds args len dir = Tls.emit_event e' fds args len dir.
Proof.
  intros Hsame. pose proof Hsame as (Hid & Hkt & Hring & _ & _).
  unfold Tls.emit_event. destruct args as [a |]; [| reflexivity].
  destruct (len <=? 0); [reflexivity |].
  rewrite <- Hid, <- Hkt, <- Hring.
  destruct (Z.ltb_spec Tls.MAX_TLS_DATA (u32 len));
    destruct (ringbuf_has_room e); cbn [negb]; try reflexivity.
  - now rewrite (read_payload_same e e') by (assumption || lia).
  - now rewrite (read_payload_same e e') by (assumption || lia).
Qed.

(** X9.  The outcome of an exit probe of the ring-buffer program does not
    depend on what the memory reader would answer for a size above 512, and
    the outcome of a probe of the perf program (in any state its probes can
    reach) does not depend on what it would answer for a size above 65536:
    no probe asks for more bytes than the payload array of its record
    holds, nor for zero bytes or fewer. *)
Theorem reads_stay_within_the_record
    (e e' : env) (ctx : pt_regs) (s : Tls.maps) (run : list hook_probe) :
  (same_reads Tls.MAX_TLS_DATA e e' ->
   Tls.handle_ssl_write_exit e ctx s = Tls.handle_ssl_write_exit e' ctx s
   /\ Tls.handle_ssl_read_exit e ctx s = Tls.handle_ssl_read_exit e' ctx s)
  /\ (same_reads Hook.MAX_CAPTURE_SIZE e e' ->
      Hook.uprobe_ssl_write e ctx (fold_left hook_step run Hook.init)
      = Hook.uprobe_ssl_write e' ctx (fold_left hook_step run Hook.init)
      /\ Hook.uretprobe_ssl_read e ctx (fold_left hook_step run Hook.init)
         = Hook.uretprobe_ssl_read e' ctx (fold_left hook_step run Hook.init)).
Proof.
  split.
  - intros Hsame. pose proof Hsame as (Hid & _).
    unfold Tls.handle_ssl_write_exit, Tls.handle_ssl_read_exit, Tls.tid_key.
    rewrite <- Hid. split.
    + destruct (bpf_map_lookup_elem _ _); [| reflexivity].
      now rewrite (emit_event_same e e').
    + destruct (bpf_map_lookup_elem _ _); [| reflexivity].
      now rewrite (emit_event_same e e').
  - intros (Hid & Hkt & _ & Hperf & Hreads).
    pose proof (stored_lengths_reachable run) as Hok.
    set (m := fold_left hook_step run Hook.init) in *. split.
    + unfold Hook.uprobe_ssl_write. rewrite <- Hid, <- Hkt.
      destruct (Z.leb_spec (s32 (PT_REGS_PARM3 ctx)) 0); [reflexivity |].
      destruct (Z.ltb_spec Hook.MAX_CAPTURE_SIZE (s32 (PT_REGS_PARM3 ctx)));
        [reflexivity |].
      cbn [orb].
      rewrite <- Hreads
        by (rewrite u32_small; unfold Hook.MAX_CAPTURE_SIZE in *; lia).
      unfold Hook.perf_event_output. now rewrite <- Hperf.
    + unfold Hook.uretprobe_ssl_read. rewrite <- Hid, <- Hkt.
      destruct (Z.leb_spec (s64 (PT_REGS_RC ctx)) 0); [reflexivity |].
      destruct (Z.ltb_spec Hook.MAX_CAPTURE_SIZE (s64 (PT_REGS_RC ctx)));
        [reflexivity |].
      cbn [orb]. unfold bpf_map_lookup_elem.
      destruct (m !! current_pid_tgid e) as [c |] eqn:Hk; [| reflexivity].
      fold (read_len (s64 (PT_REGS_RC ctx)) c).
      rewrite <- Hreads
        by (rewrite read_len_min by (lia || now apply (Hok _ _ Hk));
            pose proof (Hok _ _ Hk); lia).
      unfold Hook.perf_event_output. now rewrite <- Hperf.
Qed.

Lemma reads_stay_within_the_record_witness :
  (same_reads Tls.MAX_TLS_DATA (Sample.thread 7)
     (short_reader Tls.MAX_TLS_DATA (Sample.thread 7))
   /\ Tls.handle_ssl_write_exit (Sample.thread 7) (Sample.at_exit 600)
        Sample.tls_busy
      = Tls.handle_ssl_write_exit
          (short_reader Tls.MAX_TLS_DATA (Sample.thread 7))
          (Sample.at_exit 600) Sample.tls_busy)
  /\ (same_reads Hook.MAX_CAPTURE_SIZE (Sample.thread 7)
        (short_reader Hook.MAX_CAPTURE_SIZE (Sample.thread 7))
      /\ Hook.uretprobe_ssl_read (Sample.thread 7) (Sample.at_exit 600)
           (fold_left hook_step
              [SslReadEntry (Sample.thread 7)
                 (Sample.at_entry 1 Sample.buf_addr 1000)] Hook.init)
         = Hook.uretprobe_ssl_read
             (short_reader Hook.MAX_CAPTURE_SIZE (Sample.thread 7))
             (Sample.at_exit 600)
             (fold_left hook_step
                [SslReadEntry (Sample.thread 7)
                   (Sample.at_entry 1 Sample.buf_addr 1000)] Hook.init)).
Proof.
  split.
  - pose proof (same_reads_short Tls.MAX_TLS_DATA (Sample.thread 7)) as Hsame.
    split; [exact Hsame |].
    exact (proj1 (proj1 (reads_stay_within_the_record (Sample.thread 7)
             (short_reader Tls.MAX_TLS_DATA (Sample.thread 7))
             (Sample.at_exit 600) Sample.tls_busy []) Hsame)).
  - pose proof (same_reads_short Hook.MAX_CAPTURE_SIZE (Sample.thread 7))
      as Hsame.
    split; [exact Hsame |].
    exact (proj2 (proj2 (reads_stay_within_the_record (Sample.thread 7)
             (short_reader Hook.MAX_CAPTURE_SIZE (Sample.thread 7))
             (Sample.at_exit 600) Sample.tls_busy
             [SslReadEntry (Sample.thread 7)
                (Sample.at_entry 1 Sample.buf_addr 1000)]) Hsame)).
Defined.

(** ** X10: a faulting read in the perf program *)

(** X10.  In the perf program a faulting copy of the payload means no
    record: the SSL_write probe returns with the table untouched, and the
    SSL_read exit probe returns after removing the pending entry of the
    thread. *)
Theorem perf_fault_means_no_record
    (e : env) (ctx : pt_regs) (m : gmap Z Hook.ssl_read_ctx) :
  (probe_read_user e (u64 (PT_REGS_PARM2 ctx)) (u32 (s32 (PT_REGS_PARM3 ctx)))
     = None ->
   Hook.uprobe_ssl_write e ctx m = {| ret := 0; st := m; out := [] |})
  /\ (forall c,
        m !! current_pid_tgid e = Some c ->
        probe_read_user e (Hook.buf c)
          (u32 (read_len (s64 (PT_REGS_RC ctx)) c)) = None ->
        Hook.uretprobe_ssl_read e ctx m
        = {| ret := 0; st := delete (current_pid_tgid e) m; out := [] |}).
Proof.
  split.
  - intros Hfault. unfold Hook.uprobe_ssl_write.
    destruct (_ || _); [reflexivity |]. now rewrite Hfault.
  - intros c Hk Hfault.
    pose proof (read_exit_ret e ctx m) as Hret.
    pose proof (read_exit_st e ctx m) as Hst.
    pose proof (read_exit_faults e ctx m c Hk Hfault) as Hout.
    destruct (Hook.uretprobe_ssl_read e ctx m) as [r t o].
    cbn [ret st out] in *. now subst.
Qed.

Lemma perf_fault_means_no_record_witness :
  (probe_read_user (Sample.unmapped 7)
     (u64 (PT_REGS_PARM2 (Sample.at_entry 1 Sample.buf_addr 5)))
     (u32 (s32 (PT_REGS_PARM3 (Sample.at_entry 1 Sample.buf_addr 5)))) = None
   /\ Hook.uprobe_ssl_write (Sample.unmapped 7)
        (Sample.at_entry 1 Sample.buf_addr 5) Sample.hook_busy
      = {| ret := 0; st := Sample.hook_busy; out := [] |})
  /\ (Sample.hook_busy !! current_pid_tgid (Sample.unmapped 7)
      = Some {| Hook.buf := Sample.buf_addr; Hook.num := 1000 |}
      /\ probe_read_user (Sample.unmapped 7) Sample.buf_addr
           (u32 (read_len (s64 (PT_REGS_RC (Sample.at_exit 5)))
                   {| Hook.buf := Sample.buf_addr; Hook.num := 1000 |})) = None
      /\ Hook.uretprobe_ssl_read (Sample.unmapped 7) (Sample.at_exit 5)
           Sample.hook_busy
         = {| ret := 0;
              st := delete (current_pid_tgid (Sample.unmapped 7))
                      Sample.hook_busy;
              out := [] |}).
Proof.
  destruct (perf_fault_means_no_record (Sample.unmapped 7)
              (Sample.at_entry 1 Sample.buf_addr 5) Sample.hook_busy)
    as (Hw & _).
  destruct (perf_fault_means_no_record (Sample.unmapped 7)
              (Sample.at_exit 5) Sample.hook_busy) as (_ & Hr).
  split.
  - split; [reflexivity | exact (Hw eq_refl)].
  - split; [reflexivity |]. split; [reflexivity |].
    exact (Hr _ eq_refl eq_refl).
Defined.

(** ** X11: a tracked SSL_read of the perf program, from entry to exit *)

(** X11.  When a thread with no pending entry enters SSL_read with a
    requested length within 1 .. 65536, the table has room, the call returns
    a value within 1 .. 65536, the perf array has room and the buffer can be
    read, the exit probe hands over exactly one record: inbound, descriptor
    0, the smaller of return code and requested length as length, the bytes
    read at the buffer address of the entry; and the table is back as it was
    before the call. *)
Theorem perf_read_round_trip
    (e_in e_out : env) (ctx_in ctx_out : pt_regs)
    (m : gmap Z Hook.ssl_read_ctx) (bytes : list Byte.byte) :
  current_pid_tgid e_in = current_pid_tgid e_out ->
  m !! current_pid_tgid e_in = None ->
  Z.of_nat (size m) < Hook.max_entries ->
  0 < s32 (PT_REGS_PARM3 ctx_in) <= Hook.MAX_CAPTURE_SIZE ->
  0 < s64 (PT_REGS_RC ctx_out) <= Hook.MAX_CAPTURE_SIZE ->
  perf_has_room e_out = true ->
  probe_read_user e_out (u64 (PT_REGS_PARM2 ctx_in))
    (Z.min (s64 (PT_REGS_RC ctx_out)) (s32 (PT_REGS_PARM3 ctx_in)))
    = Some bytes ->
  Hook.uretprobe_ssl_read e_out ctx_out (st (Hook.uprobe_ssl_read e_in ctx_in m))
  = {| ret := 0; st := m;
       out := [ {| Hook.timestamp_ns := ktime_ns e_out;
                   Hook.pid := u32 (Z.shiftr (current_pid_tgid e_out) 32);
                   Hook.tid := u32 (current_pid_tgid e_out);
                   Hook.fd := 0;
                   Hook.is_write := 0;
                   Hook.data_len :=
                     Z.min (s64 (PT_REGS_RC ctx_out))
                       (s32 (PT_REGS_PARM3 ctx_in));
                   Hook.data := bytes |} ] |}.
Proof.
  intros Hkey Hk Hsz Hn Hrc Hroom Hread.
  rewrite read_entry_accepts by assumption. cbn [st].
  rewrite update_has_room by (now right). cbn [snd].
  set (c := {| Hook.buf := u64 (PT_REGS_PARM2 ctx_in);
               Hook.num := s32 (PT_REGS_PARM3 ctx_in) |}).
  set (m' := <[current_pid_tgid e_in := c]> m).
  assert (m' !! current_pid_tgid e_out = Some c) as Hk'
    by (unfold m'; rewrite <- Hkey; apply lookup_insert_eq).
  assert (u32 (read_len (s64 (PT_REGS_RC ctx_out)) c)
          = Z.min (s64 (PT_REGS_RC ctx_out)) (s32 (PT_REGS_PARM3 ctx_in)))
    as Hlen by (now apply read_len_min).
  pose proof (read_exit_ret e_out ctx_out m') as Hret.
  pose proof (read_exit_st e_out ctx_out m') as Hst.
  pose proof (read_exit_submitted e_out ctx_out m' c bytes Hrc Hk') as Hout.
  rewrite Hlen in Hout. specialize (Hout Hread).
  unfold Hook.perf_event_output in Hout. rewrite Hroom in Hout.
  unfold m' in Hst at 2.
  rewrite <- Hkey, delete_insert_id in Hst by assumption.
  destruct (Hook.uretprobe_ssl_read e_out ctx_out m') as [r t o].
  cbn [ret st out] in *. now subst.
Qed.

Lemma perf_read_round_trip_witness :
  current_pid_tgid (Sample.thread 9) = current_pid_tgid (Sample.thread 9)
  /\ Sample.hook_busy !! current_pid_tgid (Sample.thread 9) = None
  /\ Z.of_nat (size Sample.hook_busy) < Hook.max_entries
  /\ 0 < s32 (PT_REGS_PARM3 (Sample.at_entry 1 Sample.buf_addr 5))
       <= Hook.MAX_CAPTURE_SIZE
  /\ 0 < s64 (PT_REGS_RC (Sample.at_exit 8)) <= Hook.MAX_CAPTURE_SIZE
  /\ perf_has_room (Sample.thread 9) = true
  /\ probe_read_user (Sample.thread 9)
       (u64 (PT_REGS_PARM2 (Sample.at_entry 1 Sample.buf_addr 5)))
       (Z.min (s64 (PT_REGS_RC (Sample.at_exit 8)))
          (s32 (PT_REGS_PARM3 (Sample.at_entry 1 Sample.buf_addr 5))))
     = Some Sample.hello
  /\ Hook.uretprobe_ssl_read (Sample.thread 9) (Sample.at_exit 8)
       (st (Hook.uprobe_ssl_read (Sample.thread 9)
              (Sample.at_entry 1 Sample.buf_addr 5) Sample.hook_busy))
     = {| ret := 0; st := Sample.hook_busy;
          out := [ {| Hook.timestamp_ns := 1000; Hook.pid := 0; Hook.tid := 9;
                      Hook.fd := 0; Hook.is_write := 0; Hook.data_len := 5;
                      Hook.data := Sample.hello |} ] |}.
Proof.
  assert (Z.of_nat (size Sample.hook_busy) < Hook.max_entries) as Hsz
    by (vm_compute; reflexivity).
  assert (0 < s32 (PT_REGS_PARM3 (Sample.at_entry 1 Sample.buf_addr 5))
            <= Hook.MAX_CAPTURE_SIZE) as Hn
    by (vm_compute; split; [reflexivity | discriminate]).
  assert (0 < s64 (PT_REGS_RC (Sample.at_exit 8)) <= Hook.MAX_CAPTURE_SIZE)
    as Hrc by (vm_compute; split; [reflexivity | discriminate]).
  assert (probe_read_user (Sample.thread 9)
            (u64 (PT_REGS_PARM2 (Sample.at_entry 1 Sample.buf_addr 5)))
            (Z.min (s64 (PT_REGS_RC (Sample.at_exit 8)))
               (s32 (PT_REGS_PARM3 (Sample.at_entry 1 Sample.buf_addr 5))))
          = Some Sample.hello) as Hread by (vm_compute; reflexivity).
  split; [reflexivity |]. split; [reflexivity |]. split; [exact Hsz |].
  split; [exact Hn |]. split; [exact Hrc |]. split; [reflexivity |].
  split; [exact Hread |].
  exact (perf_read_round_trip (Sample.thread 9) (Sample.thread 9)
           (Sample.at_entry 1 Sample.buf_addr 5) (Sample.at_exit 8)
           Sample.hook_busy Sample.hello eq_refl eq_refl Hsz Hn Hrc eq_refl
           Hread).
Defined.

(** ** X12: inbound records of the perf program need an SSL_read entry *)

(** X12.  The table of the perf program is filled by the SSL_read entry
    probe alone.  As long as that probe has not fired (SSL_write, SSL_write_ex
    and the exits of SSL_read and SSL_read_ex may have, any number of times)
    the table is empty, and an exit of SSL_read or SSL_read_ex hands over
    nothing: SSL_read_ex, which has an exit probe but no entry probe, is
    never captured by itself. *)
Theorem read_ex_alone_captures_nothing
    (run : list hook_probe) (e : env) (ctx : pt_regs) :
  forallb (fun p => negb (is_read_entry p)) run = true ->
  fold_left hook_step run Hook.init = ∅
  /\ Hook.uretprobe_ssl_read_ex e ctx (fold_left hook_step run Hook.init)
     = {| ret := 0; st := ∅; out := [] |}.
Proof.
  intros Hrun.
  assert (fold_left hook_step run Hook.init = ∅) as Hempty.
  { unfold Hook.init. induction run as [| p run IH]; [reflexivity |].
    cbn [forallb] in Hrun. apply andb_prop in Hrun as [Hp Hrun].
    cbn [fold_left].
    destruct p as [e' ctx' | e' ctx' | e' ctx']; cbn [hook_step].
    - rewrite (proj2 (write_keeps_maps e' ctx' ∅)). now apply IH.
    - discriminate.
    - rewrite read_exit_st, delete_empty. now apply IH. }
  split; [exact Hempty |].
  rewrite Hempty. unfold Hook.uretprobe_ssl_read_ex.
  apply read_exit_absent_hook. apply lookup_empty.
Qed.

Lemma read_ex_alone_captures_nothing_witness :
  forallb (fun p => negb (is_read_entry p))
    [SslWriteEntry (Sample.thread 7) (Sample.at_entry 1 Sample.buf_addr 5);
     SslReadExit (Sample.thread 7) (Sample.at_exit 5)] = true
  /\ Hook.uretprobe_ssl_read_ex (Sample.thread 7) (Sample.at_exit 5)
       (fold_left hook_step
          [SslWriteEntry (Sample.thread 7) (Sample.at_entry 1 Sample.buf_addr 5);
           SslReadExit (Sample.thread 7) (Sample.at_exit 5)] Hook.init)
     = {| ret := 0; st := ∅; out := [] |}.
Proof.
  split; [reflexivity |].
  exact (proj2 (read_ex_alone_captures_nothing
           [SslWriteEntry (Sample.thread 7) (Sample.at_entry 1 Sample.buf_addr 5);
            SslReadExit (Sample.thread 7) (Sample.at_exit 5)]
           (Sample.thread 7) (Sample.at_exit 5) eq_refl)).
Defined.

(** ** X13: binding, looking up and unbinding one handle *)

(** X13.  The registry stores the low 32 bits of the descriptor register and
    a lookup reads them back as a signed number: after a Bind that found
    room, the lookup of the handle answers the int descriptor, whatever the
    upper 32 bits of the register were.  Unbinding a handle that was unbound
    before its Bind puts every map back as it was. *)
Theorem bind_lookup_unbind
    (e e' : env) (ctx : pt_regs) (s : Tls.maps) (d : Z) :
  - 2 ^ 31 <= d < 2 ^ 31 ->
  PT_REGS_PARM2 ctx mod 2 ^ 32 = d mod 2 ^ 32 ->
  (has_room Tls.max_entries (Tls.ssl_fd_map s) (u64 (PT_REGS_PARM1 ctx)) ->
   Tls.lookup_fd (Tls.ssl_fd_map (st (Tls.handle_ssl_set_fd e ctx s)))
     (u64 (PT_REGS_PARM1 ctx)) = d)
  /\ (Tls.ssl_fd_map s !! u64 (PT_REGS_PARM1 ctx) = None ->
      st (Tls.handle_ssl_free e' ctx (st (Tls.handle_ssl_set_fd e ctx s))) = s).
Proof.
  intros Hd Hlow. split.
  - intros Hroom. rewrite set_fd_outcome. cbn [st Tls.ssl_fd_map].
    rewrite update_has_room by assumption. cbn [snd].
    rewrite lookup_fd_insert, decide_True by reflexivity.
    rewrite <- (s32_small d Hd). unfold s32. now rewrite Hlow.
  - intros Hk. rewrite free_outcome, set_fd_outcome.
    cbn [st Tls.ssl_fd_map Tls.pending_write Tls.pending_read].
    destruct (update_cases Tls.max_entries (Tls.ssl_fd_map s)
                (u64 (PT_REGS_PARM1 ctx)) (u32 (PT_REGS_PARM2 ctx)))
      as [[_ ->] | [_ ->]].
    + rewrite delete_insert_id by assumption. now destruct s.
    + rewrite delete_id by assumption. now destruct s.
Qed.

Lemma bind_lookup_unbind_witness :
  - 2 ^ 31 <= -3 < 2 ^ 31
  /\ PT_REGS_PARM2 (registry_regs 1 (7 * 2 ^ 32 + (2 ^ 32 - 3))) mod 2 ^ 32
     = -3 mod 2 ^ 32
  /\ has_room Tls.max_entries (Tls.ssl_fd_map Tls.init)
       (u64 (PT_REGS_PARM1 (registry_regs 1 (7 * 2 ^ 32 + (2 ^ 32 - 3)))))
  /\ Tls.lookup_fd
       (Tls.ssl_fd_map
          (st (Tls.handle_ssl_set_fd (Sample.thread 7)
                 (registry_regs 1 (7 * 2 ^ 32 + (2 ^ 32 - 3))) Tls.init)))
       (u64 (PT_REGS_PARM1 (registry_regs 1 (7 * 2 ^ 32 + (2 ^ 32 - 3)))))
     = -3
  /\ Tls.ssl_fd_map Tls.init
       !! u64 (PT_REGS_PARM1 (registry_regs 1 (7 * 2 ^ 32 + (2 ^ 32 - 3))))
     = None
  /\ st (Tls.handle_ssl_free (Sample.thread 8)
           (registry_regs 1 (7 * 2 ^ 32 + (2 ^ 32 - 3)))
           (st (Tls.handle_ssl_set_fd (Sample.thread 7)
                  (registry_regs 1 (7 * 2 ^ 32 + (2 ^ 32 - 3))) Tls.init)))
     = Tls.init.
Proof.
  assert (- 2 ^ 31 <= -3 < 2 ^ 31) as Hd by lia.
  assert (PT_REGS_PARM2 (registry_regs 1 (7 * 2 ^ 32 + (2 ^ 32 - 3))) mod 2 ^ 32
          = -3 mod 2 ^ 32) as Hlow by (vm_compute; reflexivity).
  assert (has_room Tls.max_entries (Tls.ssl_fd_map Tls.init)
            (u64 (PT_REGS_PARM1 (registry_regs 1 (7 * 2 ^ 32 + (2 ^ 32 - 3))))))
    as Hroom by (right; vm_compute; reflexivity).
  destruct (bind_lookup_unbind (Sample.thread 7) (Sample.thread 8)
              (registry_regs 1 (7 * 2 ^ 32 + (2 ^ 32 - 3))) Tls.init (-3)
              Hd Hlow) as (Hlook & Hback).
  split; [exact Hd |]. split; [exact Hlow |]. split; [exact Hroom |].
  split; [exact (Hlook Hroom) |]. split; [reflexivity |].
  exact (Hback eq_refl).
Defined.

(** ** X14: a call that finds its pending table full *)

Lemma hook_capacity_Z : Z.of_nat hook_capacity = Hook.max_entries.
Proof.
  unfold hook_capacity. now rewrite Z2Nat.id by (unfold Hook.max_entries; lia).
Qed.

Opaque hook_capacity.

Section crowd_facts.
Context {V : Type}.
Implicit Types (v : V) (n : nat) (k : Z).

Lemma crowd_lookup v n k :
  crowd v n !! k = if decide (0 <= k < Z.of_nat n) then Some v else None.
Proof.
  induction n as [| n IH]; cbn [crowd].
  - rewrite lookup_empty, decide_False by lia. reflexivity.
  - destruct (decide (Z.of_nat n = k)) as [Heq | Hne].
    + subst k. rewrite lookup_insert_eq, decide_True by lia. reflexivity.
    + rewrite lookup_insert_ne, IH by assumption.
      destruct (decide (0 <= k < Z.of_nat n)),
        (decide (0 <= k < Z.of_nat (S n))); try reflexivity; lia.
Qed.

Lemma crowd_size v n : size (crowd v n) = n.
Proof.
  induction n as [| n IH]; cbn [crowd].
  - apply map_size_empty.
  - rewrite map_size_insert_None, IH; [reflexivity |].
    rewrite crowd_lookup, decide_False by lia. reflexivity.
Qed.

Lemma crowd_is_full v n k :
  Z.of_nat n <= k -> ~ has_room (Z.of_nat n) (crowd v n) k.
Proof.
  intros Hk [[x Hx] | Hsz].
  - rewrite crowd_lookup, decide_False in Hx by lia. discriminate.
  - rewrite crowd_size in Hsz. lia.
Qed.

Lemma no_room_absent mx (m : gmap Z V) k : ~ has_room mx m k -> m !! k = None.
Proof.
  intros Hno. destruct (m !! k) as [x |] eqn:Hk; [| reflexivity].
  exfalso. apply Hno. left. eauto.
Qed.

Lemma update_no_room mx (m : gmap Z V) k v :
  ~ has_room mx m k -> (bpf_map_update_elem mx m k v).2 = m.
Proof.
  intros Hno.
  destruct (update_cases mx m k v) as [[Hroom _] | [_ ->]];
    [contradiction | reflexivity].
Qed.

End crowd_facts.

(** X14.  An entry probe that finds its pending table full and has no entry
    of its own thread there stores nothing: the maps stay as they are, and
    the exit of that call on the same thread hands over nothing and changes
    nothing either.  This holds for both pending tables of the ring-buffer
    program (32768 entries each) and for the table of the perf program
    (10240 entries). *)
Theorem full_table_means_untracked
    (e e_out : env) (ctx ctx_out : pt_regs)
    (s : Tls.maps) (m : gmap Z Hook.ssl_read_ctx) :
  current_pid_tgid e_out = current_pid_tgid e ->
  (~ has_room Tls.max_entries (Tls.pending_write s) (Tls.tid_key e) ->
   st (Tls.handle_ssl_write_entry e ctx s) = s
   /\ Tls.handle_ssl_write_exit e_out ctx_out
        (st (Tls.handle_ssl_write_entry e ctx s))
      = {| ret := 0; st := s; out := [] |})
  /\ (~ has_room Tls.max_entries (Tls.pending_read s) (Tls.tid_key e) ->
      st (Tls.handle_ssl_read_entry e ctx s) = s
      /\ Tls.handle_ssl_read_exit e_out ctx_out
           (st (Tls.handle_ssl_read_entry e ctx s))
         = {| ret := 0; st := s; out := [] |})
  /\ (~ has_room Hook.max_entries m (current_pid_tgid e) ->
      st (Hook.uprobe_ssl_read e ctx m) = m
      /\ Hook.uretprobe_ssl_read e_out ctx_out (st (Hook.uprobe_ssl_read e ctx m))
         = {| ret := 0; st := m; out := [] |}).
Proof.
  intros Hsame. split; [| split].
  - intros Hno.
    assert (st (Tls.handle_ssl_write_entry e ctx s) = s) as Hst.
    { rewrite write_entry_outcome. cbn [st].
      rewrite update_no_room by assumption. now destruct s. }
    split; [exact Hst |]. rewrite Hst. apply write_exit_absent.
    unfold Tls.tid_key in *. rewrite Hsame. now apply (no_room_absent Tls.max_entries).
  - intros Hno.
    assert (st (Tls.handle_ssl_read_entry e ctx s) = s) as Hst.
    { rewrite read_entry_outcome. cbn [st].
      rewrite update_no_room by assumption. now destruct s. }
    split; [exact Hst |]. rewrite Hst. apply read_exit_absent.
    unfold Tls.tid_key in *. rewrite Hsame. now apply (no_room_absent Tls.max_entries).
  - intros Hno.
    assert (st (Hook.uprobe_ssl_read e ctx m) = m) as Hst.
    { destruct (Z_le_gt_dec (s32 (PT_REGS_PARM3 ctx)) 0) as [Hle | Hpos].
      { now rewrite read_entry_rejects by (now left). }
      destruct (Z_lt_le_dec Hook.MAX_CAPTURE_SIZE (s32 (PT_REGS_PARM3 ctx)))
        as [Hbig | Hfit].
      { now rewrite read_entry_rejects by (now right). }
      rewrite read_entry_accepts by lia. cbn [st].
      now apply update_no_room. }
    split; [exact Hst |]. rewrite Hst. apply read_exit_absent_hook.
    rewrite Hsame. now apply (no_room_absent Hook.max_entries).
Qed.

Lemma full_table_means_untracked_witness :
  current_pid_tgid (Sample.thread 40000) = current_pid_tgid (Sample.thread 40000)
  /\ (~ has_room Tls.max_entries (Tls.pending_write full_pending)
          (Tls.tid_key (Sample.thread 40000))
      /\ Tls.handle_ssl_write_exit (Sample.thread 40000) (Sample.at_exit 5)
           (st (Tls.handle_ssl_write_entry (Sample.thread 40000)
                  (Sample.at_entry 1 Sample.buf_addr 5) full_pending))
         = {| ret := 0; st := full_pending; out := [] |})
  /\ (~ has_room Tls.max_entries (Tls.pending_read full_pending)
          (Tls.tid_key (Sample.thread 40000))
      /\ Tls.handle_ssl_read_exit (Sample.thread 40000) (Sample.at_exit 5)
           (st (Tls.handle_ssl_read_entry (Sample.thread 40000)
                  (Sample.at_entry 1 Sample.buf_addr 5) full_pending))
         = {| ret := 0; st := full_pending; out := [] |})
  /\ (~ has_room Hook.max_entries full_context
          (current_pid_tgid (Sample.thread 40000))
      /\ Hook.uretprobe_ssl_read (Sample.thread 40000) (Sample.at_exit 5)
           (st (Hook.uprobe_ssl_read (Sample.thread 40000)
                  (Sample.at_entry 1 Sample.buf_addr 5) full_context))
         = {| ret := 0; st := full_context; out := [] |}).
Proof.
  assert (~ has_room Tls.max_entries (crowd nobody capacity) 40000) as Htls.
  { rewrite <- capacity_Z. apply crowd_is_full. rewrite capacity_Z.
    unfold Tls.max_entries. lia. }
  assert (~ has_room Hook.max_entries full_context 40000) as Hhook.
  { rewrite <- hook_capacity_Z. apply crowd_is_full. rewrite hook_capacity_Z.
    unfold Hook.max_entries. lia. }
  destruct (full_table_means_untracked (Sample.thread 40000)
              (Sample.thread 40000) (Sample.at_entry 1 Sample.buf_addr 5)
              (Sample.at_exit 5) full_pending full_context eq_refl)
    as (Hw & Hr & Hh).
  split; [reflexivity |]. split; [| split].
  - split; [exact Htls | exact (proj2 (Hw Htls))].
  - split; [exact Htls | exact (proj2 (Hr Htls))].
  - split; [exact Hhook | exact (proj2 (Hh Hhook))].
Defined.

(** ** X15: the payload has the announced length *)

(** X15.  When the memory reader copies as many bytes as it is asked for,
    the payload of every record is exactly [data_len] bytes long, in both
    programs; in the ring-buffer program this includes the zeroed payload of
    a faulting copy and the empty payload of a zero-length record. *)
Theorem payload_has_the_announced_length
    (e : env) (ctx : pt_regs) (s : Tls.maps) (m : gmap Z Hook.ssl_read_ctx) :
  reader_ok e ->
  Forall (fun ev => Z.of_nat (length (Tls.data ev)) = Tls.data_len ev)
    (out (Tls.handle_ssl_write_exit e ctx s)
     ++ out (Tls.handle_ssl_read_exit e ctx s))
  /\ Forall (fun ev => Z.of_nat (length (Hook.data ev)) = Hook.data_len ev)
       (out (Hook.uprobe_ssl_write e ctx m)
        ++ out (Hook.uretprobe_ssl_read e ctx m)).
Proof.
  intros Hreader. split; apply Forall_forall; intros ev Hin.
  - destruct (exit_record _ _ _ _ Hin) as (a & dir & Hev).
    destruct (emit_event_record _ _ _ _ _ _ Hev)
      as (_ & _ & _ & Hd & _ & _ & a' & _ & _ & Hdata).
    pose proof (u32_range (s64 (PT_REGS_RC ctx))) as Hu.
    assert (0 <= Tls.data_len ev) as Hnn
      by (rewrite Hd; unfold Tls.MAX_TLS_DATA; lia).
    rewrite Hdata. unfold Tls.read_payload.
    destruct (Z.ltb_spec 0 (Tls.data_len ev)) as [Hpos | Hzero].
    + destruct (probe_read_user e (Tls.args_buf_ptr a') (Tls.data_len ev))
        as [bytes |] eqn:Hread.
      * rewrite (Hreader _ _ _ Hread). lia.
      * rewrite length_replicate. lia.
    + simpl. lia.
  - apply elem_of_app in Hin as [Hin | Hin].
    + destruct (write_out_inv _ _ _ _ Hin) as (Hn & _ & _ & Hd & Hread).
      rewrite (Hreader _ _ _ Hread). lia.
    + destruct (read_exit_out_inv _ _ _ _ Hin)
        as (c & _ & _ & _ & _ & Hd & Hread & _).
      rewrite (Hreader _ _ _ Hread).
      pose proof (u32_range (read_len (s64 (PT_REGS_RC ctx)) c)). lia.
Qed.

Lemma payload_has_the_announced_length_witness :
  reader_ok (Sample.thread 7)
  /\ Forall (fun ev => Z.of_nat (length (Tls.data ev)) = Tls.data_len ev)
       (out (Tls.handle_ssl_write_exit (Sample.thread 7) (Sample.at_exit 600)
               Sample.tls_busy)
        ++ out (Tls.handle_ssl_read_exit (Sample.thread 7) (Sample.at_exit 600)
                  Sample.tls_busy))
  /\ out (Tls.handle_ssl_write_exit (Sample.thread 7) (Sample.at_exit 600)
            Sample.tls_busy) <> [].
Proof.
  assert (reader_ok (Sample.thread 7)) as Hreader.
  { intros addr size bytes. cbn [probe_read_user Sample.thread].
    unfold Sample.user_memory. destruct (_ && _); [| discriminate].
    intros E. injection E as <-. now rewrite length_fmap, length_seqZ. }
  split; [exact Hreader |]. split.
  - exact (proj1 (payload_has_the_announced_length (Sample.thread 7)
             (Sample.at_exit 600) Sample.tls_busy Hook.init Hreader)).
  - vm_compute. discriminate.
Defined.

(** ** X16: return codes of 2^32 and more *)

(** X16.  emit_event keeps the low 32 bits of the return code: every record
    has total_len = return code mod 2^32 and data_len = min(that, 512).  A
    positive return code that is a multiple of 2^32 therefore yields a record
    of total and captured length 0, unflagged and with an empty payload, and
    the memory of the process is not read for it. *)
Theorem return_code_is_narrowed
    (e : env) (ctx : pt_regs) (s : Tls.maps) :
  Forall (fun ev =>
            Tls.total_len ev = s64 (PT_REGS_RC ctx) mod 2 ^ 32
            /\ Tls.data_len ev
               = Z.min (s64 (PT_REGS_RC ctx) mod 2 ^ 32) Tls.MAX_TLS_DATA)
    (out (Tls.handle_ssl_write_exit e ctx s)
     ++ out (Tls.handle_ssl_read_exit e ctx s))
  /\ (0 < s64 (PT_REGS_RC ctx) ->
      s64 (PT_REGS_RC ctx) mod 2 ^ 32 = 0 ->
      ringbuf_has_room e = true ->
      forall a,
        (Tls.pending_write s !! Tls.tid_key e = Some a ->
         out (Tls.handle_ssl_write_exit e ctx s)
         = [ {| Tls.timestamp_ns := ktime_ns e;
                Tls.ssl_ptr := Tls.args_ssl_ptr a;
                Tls.pid := Tls.get_pid (current_pid_tgid e);
                Tls.tid := Tls.get_tid (current_pid_tgid e);
                Tls.fd := Tls.lookup_fd (Tls.ssl_fd_map s) (Tls.args_ssl_ptr a);
                Tls.total_len := 0; Tls.data_len := 0;
                Tls.direction := Tls.DIR_WRITE; Tls.flags := 0;
                Tls.data := [] |} ])
        /\ (Tls.pending_read s !! Tls.tid_key e = Some a ->
            out (Tls.handle_ssl_read_exit e ctx s)
            = [ {| Tls.timestamp_ns := ktime_ns e;
                   Tls.ssl_ptr := Tls.args_ssl_ptr a;
                   Tls.pid := Tls.get_pid (current_pid_tgid e);
                   Tls.tid := Tls.get_tid (current_pid_tgid e);
                   Tls.fd := Tls.lookup_fd (Tls.ssl_fd_map s)
                               (Tls.args_ssl_ptr a);
                   Tls.total_len := 0; Tls.data_len := 0;
                   Tls.direction := Tls.DIR_READ; Tls.flags := 0;
                   Tls.data := [] |} ])).
Proof.
  split.
  - apply Forall_forall. intros ev Hin.
    destruct (exit_record _ _ _ _ Hin) as (a & dir & Hev).
    destruct (emit_event_record _ _ _ _ _ _ Hev) as (_ & _ & Ht & Hd & _).
    split; [exact Ht | exact Hd].
  - intros Hpos Hzero Hroom a.
    assert (forall dir,
              tls_record e (Tls.ssl_fd_map s) a (s64 (PT_REGS_RC ctx)) dir
              = {| Tls.timestamp_ns := ktime_ns e;
                   Tls.ssl_ptr := Tls.args_ssl_ptr a;
                   Tls.pid := Tls.get_pid (current_pid_tgid e);
                   Tls.tid := Tls.get_tid (current_pid_tgid e);
                   Tls.fd := Tls.lookup_fd (Tls.ssl_fd_map s)
                               (Tls.args_ssl_ptr a);
                   Tls.total_len := 0; Tls.data_len := 0;
                   Tls.direction := dir; Tls.flags := 0;
                   Tls.data := [] |}) as Hrec.
    { intros dir. unfold tls_record, u32. rewrite Hzero. reflexivity. }
    split; intros Hk.
    + rewrite (write_exit_exact e ctx s a Hk Hpos Hroom). cbn [out].
      now rewrite Hrec.
    + rewrite (read_exit_exact e ctx s a Hk Hpos Hroom). cbn [out].
      now rewrite Hrec.
Qed.

Lemma return_code_is_narrowed_witness :
  0 < s64 (PT_REGS_RC (Sample.at_exit (2 ^ 32)))
  /\ s64 (PT_REGS_RC (Sample.at_exit (2 ^ 32))) mod 2 ^ 32 = 0
  /\ ringbuf_has_room (Sample.thread 7) = true
  /\ Tls.pending_write Sample.tls_busy !! Tls.tid_key (Sample.thread 7)
     = Some {| Tls.args_ssl_ptr := 1; Tls.args_buf_ptr := Sample.buf_addr |}
  /\ out (Tls.handle_ssl_write_exit (Sample.thread 7)
            (Sample.at_exit (2 ^ 32)) Sample.tls_busy)
     = [ {| Tls.timestamp_ns := 1000; Tls.ssl_ptr := 1; Tls.pid := 0;
            Tls.tid := 7; Tls.fd := 5; Tls.total_len := 0; Tls.data_len := 0;
            Tls.direction := Tls.DIR_WRITE; Tls.flags := 0;
            Tls.data := [] |} ].
Proof.
  assert (0 < s64 (PT_REGS_RC (Sample.at_exit (2 ^ 32)))) as Hpos
    by (vm_compute; reflexivity).
  assert (s64 (PT_REGS_RC (Sample.at_exit (2 ^ 32))) mod 2 ^ 32 = 0) as Hzero
    by (vm_compute; reflexivity).
  split; [exact Hpos |]. split; [exact Hzero |]. split; [reflexivity |].
  split; [reflexivity |].
  exact (proj1 (proj2 (return_code_is_narrowed (Sample.thread 7)
           (Sample.at_exit (2 ^ 32)) Sample.tls_busy) Hpos Hzero eq_refl _)
         eq_refl).
Defined.

(** ** X17: when exactly a probe hands over a record *)

(** X17.  An exit probe of the ring-buffer program hands over a record
    exactly when the thread has a pending entry of that direction, the
    return code is positive and the ring buffer has room.  The SSL_write
    probe of the perf program does exactly when the requested length is
    within 1 .. 65536, the buffer can be read and the perf array has room;
    its SSL_read exit probe exactly when the return code is within
    1 .. 65536, the thread has a pending entry, the buffer of that entry can
    be read and the perf array has room. *)
Theorem when_a_record_is_handed_over
    (e : env) (ctx : pt_regs) (s : Tls.maps) (m : gmap Z Hook.ssl_read_ctx) :
  (out (Tls.handle_ssl_write_exit e ctx s) <> []
   <-> is_Some (Tls.pending_write s !! Tls.tid_key e)
       /\ 0 < s64 (PT_REGS_RC ctx) /\ ringbuf_has_room e = true)
  /\ (out (Tls.handle_ssl_read_exit e ctx s) <> []
      <-> is_Some (Tls.pending_read s !! Tls.tid_key e)
          /\ 0 < s64 (PT_REGS_RC ctx) /\ ringbuf_has_room e = true)
  /\ (out (Hook.uprobe_ssl_write e ctx m) <> []
      <-> 0 < s32 (PT_REGS_PARM3 ctx) <= Hook.MAX_CAPTURE_SIZE
          /\ is_Some (probe_read_user e (u64 (PT_REGS_PARM2 ctx))
                        (s32 (PT_REGS_PARM3 ctx)))
          /\ perf_has_room e = true)
  /\ (out (Hook.uretprobe_ssl_read e ctx m) <> []
      <-> 0 < s64 (PT_REGS_RC ctx) <= Hook.MAX_CAPTURE_SIZE
          /\ (exists c,
                m !! current_pid_tgid e = Some c
                /\ is_Some (probe_read_user e (Hook.buf c)
                              (u32 (read_len (s64 (PT_REGS_RC ctx)) c))))
          /\ perf_has_room e = true).
Proof.
  assert (forall (A : Type) (l : list A), l <> [] -> exists x, x ∈ l) as Hne.
  { intros A [| x l] Hl; [congruence |]. exists x. apply list_elem_of_here. }
  split; [| split; [| split]].
  - split.
    + intros Hout. destruct (Hne _ _ Hout) as (ev & Hin).
      destruct (write_exit_record _ _ _ _ Hin) as (a & Hk & Hev).
      destruct (emit_event_record _ _ _ _ _ _ Hev) as (Hpos & Hroom & _).
      split; [eauto | now split].
    + intros ([a Hk] & Hpos & Hroom).
      now rewrite (write_exit_exact e ctx s a Hk Hpos Hroom).
  - split.
    + intros Hout. destruct (Hne _ _ Hout) as (ev & Hin).
      destruct (read_exit_record _ _ _ _ Hin) as (a & Hk & Hev).
      destruct (emit_event_record _ _ _ _ _ _ Hev) as (Hpos & Hroom & _).
      split; [eauto | now split].
    + intros ([a Hk] & Hpos & Hroom).
      now rewrite (read_exit_exact e ctx s a Hk Hpos Hroom).
  - split.
    + intros Hout. destruct (Hne _ _ Hout) as (ev & Hin).
      destruct (write_out_exact _ _ _ _ Hin) as (bytes & Hread & Hn & _).
      destruct (write_out_inv _ _ _ _ Hin) as (_ & Hroom & _).
      split; [exact Hn |]. split; [eauto | exact Hroom].
    + intros (Hn & [bytes Hread] & Hroom).
      rewrite (write_submitted e ctx m bytes Hn).
      * unfold Hook.perf_event_output. now rewrite Hroom.
      * rewrite u32_small by (unfold Hook.MAX_CAPTURE_SIZE in Hn; lia).
        exact Hread.
  - split.
    + intros Hout. destruct (Hne _ _ Hout) as (ev & Hin).
      destruct (read_out_exact _ _ _ _ Hin) as (c & bytes & Hk & Hr & Hread & _).
      destruct (read_exit_out_inv _ _ _ _ Hin) as (_ & _ & _ & Hroom & _).
      split; [exact Hr |]. split; [| exact Hroom]. exists c. eauto.
    + intros (Hr & (c & Hk & [bytes Hread]) & Hroom).
      rewrite (read_exit_submitted e ctx m c bytes Hr Hk Hread).
      unfold Hook.perf_event_output. now rewrite Hroom.
Qed.

(** ** X18: an exit is matched once *)

(** X18.  After an exit probe has run on a thread, a further exit of the same
    direction on that thread, with no entry in between, hands over nothing
    and leaves the maps as they are, whatever its return code. *)
Theorem second_exit_is_noop
    (e e' : env) (ctx ctx' : pt_regs)
    (s : Tls.maps) (m : gmap Z Hook.ssl_read_ctx) :
  current_pid_tgid e' = current_pid_tgid e ->
  Tls.handle_ssl_write_exit e' ctx' (st (Tls.handle_ssl_write_exit e ctx s))
  = {| ret := 0; st := st (Tls.handle_ssl_write_exit e ctx s); out := [] |}
  /\ Tls.handle_ssl_read_exit e' ctx' (st (Tls.handle_ssl_read_exit e ctx s))
     = {| ret := 0; st := st (Tls.handle_ssl_read_exit e ctx s); out := [] |}
  /\ Hook.uretprobe_ssl_read e' ctx' (st (Hook.uretprobe_ssl_read e ctx m))
     = {| ret := 0; st := st (Hook.uretprobe_ssl_read e ctx m); out := [] |}.
Proof.
  intros Hsame. split; [| split].
  - apply write_exit_absent. rewrite write_exit_st. cbn [Tls.pending_write].
    unfold Tls.tid_key. rewrite Hsame. apply lookup_delete_eq.
  - apply read_exit_absent. rewrite read_exit_st_tls. cbn [Tls.pending_read].
    unfold Tls.tid_key. rewrite Hsame. apply lookup_delete_eq.
  - apply read_exit_absent_hook. rewrite read_exit_st, Hsame.
    apply lookup_delete_eq.
Qed.

Lemma second_exit_is_noop_witness :
  current_pid_tgid (Sample.thread 7) = current_pid_tgid (Sample.thread 7)
  /\ out (Tls.handle_ssl_write_exit (Sample.thread 7) (Sample.at_exit 5)
            Sample.tls_busy) <> []
  /\ Tls.handle_ssl_write_exit (Sample.thread 7) (Sample.at_exit 5)
       (st (Tls.handle_ssl_write_exit (Sample.thread 7) (Sample.at_exit 5)
              Sample.tls_busy))
     = {| ret := 0;
          st := st (Tls.handle_ssl_write_exit (Sample.thread 7)
                      (Sample.at_exit 5) Sample.tls_busy);
          out := [] |}.
Proof.
  split; [reflexivity |]. split; [vm_compute; discriminate |].
  exact (proj1 (second_exit_is_noop (Sample.thread 7) (Sample.thread 7)
           (Sample.at_exit 5) (Sample.at_exit 5) Sample.tls_busy
           Sample.hook_busy eq_refl)).
Defined.
